(** * Feel Good Spas: the vCon parser and the enrichment pipeline

    A shallow embedding of [vcon_parser.py] and [data_processor.py].

    Conventions of the embedding.
    - A Python [str] is a [string]; [lower] folds the ASCII letters and
      leaves every other character alone.
    - A Python [int] is a [Z].  An emitted float is read as the decimal
      that [round(x, n)] made of it.  The sentiment, whose polarity is any
      double, is computed in IEEE doubles (the primitive floats).  The
      quality score, the adherence rate and the topic confidence, whose
      inputs are a few small counts, are computed in exact rationals; the
      module [Binary64] redoes their arithmetic in doubles, and the
      section of the same name checks that rounding the double gives the
      decimal of the rational model.  JSON numbers with a fractional part
      are left out of [json]: a duration is an int, a bool or not a
      number.
    - A raised exception is a value [Raise e] of [pyres]; [try_except] is
      [try: ... except Exception: ...].
    - A dictionary whose order matters ([topic_scores], [script_elements])
      is an association list in insertion order; a dictionary with a fixed
      set of keys is a record.
    - TextBlob, [datetime], [str()] on arbitrary values and the file system
      are collaborators outside the repository: the class [Runtime]. *)

From Stdlib Require Import ZArith QArith List String Ascii Bool Lia DecimalString.
From Stdlib Require PrimFloat FloatOps SpecFloat Uint63 FloatAxioms.
From Stdlib Require Import Permutation Lqa.
Import ListNotations.
Open Scope string_scope.
Open Scope Z_scope.

Set Implicit Arguments.

(* ================================================================== *)
(** * Python primitives *)
(* ================================================================== *)

Module Py.

Inductive exn : Type :=
| KeyError (key : string)
| AttributeError
| TypeError
| ValueError
| FileNotFoundError
| JSONDecodeError
| OSError.

Inductive pyres (A : Type) : Type :=
| Ok (a : A)
| Raise (e : exn).

Arguments Ok {A} a.
Arguments Raise {A} e.

Definition bind {A B} (m : pyres A) (k : A -> pyres B) : pyres B :=
  match m with
  | Ok a => k a
  | Raise e => Raise e
  end.

(** [try: m  except Exception as e: h e] *)
Definition try_except {A} (m : pyres A) (h : exn -> A) : A :=
  match m with
  | Ok a => a
  | Raise e => h e
  end.

(** [for x in xs: ...] collecting the results, stopping at the first raise. *)
Fixpoint mapM {A B} (f : A -> pyres B) (xs : list A) : pyres (list B) :=
  match xs with
  | [] => Ok []
  | x :: xs' =>
      bind (f x) (fun y => bind (mapM f xs') (fun ys => Ok (y :: ys)))
  end.

(** ** Strings *)

Definition lower_ascii (c : ascii) : ascii :=
  let n := N_of_ascii c in
  if ((65 <=? n) && (n <=? 90))%N then ascii_of_N (n + 32) else c.

(** [s.lower()] *)
Fixpoint lower (s : string) : string :=
  match s with
  | EmptyString => EmptyString
  | String c s' => String (lower_ascii c) (lower s')
  end.

(** [pat in s] *)
Fixpoint occurs (pat s : string) : bool :=
  prefix pat s ||
  match s with
  | EmptyString => false
  | String _ s' => occurs pat s'
  end.

(** [any(p in s for p in pats)] *)
Definition any_in (pats : list string) (s : string) : bool :=
  existsb (fun p => occurs p s) pats.

(** [sum(xs)] *)
Definition sum (xs : list Z) : Z := fold_left Z.add xs 0.

(** [sum(1 for p in pats if p in s)] *)
Definition count_in (pats : list string) (s : string) : Z :=
  sum (map (fun _ => 1) (filter (fun p => occurs p s) pats)).

(** [s.replace(c, by)] for a one-character [c] *)
Fixpoint replace_char (c : ascii) (by_ : string) (s : string) : string :=
  match s with
  | EmptyString => EmptyString
  | String a s' =>
      if Ascii.eqb a c then by_ ++ replace_char c by_ s'
      else String a (replace_char c by_ s')
  end.

(** [sep.join(parts)] *)
Fixpoint join (sep : string) (parts : list string) : string :=
  match parts with
  | [] => ""
  | [p] => p
  | p :: ps => p ++ sep ++ join sep ps
  end.

Definition str_of_Z (z : Z) : string :=
  match z with
  | Z0 => "0"
  | Zpos p => NilZero.string_of_uint (Pos.to_uint p)
  | Zneg p => "-" ++ NilZero.string_of_uint (Pos.to_uint p)
  end.

(** ** Floats as rationals *)

(** [round(q, ndigits)]: to the nearest multiple of [10^-ndigits], a tie
    going to the even one. *)
Definition round (q : Q) (ndigits : nat) : Q :=
  let scale := 10 ^ Z.of_nat ndigits in
  let num := Qnum q * scale in
  let den := Zpos (Qden q) in
  let fl := num / den in
  let r := num mod den in
  let n :=
    match 2 * r ?= den with
    | Lt => fl
    | Gt => fl + 1
    | Eq => if Z.even fl then fl else fl + 1
    end in
  Qred (Qmake n (Z.to_pos scale)).

Definition Qmax (a b : Q) : Q := if Qle_bool b a then a else b.
Definition Qmin (a b : Q) : Q := if Qle_bool a b then a else b.
Definition Qlt_bool (a b : Q) : bool := negb (Qle_bool b a).

(** ** JSON values, as [json.load] returns them *)

#[warning="-register-all"]
Inductive json : Type :=
| JNull
| JBool (b : bool)
| JInt (z : Z)
| JStr (s : string)
| JList (l : list json)
| JDict (d : list (string * json)).

Fixpoint assoc {V} (k : string) (d : list (string * V)) : option V :=
  match d with
  | [] => None
  | (k', v) :: d' => if String.eqb k k' then Some v else assoc k d'
  end.

(** [d[k]] on a dictionary *)
Definition getitem {V} (d : list (string * V)) (k : string) : pyres V :=
  match assoc k d with
  | Some v => Ok v
  | None => Raise (KeyError k)
  end.

(** [v.get(k, default)]: only a dict has the method. *)
Definition get (v : json) (k : string) (default : json) : pyres json :=
  match v with
  | JDict d => Ok (match assoc k d with Some x => x | None => default end)
  | _ => Raise AttributeError
  end.

Fixpoint chars (s : string) : list json :=
  match s with
  | EmptyString => []
  | String c s' => JStr (String c EmptyString) :: chars s'
  end.

(** [for x in v]: a list gives its items, a dict its keys, a str its
    characters; nothing else is iterable. *)
Definition iter (v : json) : pyres (list json) :=
  match v with
  | JList l => Ok l
  | JDict d => Ok (map (fun kv => JStr (fst kv)) d)
  | JStr s => Ok (chars s)
  | _ => Raise TypeError
  end.

(** [bool(v)] *)
Definition truthy (v : json) : bool :=
  match v with
  | JNull => false
  | JBool b => b
  | JInt z => negb (z =? 0)
  | JStr s => negb (String.eqb s "")
  | JList l => match l with [] => false | _ => true end
  | JDict d => match d with [] => false | _ => true end
  end.

(** [v == 0]: [False == 0] holds in Python. *)
Definition eq_zero (v : json) : bool :=
  match v with
  | JInt z => z =? 0
  | JBool b => negb b
  | _ => false
  end.

(** [v == s] for a string literal [s] *)
Definition eq_str (v : json) (s : string) : bool :=
  match v with
  | JStr t => String.eqb t s
  | _ => false
  end.

(** [isinstance(v, (int, float))] with the number; [bool] is an [int]. *)
Definition as_number (v : json) : option Z :=
  match v with
  | JInt z => Some z
  | JBool b => Some (if b then 1 else 0)
  | _ => None
  end.

(** [v.lower()]: only a str has the method. *)
Definition str_lower (v : json) : pyres string :=
  match v with
  | JStr s => Ok (lower s)
  | _ => Raise AttributeError
  end.

End Py.

Import Py.

Declare Scope py_scope.
Notation "x <- m ;; k" := (bind m (fun x => k))
  (at level 61, m at next level, right associativity) : py_scope.
Open Scope py_scope.

(* ================================================================== *)
(** * Collaborators outside the repository *)
(* ================================================================== *)

(** What the pipeline calls and does not define.  [json_load p] is
    [json.load(open(p))]: the decoded document, or the exception raised.
    [textblob_sentiment t] is [TextBlob(t).sentiment] as the pair
    (polarity, subjectivity) of doubles.  [to_csv p] is the outcome of writing the
    data frame to [p], and [nunique col] is [df[c].nunique()] for a
    column [c] that holds the values [col].  [str] is what an f-string
    shows of a value; only its behaviour on a str is fixed here. *)
Class Runtime : Type := {
  str : json -> string;
  str_of_str : forall s, str (JStr s) = s;
  textblob_sentiment : string -> pyres (PrimFloat.float * PrimFloat.float);
  datetime : Type;
  fromisoformat : string -> pyres datetime;
  strftime : datetime -> string -> string;
  dt_year : datetime -> Z;
  dt_month : datetime -> Z;
  dt_hour : datetime -> Z;
  weekday : datetime -> Z;
  path_exists : string -> bool;
  glob : string -> list string;
  json_load : string -> pyres json;
  to_csv : string -> pyres unit;
  nunique : list json -> pyres Z
}.

(** The lines the batch level writes to the log; the per-record helpers
    log too, which changes no result and is left out. *)
Inductive log_line : Type :=
| InfoProcessingFile (path : string)
| InfoLoaded (n : Z) (path : string)
| ErrorFileNotFound (path : string)
| ErrorInvalidJSON (path : string)
| ErrorLoading (path : string)
| InfoParsed (n : Z)
| InfoProcessed (n : Z) (path : string)
| InfoTotal (n : Z).

Definition len {A} (l : list A) : Z := Z.of_nat (List.length l).

Definition nl : string := String "010"%char EmptyString.
Definition dq : string := String "034"%char EmptyString.

(** [json.dumps(d)] for a dict from str to int. *)
Definition dumps (d : list (string * Z)) : string :=
  "{" ++ join ", " (map (fun kv => dq ++ fst kv ++ dq ++ ": " ++ str_of_Z (snd kv)) d)
      ++ "}".

(** [max(d, key=d.get)]: the first key, in insertion order, whose value
    is the largest. *)
Definition max_key (d : list (string * Z)) : pyres string :=
  match d with
  | [] => Raise ValueError
  | kv :: rest =>
      Ok (fst (fold_left
                 (fun best kv' => if snd best <? snd kv' then kv' else best)
                 rest kv))
  end.

(** [any(d.values())] *)
Definition any_value (d : list (string * Z)) : bool :=
  existsb (fun kv => negb (snd kv =? 0)) d.

(* ================================================================== *)
(** * vcon_parser.py *)
(* ================================================================== *)

Module VConParser.

Record Party : Type := {
  name : json;
  tel : json;
  email : json;
  role : string;
  location : json;
  organization : json
}.

Record DialogEntry : Type := {
  type : json;
  party : json;
  start : json;
  duration : json;
  body : json;
  mimetype : json;
  url : json;
  encoding : json
}.

Record AnalysisEntry : Type := {
  a_type : json;
  a_dialog : json;
  a_vendor : json;
  a_schema : json;
  a_body : json;
  a_encoding : json
}.

Record Metrics : Type := {
  total_duration : Z;
  message_count : Z;
  agent_messages : Z;
  customer_messages : Z;
  avg_response_time : Z;
  conversation_type : string;
  has_recording : bool;
  has_analysis : bool
}.

Record ParsedConversation : Type := {
  conversation_id : json;
  subject : json;
  created_at : json;
  updated_at : json;
  parties : list Party;
  dialog : list DialogEntry;
  analysis : list AnalysisEntry;
  metrics : Metrics;
  raw_vcon : json
}.

(** The dict [call_details] of [extract_business_data]. *)
Record CallDetails : Type := {
  cd_conversation_id : json;
  cd_subject : json;
  cd_created_at : json;
  duration_seconds : Z;
  cd_message_count : Z;
  cd_conversation_type : string;
  cd_has_recording : bool;
  agent_name : json;
  agent_email : json;
  customer_name : json;
  customer_phone : json;
  cd_location : json;
  conversation_text : string
}.

Definition agent_indicators : list string :=
  ["support"; "agent"; "rep"; "service"].

Definition _determine_party_role (party : json) : pyres string :=
  n <- get party "name" (JStr "") ;;
  name <- str_lower n ;;
  e <- get party "email" (JStr "") ;;
  email <- str_lower e ;;
  if any_in agent_indicators name then Ok "agent"
  else if occurs "feelgoodspas" email || occurs "spa" email then Ok "agent"
  else Ok "customer".

Definition party_info (party : json) : pyres Party :=
  n <- get party "name" (JStr "Unknown") ;;
  t <- get party "tel" (JStr "") ;;
  e <- get party "email" (JStr "") ;;
  r <- _determine_party_role party ;;
  l <- get party "location" (JStr "") ;;
  o <- get party "organization" (JStr "") ;;
  Ok {| name := n; tel := t; email := e; role := r;
        location := l; organization := o |}.

Definition _extract_parties (parties_data : json) : pyres (list Party) :=
  ps <- iter parties_data ;;
  mapM party_info ps.

Definition dialog_entry (entry : json) : pyres DialogEntry :=
  ty <- get entry "type" (JStr "text") ;;
  p <- get entry "party" (JInt 0) ;;
  s <- get entry "start" (JInt 0) ;;
  d <- get entry "duration" (JInt 0) ;;
  b <- get entry "body" (JStr "") ;;
  m <- get entry "mimetype" (JStr "") ;;
  u <- get entry "url" (JStr "") ;;
  en <- get entry "encoding" (JStr "none") ;;
  Ok {| type := ty; party := p; start := s; duration := d; body := b;
        mimetype := m; url := u; encoding := en |}.

Definition _extract_dialog (dialog_data : json) : pyres (list DialogEntry) :=
  es <- iter dialog_data ;;
  mapM dialog_entry es.

Definition analysis_entry (entry : json) : pyres AnalysisEntry :=
  ty <- get entry "type" (JStr "") ;;
  d <- get entry "dialog" (JInt 0) ;;
  v <- get entry "vendor" (JStr "") ;;
  s <- get entry "schema" (JStr "") ;;
  b <- get entry "body" (JDict []) ;;
  en <- get entry "encoding" (JStr "json") ;;
  Ok {| a_type := ty; a_dialog := d; a_vendor := v; a_schema := s;
        a_body := b; a_encoding := en |}.

Definition _extract_analysis (analysis_data : json) : pyres (list AnalysisEntry) :=
  es <- iter analysis_data ;;
  mapM analysis_entry es.

Definition booking_keywords : list string :=
  ["appointment"; "booking"; "schedule"; "reserve"; "book"].
Definition complaint_keywords : list string :=
  ["complaint"; "problem"; "issue"; "unhappy"; "dissatisfied"].
Definition billing_keywords : list string :=
  ["billing"; "payment"; "charge"; "invoice"; "refund"].
Definition service_keywords : list string :=
  ["service"; "treatment"; "massage"; "facial"; "spa"].

Definition _classify_conversation_type (text : string) : string :=
  let text_lower := lower text in
  let booking_count := count_in booking_keywords text_lower in
  let complaint_count := count_in complaint_keywords text_lower in
  let billing_count := count_in billing_keywords text_lower in
  let service_count := count_in service_keywords text_lower in
  let max_count :=
    Z.max (Z.max (Z.max booking_count complaint_count) billing_count)
          service_count in
  if max_count =? 0 then "general"
  else if max_count =? booking_count then "booking"
  else if max_count =? complaint_count then "complaint"
  else if max_count =? billing_count then "billing"
  else "service_inquiry".

(** One turn of the loop of [_calculate_conversation_metrics]. *)
Definition metrics_step (m : Metrics) (entry : DialogEntry) : Metrics :=
  let td :=
    match as_number (duration entry) with
    | Some d => total_duration m + d
    | None => total_duration m
    end in
  let is_agent := eq_zero (party entry) in
  {| total_duration := td;
     message_count := message_count m;
     agent_messages :=
       if is_agent then agent_messages m + 1 else agent_messages m;
     customer_messages :=
       if is_agent then customer_messages m else customer_messages m + 1;
     avg_response_time := avg_response_time m;
     conversation_type := conversation_type m;
     has_recording :=
       if eq_str (type entry) "recording" then true else has_recording m;
     has_analysis := has_analysis m |}.

(** An item of [' '.join(...)] has to be a str. *)
Definition join_item (v : json) : pyres string :=
  match v with
  | JStr s => Ok s
  | _ => Raise TypeError
  end.

Definition _calculate_conversation_metrics
    (dialog_data : list DialogEntry) (analysis_data : list AnalysisEntry)
    : pyres Metrics :=
  let metrics0 :=
    {| total_duration := 0;
       message_count := len dialog_data;
       agent_messages := 0;
       customer_messages := 0;
       avg_response_time := 0;
       conversation_type := "unknown";
       has_recording := false;
       has_analysis := 0 <? len analysis_data |} in
  let m := fold_left metrics_step dialog_data metrics0 in
  bodies <- mapM join_item (map body dialog_data) ;;
  let all_text := join " " bodies in
  Ok {| total_duration := total_duration m;
        message_count := message_count m;
        agent_messages := agent_messages m;
        customer_messages := customer_messages m;
        avg_response_time := avg_response_time m;
        conversation_type := _classify_conversation_type all_text;
        has_recording := has_recording m;
        has_analysis := has_analysis m |}.

(** [None] is the [return None] of the [except] branch. *)
Definition _parse_single_conversation (vcon_data : json)
    : option ParsedConversation :=
  try_except
    (uuid <- get vcon_data "uuid" (JStr "") ;;
     cid <- get vcon_data "id" uuid ;;
     subj <- get vcon_data "subject" (JStr "Unknown") ;;
     cat <- get vcon_data "created_at" (JStr "") ;;
     uat <- get vcon_data "updated_at" (JStr "") ;;
     vcon_json <- get vcon_data "vcon_json" (JDict []) ;;
     pd <- get vcon_json "parties" (JList []) ;;
     ps <- _extract_parties pd ;;
     dd <- get vcon_json "dialog" (JList []) ;;
     ds <- _extract_dialog dd ;;
     ad <- get vcon_json "analysis" (JList []) ;;
     an <- _extract_analysis ad ;;
     m <- _calculate_conversation_metrics ds an ;;
     Ok (Some {| conversation_id := cid; subject := subj; created_at := cat;
                 updated_at := uat; parties := ps; dialog := ds;
                 analysis := an; metrics := m; raw_vcon := vcon_data |}))
    (fun _ => None).

(** [parse_conversations]: the new value of [self.parsed_data]. *)
Fixpoint parse_conversations (conversations : list json)
    : list ParsedConversation :=
  match conversations with
  | [] => []
  | conversation :: rest =>
      match _parse_single_conversation conversation with
      | Some parsed_conv => parsed_conv :: parse_conversations rest
      | None => parse_conversations rest
      end
  end.

(** [None] is the empty dict [{}]. *)
Definition _get_agent_info (conversation : ParsedConversation) : option Party :=
  match find (fun p => String.eqb (role p) "agent") (parties conversation) with
  | Some p => Some p
  | None => hd_error (parties conversation)
  end.

Definition _get_customer_info (conversation : ParsedConversation) : option Party :=
  match find (fun p => String.eqb (role p) "customer") (parties conversation) with
  | Some p => Some p
  | None => nth_error (parties conversation) 1
  end.

(** [info.get(key, default)] on a party dict or on [{}]. *)
Definition info_get (info : option Party) (field : Party -> json)
    (default : json) : json :=
  match info with
  | Some p => field p
  | None => default
  end.

Section WithRuntime.
Context `{RT : Runtime}.

Definition _extract_full_conversation_text (conversation : ParsedConversation)
    : string :=
  let text_parts :=
    flat_map
      (fun entry =>
         if eq_str (type entry) "text" && truthy (body entry) then
           let speaker := if eq_zero (party entry) then "Agent" else "Customer" in
           [speaker ++ ": " ++ str (body entry)]
         else [])
      (dialog conversation) in
  join nl text_parts.

Definition call_details (conversation : ParsedConversation) : CallDetails :=
  let agent_info := _get_agent_info conversation in
  let customer_info := _get_customer_info conversation in
  {| cd_conversation_id := conversation_id conversation;
     cd_subject := subject conversation;
     cd_created_at := created_at conversation;
     duration_seconds := total_duration (metrics conversation);
     cd_message_count := message_count (metrics conversation);
     cd_conversation_type := conversation_type (metrics conversation);
     cd_has_recording := has_recording (metrics conversation);
     agent_name := info_get agent_info name (JStr "Unknown");
     agent_email := info_get agent_info email (JStr "");
     customer_name := info_get customer_info name (JStr "Unknown");
     customer_phone := info_get customer_info tel (JStr "");
     cd_location := info_get agent_info location (JStr "Unknown");
     conversation_text := _extract_full_conversation_text conversation |}.

Definition extract_business_data (parsed_data : list ParsedConversation)
    : list CallDetails :=
  map call_details parsed_data.

(** [load_vcon_file]: the value returned, the new [self.conversations]
    and the line logged. *)
Definition load_vcon_file (file_path : string) (conversations : list json)
    : bool * list json * log_line :=
  match json_load file_path with
  | Ok data =>
      let conversations' :=
        match data with
        | JList l => l
        | _ => [data]
        end in
      (true, conversations', InfoLoaded (len conversations') file_path)
  | Raise FileNotFoundError => (false, conversations, ErrorFileNotFound file_path)
  | Raise JSONDecodeError => (false, conversations, ErrorInvalidJSON file_path)
  | Raise _ => (false, conversations, ErrorLoading file_path)
  end.

End WithRuntime.

End VConParser.

(* ================================================================== *)
(** * The float arithmetic in IEEE doubles *)
(* ================================================================== *)

Module Binary64.

Import PrimFloat.

(** [float(z)] for a small non-negative int. *)
Definition of_Z (z : Z) : float := of_uint63 (Uint63.of_Z z).

(** The double a decimal literal [n/d] is read as: the one nearest to
    the quotient. *)
Definition literal (n d : Z) : float := div (of_Z n) (of_Z d).

(** The exact value of a finite double. *)
Definition to_Q (x : float) : option Q :=
  match FloatOps.Prim2SF x with
  | SpecFloat.S754_zero _ => Some 0%Q
  | SpecFloat.S754_finite sign m e =>
      let magnitude :=
        match e with
        | Zneg p => Qmake (Zpos m) (2 ^ p)%positive
        | _ => inject_Z (Zpos m * 2 ^ e)
        end in
      Some (if sign then Qopp magnitude else magnitude)
  | _ => None
  end.

(** [round(x, ndigits)] read as a decimal: the exact value of the double,
    rounded. *)
Definition rounded (x : float) (ndigits : nat) : option Q :=
  option_map (fun q => round q ndigits) (to_Q x).

(** What [round(x, ndigits)] returns: for a finite [x] the double nearest
    to the rounded decimal, read as that decimal; [x] itself for a nan or
    an infinity. *)
Inductive rounded_float : Type :=
| Decimal (q : Q)
| NotFinite (x : float).

Definition round_float (x : float) (ndigits : nat) : rounded_float :=
  match to_Q x with
  | Some q => Decimal (round q ndigits)
  | None => NotFinite x
  end.

(** [min(a, b)] and [max(a, b)] of two floats. *)
Definition min2 (a b : float) : float := if ltb b a then b else a.
Definition max2 (a b : float) : float := if ltb a b then b else a.

(** The arithmetic of [_assess_call_quality] on the two counts. *)
Definition quality_score (positive_count negative_count duration : Z) : float :=
  let base_score := of_Z 7 in
  let base_score := add base_score (mul (of_Z positive_count) (literal 3 10)) in
  let base_score := sub base_score (mul (of_Z negative_count) (literal 5 10)) in
  let base_score :=
    if (120 <=? duration) && (duration <=? 600)
    then add base_score (literal 5 10)
    else if 900 <? duration then sub base_score (literal 3 10)
    else base_score in
  max2 (of_Z 1) (min2 (of_Z 10) base_score).

(** [followed_elements / total_elements] and
    [topic_scores[primary_topic] / max(total_matches, 1)]. *)
Definition quotient (a b : Z) : float := div (of_Z a) (of_Z b).

End Binary64.

(* ================================================================== *)
(** * The columns of the export *)
(* ================================================================== *)

Module Columns.

(** [column_order] of [export_to_csv]. *)
Definition column_order : list string :=
  [ "conversation_id"; "subject"; "created_at"; "call_date"; "call_time";
    "agent_name"; "agent_email"; "customer_name"; "customer_phone";
    "location"; "duration_seconds"; "message_count"; "conversation_type";
    "primary_topic"; "call_outcome"; "urgency_level";
    "sentiment_polarity"; "sentiment_label"; "customer_satisfaction_score";
    "call_quality_score"; "script_adherence_rate";
    "call_hour"; "call_day_of_week"; "is_weekend"; "is_business_hours" ].

(** [col in cols] *)
Definition mem (col : string) (cols : list string) : bool :=
  existsb (String.eqb col) cols.

(** [existing_cols + additional_cols] for the columns [df.columns]. *)
Definition final_columns (df_columns : list string) : list string :=
  let existing_cols := filter (fun col => mem col df_columns) column_order in
  let additional_cols :=
    filter (fun col => negb (mem col column_order)) df_columns in
  (existing_cols ++ additional_cols)%list.

(** The keys of the dict [enriched], in the order in which
    [extract_business_data] and [_enrich_conversation_data] insert them:
    the columns of the data frame built from the records. *)
Definition record_columns : list string :=
  [ "conversation_id"; "subject"; "created_at"; "duration_seconds";
    "message_count"; "conversation_type"; "has_recording"; "agent_name";
    "agent_email"; "customer_name"; "customer_phone"; "location";
    "conversation_text";
    "sentiment_polarity"; "sentiment_subjectivity"; "sentiment_label";
    "customer_satisfaction_score";
    "primary_topic"; "topic_confidence"; "topic_scores";
    "call_quality_score"; "positive_indicators_count";
    "negative_indicators_count";
    "script_adherence_rate"; "script_elements_followed";
    "script_elements_total"; "script_details";
    "customer_satisfaction_indicators"; "customer_dissatisfaction_indicators";
    "low_effort_indicators"; "high_effort_indicators";
    "net_satisfaction_score"; "net_effort_score";
    "call_date"; "call_time"; "call_hour"; "call_day_of_week"; "call_month";
    "call_year"; "is_weekend"; "is_business_hours"; "call_quarter";
    "call_outcome"; "urgency_level" ].

End Columns.

(* ================================================================== *)
(** * data_processor.py *)
(* ================================================================== *)

Module SpaDataProcessor.

Import VConParser.

Record Sentiment : Type := {
  sentiment_polarity : Binary64.rounded_float;
  sentiment_subjectivity : Binary64.rounded_float;
  sentiment_label : string;
  customer_satisfaction_score : Binary64.rounded_float
}.

Record Topics : Type := {
  primary_topic : string;
  topic_confidence : Q;
  topic_scores : string
}.

Record Quality : Type := {
  call_quality_score : Q;
  positive_indicators_count : Z;
  negative_indicators_count : Z
}.

Record Script : Type := {
  script_adherence_rate : Q;
  script_elements_followed : Z;
  script_elements_total : Z;
  script_details : string
}.

Record Experience : Type := {
  customer_satisfaction_indicators : Z;
  customer_dissatisfaction_indicators : Z;
  low_effort_indicators : Z;
  high_effort_indicators : Z;
  net_satisfaction_score : Z;
  net_effort_score : Z
}.

Record Temporal : Type := {
  call_date : string;
  call_time : string;
  call_hour : Z;
  call_day_of_week : string;
  call_month : string;
  call_year : Z;
  is_weekend : bool;
  is_business_hours : bool;
  call_quarter : string
}.

(** The dict [enriched]: the keys of [call_details] and those of every
    [update], which are pairwise distinct. *)
Record EnrichedRecord : Type := {
  details : CallDetails;
  sentiment : Sentiment;
  topics : Topics;
  quality : Quality;
  script : Script;
  experience : Experience;
  temporal : Temporal;
  call_outcome : string;
  urgency_level : string
}.

(** ** Topic classification *)

Definition topic_keywords : list (string * list string) :=
  [ ("appointment_scheduling",
      ["appointment"; "schedule"; "booking"; "book"; "reserve"; "availability"]);
    ("service_inquiry",
      ["service"; "treatment"; "massage"; "facial"; "spa"; "therapy"; "package"]);
    ("billing_payment",
      ["billing"; "payment"; "charge"; "invoice"; "refund"; "credit"; "cost"; "price"]);
    ("complaint",
      ["complaint"; "problem"; "issue"; "unhappy"; "dissatisfied"; "disappointed";
       "terrible"]);
    ("compliment",
      ["great"; "excellent"; "amazing"; "wonderful"; "fantastic"; "love"; "satisfied"]);
    ("cancellation",
      ["cancel"; "cancellation"; "reschedule"; "change"; "modify"]);
    ("technical_support",
      ["website"; "app"; "technical"; "login"; "password"; "system"]);
    ("product_inquiry",
      ["product"; "gift card"; "membership"; "package"; "voucher"]);
    ("location_hours",
      ["hours"; "location"; "address"; "directions"; "parking"; "open"; "closed"]) ].

Definition score_topics (text_lower : string) : list (string * Z) :=
  map (fun tk => (fst tk, count_in (snd tk) text_lower)) topic_keywords.

Definition _classify_topics (text : string) : pyres Topics :=
  let text_lower := lower text in
  let scores := score_topics text_lower in
  primary <- (if any_value scores then max_key scores else Ok "general") ;;
  let total_matches := sum (map snd scores) in
  primary_score <- getitem scores primary ;;
  let confidence := (inject_Z primary_score / inject_Z (Z.max total_matches 1))%Q in
  Ok {| primary_topic := primary;
        topic_confidence := round confidence 3;
        topic_scores := dumps scores |}.

(** ** Call quality *)

Definition positive_indicators : list string :=
  ["thank you"; "please"; "help"; "understand"; "sorry"; "apologize";
   "certainly"; "absolutely"; "of course"; "glad to help"].

Definition negative_indicators : list string :=
  ["rude"; "unprofessional"; "hang up"; "transfer"; "manager";
   "escalate"; "frustrated"; "angry"; "upset"].

(** Nothing in the body of the [try] raises on a str and an int, so the
    [except] branch is not reached. *)
Definition _assess_call_quality (text : string) (conversation : CallDetails)
    : Quality :=
  let text_lower := lower text in
  let positive_count := count_in positive_indicators text_lower in
  let negative_count := count_in negative_indicators text_lower in
  let base_score := 7%Q in
  let base_score := (base_score + inject_Z positive_count * (3 # 10))%Q in
  let base_score := (base_score - inject_Z negative_count * (5 # 10))%Q in
  let duration := duration_seconds conversation in
  let base_score :=
    if (120 <=? duration) && (duration <=? 600) then (base_score + (5 # 10))%Q
    else if 900 <? duration then (base_score - (3 # 10))%Q
    else base_score in
  let quality_score := Qmax 1 (Qmin 10 base_score) in
  {| call_quality_score := round quality_score 1;
     positive_indicators_count := positive_count;
     negative_indicators_count := negative_count |}.

(** ** Script adherence *)

Definition script_elements : list (string * list string) :=
  [ ("greeting",
      ["thank you for calling"; "feel good spas"; "how can i help"; "this is"]);
    ("identification", ["my name is"; "this is"; "speaking"]);
    ("problem_acknowledgment", ["understand"; "i see"; "i hear"; "let me help"]);
    ("solution_offering", ["i can help"; "let me"; "what i can do"; "here's what"]);
    ("follow_up", ["anything else"; "is there anything"; "follow up"; "contact us"]);
    ("closing", ["thank you"; "have a great"; "wonderful day"; "goodbye"]) ].

Definition score_adherence (text_lower : string) : list (string * Z) :=
  map (fun ep => (fst ep, if any_in (snd ep) text_lower then 1 else 0))
      script_elements.

Definition _analyze_script_adherence (text : string) : Script :=
  let text_lower := lower text in
  let adherence_scores := score_adherence text_lower in
  let total_elements := len script_elements in
  let followed_elements := sum (map snd adherence_scores) in
  let adherence_rate := (inject_Z followed_elements / inject_Z total_elements)%Q in
  {| script_adherence_rate := round adherence_rate 3;
     script_elements_followed := followed_elements;
     script_elements_total := total_elements;
     script_details := dumps adherence_scores |}.

(** ** Customer experience *)

Definition satisfaction_indicators : list string :=
  ["satisfied"; "happy"; "pleased"; "great"; "excellent";
   "wonderful"; "amazing"; "love"; "perfect"; "fantastic"].

Definition dissatisfaction_indicators : list string :=
  ["dissatisfied"; "unhappy"; "upset"; "angry"; "frustrated";
   "terrible"; "awful"; "horrible"; "worst"; "hate"].

Definition effort_indicators : list string :=
  ["easy"; "simple"; "quick"; "fast"; "convenient";
   "smooth"; "efficient"; "straightforward"].

Definition difficulty_indicators : list string :=
  ["difficult"; "hard"; "complicated"; "confusing";
   "slow"; "long wait"; "forever"; "complicated"].

Definition _analyze_customer_experience (text : string) : Experience :=
  let text_lower := lower text in
  let satisfaction_count := count_in satisfaction_indicators text_lower in
  let dissatisfaction_count := count_in dissatisfaction_indicators text_lower in
  let effort_count := count_in effort_indicators text_lower in
  let difficulty_count := count_in difficulty_indicators text_lower in
  {| customer_satisfaction_indicators := satisfaction_count;
     customer_dissatisfaction_indicators := dissatisfaction_count;
     low_effort_indicators := effort_count;
     high_effort_indicators := difficulty_count;
     net_satisfaction_score := satisfaction_count - dissatisfaction_count;
     net_effort_score := effort_count - difficulty_count |}.

(** ** Outcome and urgency *)

Definition resolved_words : list string :=
  ["resolved"; "fixed"; "solved"; "helped"; "booked"; "scheduled"].
Definition followup_words : list string :=
  ["follow up"; "call back"; "transfer"; "escalate"].
Definition cancelled_words : list string :=
  ["cancel"; "cancelled"; "no longer"; "changed mind"].
Definition complaint_words : list string :=
  ["complaint"; "refund"; "manager"; "dissatisfied"].

Definition _classify_call_outcome (text : string) : string :=
  let text_lower := lower text in
  if any_in resolved_words text_lower then "resolved"
  else if any_in followup_words text_lower then "requires_followup"
  else if any_in cancelled_words text_lower then "cancelled"
  else if any_in complaint_words text_lower then "complaint"
  else "completed".

Definition high_urgency : list string :=
  ["urgent"; "emergency"; "asap"; "immediately"; "crisis"; "critical"].
Definition medium_urgency : list string :=
  ["soon"; "today"; "this week"; "important"; "need help"].

Definition _classify_urgency (text : string) : string :=
  let text_lower := lower text in
  if any_in high_urgency text_lower then "high"
  else if any_in medium_urgency text_lower then "medium"
  else "low".

(** ** Temporal features *)

Definition _get_default_temporal_features : Temporal :=
  {| call_date := "2025-01-01";
     call_time := "12:00:00";
     call_hour := 12;
     call_day_of_week := "Monday";
     call_month := "January";
     call_year := 2025;
     is_weekend := false;
     is_business_hours := true;
     call_quarter := "Q1" |}.

(** [v.replace('Z', '+00:00')]: only a str has the method. *)
Definition replace_Z (v : json) : pyres string :=
  match v with
  | JStr s => Ok (replace_char "Z"%char "+00:00" s)
  | _ => Raise AttributeError
  end.

Section WithRuntime.
Context `{RT : Runtime}.

Definition _extract_temporal_features (created_at : json) : Temporal :=
  try_except
    (if negb (truthy created_at) then Ok _get_default_temporal_features
     else
       s <- replace_Z created_at ;;
       dt <- fromisoformat s ;;
       Ok {| call_date := strftime dt "%Y-%m-%d";
             call_time := strftime dt "%H:%M:%S";
             call_hour := dt_hour dt;
             call_day_of_week := strftime dt "%A";
             call_month := strftime dt "%B";
             call_year := dt_year dt;
             is_weekend := 5 <=? weekday dt;
             is_business_hours := (9 <=? dt_hour dt) && (dt_hour dt <=? 17);
             call_quarter := "Q" ++ str_of_Z ((dt_month dt - 1) / 3 + 1) |})
    (fun _ => _get_default_temporal_features).

(** ** Sentiment *)

Definition neutral_sentiment : Sentiment :=
  {| sentiment_polarity := Binary64.Decimal 0;
     sentiment_subjectivity := Binary64.Decimal 0;
     sentiment_label := "neutral";
     customer_satisfaction_score := Binary64.Decimal 5 |}.

(** The arithmetic is that of the doubles: the literals [0.1] and [-0.1]
    are the doubles nearest to them, and the sum and the product are
    rounded. *)
Definition _analyze_sentiment (text : string) : Sentiment :=
  try_except
    (if String.eqb text "" then Ok neutral_sentiment
     else
       ps <- textblob_sentiment text ;;
       let polarity := fst ps in
       let subjectivity := snd ps in
       let sentiment_label :=
         if PrimFloat.ltb (Binary64.literal 1 10) polarity then "positive"
         else if PrimFloat.ltb polarity (PrimFloat.opp (Binary64.literal 1 10))
              then "negative"
         else "neutral" in
       let satisfaction_score :=
         PrimFloat.add (Binary64.of_Z 5)
                       (PrimFloat.mul polarity (Binary64.of_Z 5)) in
       let satisfaction_score :=
         Binary64.max2 (Binary64.of_Z 1)
                       (Binary64.min2 (Binary64.of_Z 10) satisfaction_score) in
       Ok {| sentiment_polarity := Binary64.round_float polarity 3;
             sentiment_subjectivity := Binary64.round_float subjectivity 3;
             sentiment_label := sentiment_label;
             customer_satisfaction_score :=
               Binary64.round_float satisfaction_score 1 |})
    (fun _ => neutral_sentiment).

(** ** Enrichment of one conversation *)

Definition _enrich_conversation_data (conversation : CallDetails)
    : pyres EnrichedRecord :=
  let text := conversation_text conversation in
  let sentiment_data := _analyze_sentiment text in
  topics <- _classify_topics text ;;
  let quality_metrics := _assess_call_quality text conversation in
  let script_metrics := _analyze_script_adherence text in
  let cx_metrics := _analyze_customer_experience text in
  let temporal_features := _extract_temporal_features (cd_created_at conversation) in
  let outcome := _classify_call_outcome text in
  let urgency := _classify_urgency text in
  Ok {| details := conversation;
        sentiment := sentiment_data;
        topics := topics;
        quality := quality_metrics;
        script := script_metrics;
        experience := cx_metrics;
        temporal := temporal_features;
        call_outcome := outcome;
        urgency_level := urgency |}.

(** ** The batch *)

(** The attributes of the processor and of its parser, and the log. *)
Record State : Type := {
  conversations : list json;
  parsed_data : list ParsedConversation;
  processed_data : list EnrichedRecord;
  processed_files : list string;
  log : list log_line
}.

Definition init : State :=
  {| conversations := []; parsed_data := []; processed_data := [];
     processed_files := []; log := [] |}.

Definition emit (l : log_line) (st : State) : State :=
  {| conversations := conversations st; parsed_data := parsed_data st;
     processed_data := processed_data st;
     processed_files := processed_files st; log := log st ++ [l] |}.

(** The inner loop: [self.processed_data.append(enriched_data)]. *)
Fixpoint enrich_all (business_data : list CallDetails)
    (processed : list EnrichedRecord) : pyres (list EnrichedRecord) :=
  match business_data with
  | [] => Ok processed
  | conversation :: rest =>
      enriched_data <- _enrich_conversation_data conversation ;;
      enrich_all rest (processed ++ [enriched_data])
  end.

(** The body of [for file_path in files]. *)
Definition process_file (st : State) (file_path : string) : pyres State :=
  let st := emit (InfoProcessingFile file_path) st in
  let '(loaded, convs, line) := load_vcon_file file_path (conversations st) in
  let st := emit line
              {| conversations := convs; parsed_data := parsed_data st;
                 processed_data := processed_data st;
                 processed_files := processed_files st; log := log st |} in
  if loaded then
    let parsed := parse_conversations convs in
    let st := emit (InfoParsed (len parsed))
                {| conversations := convs; parsed_data := parsed;
                   processed_data := processed_data st;
                   processed_files := processed_files st; log := log st |} in
    let business_data := extract_business_data parsed in
    processed <- enrich_all business_data (processed_data st) ;;
    Ok (emit (InfoProcessed (len business_data) file_path)
          {| conversations := convs; parsed_data := parsed;
             processed_data := processed;
             processed_files := processed_files st ++ [file_path];
             log := log st |})
  else Ok st.

Fixpoint process_files (files : list string) (st : State) : pyres State :=
  match files with
  | [] => Ok st
  | file_path :: rest =>
      st' <- process_file st file_path ;;
      process_files rest st'
  end.

Definition expand (pattern : string) : list string :=
  if path_exists pattern then [pattern] else glob pattern.

Fixpoint process_patterns (file_patterns : list string) (st : State)
    : pyres State :=
  match file_patterns with
  | [] => Ok st
  | pattern :: rest =>
      st' <- process_files (expand pattern) st ;;
      process_patterns rest st'
  end.

(** [process_vcon_files]: [processed_files] is a local that starts empty. *)
Definition process_vcon_files (file_patterns : list string) (st : State)
    : pyres (bool * State) :=
  let st0 :=
    {| conversations := conversations st; parsed_data := parsed_data st;
       processed_data := processed_data st; processed_files := [];
       log := log st |} in
  st' <- process_patterns file_patterns st0 ;;
  let st' := emit (InfoTotal (len (processed_data st'))) st' in
  Ok (0 <? len (processed_files st'), st').

(** [df[cols]]: a column that the frame does not have is a [KeyError]. *)
Definition select_columns (df_columns cols : list string)
    : pyres (list string) :=
  match find (fun col => negb (Columns.mem col df_columns)) cols with
  | Some col => Raise (KeyError col)
  | None => Ok cols
  end.

(** [_print_summary_stats], for what it can raise; what it prints is left
    out.  [call_date], [conversation_type], [sentiment_label] and
    [call_outcome] hold strs and the three averaged columns hold floats,
    on which [min], [max], [value_counts] and [mean] return.  [agent_name]
    and [location] hold whatever the document had there. *)
Definition _print_summary_stats (df : list EnrichedRecord) : pyres unit :=
  _ <- nunique (map (fun r => agent_name (details r)) df) ;;
  _ <- nunique (map (fun r => cd_location (details r)) df) ;;
  Ok tt.

(** [export_to_csv]: an empty [processed_data] is refused before anything
    is written.  Every record has the keys [Columns.record_columns], which
    are the columns of the frame.  An exception of the selection, of the
    write or of the summary is caught, the summary coming after the
    write. *)
Definition export_to_csv (output_file : string) (st : State) : bool :=
  match processed_data st with
  | [] => false
  | df =>
      try_except
        (let df_columns := Columns.record_columns in
         let final_columns := Columns.final_columns df_columns in
         _ <- select_columns df_columns final_columns ;;
         _ <- to_csv output_file ;;
         _ <- _print_summary_stats df ;;
         Ok true)
        (fun _ => false)
  end.

Inductive outcome : Type :=
| Completed
| ExportFailed
| ProcessFailed.

(** [main] for a list of patterns and an output path; [Raise e] is an
    exception that leaves [main]. *)
Definition run (file_patterns : list string) (output_file : string)
    : pyres outcome :=
  r <- process_vcon_files file_patterns init ;;
  let '(ok, st) := r in
  if ok then
    if export_to_csv output_file st then Ok Completed else Ok ExportFailed
  else Ok ProcessFailed.

Definition main : pyres outcome :=
  run [ "attached_assets/feel-good-spas-vcons_1753848151720.json";
        "attached_assets/feel-good-spas-vcons_1753849037994.json";
        "attached_assets/feel-good-spas-vcons*.json" ]
      "processed_spa_data.csv".

End WithRuntime.

End SpaDataProcessor.

(* ================================================================== *)
(** * A concrete runtime, to run the pipeline on examples *)
(* ================================================================== *)

Module Sample.

(** A calendar date and time of day, as [datetime] holds them. *)
Record stamp : Type := {
  year : Z; month : Z; day : Z; hour : Z; minute : Z; second : Z
}.

Definition digit (c : ascii) : option Z :=
  let n := N_of_ascii c in
  if ((48 <=? n) && (n <=? 57))%N then Some (Z.of_N n - 48) else None.

Fixpoint number_from (acc : Z) (s : string) : option Z :=
  match s with
  | EmptyString => Some acc
  | String c s' =>
      match digit c with
      | Some d => number_from (10 * acc + d) s'
      | None => None
      end
  end.

Definition number (s : string) : option Z :=
  match s with
  | EmptyString => None
  | _ => number_from 0 s
  end.

Definition leap (y : Z) : bool :=
  ((y mod 4 =? 0) && negb (y mod 100 =? 0)) || (y mod 400 =? 0).

Definition days_in_month (y m : Z) : Z :=
  if m =? 2 then (if leap y then 29 else 28)
  else if (m =? 4) || (m =? 6) || (m =? 9) || (m =? 11) then 30
  else 31.

Definition valid (t : stamp) : bool :=
  (1 <=? year t) && (year t <=? 9999) &&
  (1 <=? month t) && (month t <=? 12) &&
  (1 <=? day t) && (day t <=? days_in_month (year t) (month t)) &&
  (hour t <=? 23) && (minute t <=? 59) && (second t <=? 59).

(** [YYYY-MM-DD], optionally followed by [T] or a space and [HH:MM:SS],
    optionally followed by an offset [+HH:MM] or [-HH:MM]. *)
Definition parse_date (s : string) : option (Z * Z * Z) :=
  match number (substring 0 4 s), number (substring 5 2 s),
        number (substring 8 2 s) with
  | Some y, Some m, Some d =>
      if String.eqb (substring 4 1 s) "-" && String.eqb (substring 7 1 s) "-"
      then Some (y, m, d) else None
  | _, _, _ => None
  end.

Definition parse_time (s : string) : option (Z * Z * Z) :=
  match number (substring 0 2 s), number (substring 3 2 s),
        number (substring 6 2 s) with
  | Some h, Some mi, Some se =>
      if String.eqb (substring 2 1 s) ":" && String.eqb (substring 5 1 s) ":"
      then Some (h, mi, se) else None
  | _, _, _ => None
  end.

Definition parse_offset (s : string) : bool :=
  String.eqb s "" ||
  ((String.eqb (substring 0 1 s) "+" || String.eqb (substring 0 1 s) "-")
   && (String.length s =? 6)%nat
   && match number (substring 1 2 s), number (substring 4 2 s) with
      | Some h, Some m =>
          String.eqb (substring 3 1 s) ":" && (h <=? 23) && (m <=? 59)
      | _, _ => false
      end).

Definition checked (t : stamp) : pyres stamp :=
  if valid t then Ok t else Raise ValueError.

Definition parse_iso (s : string) : pyres stamp :=
  match parse_date (substring 0 10 s) with
  | None => Raise ValueError
  | Some (y, m, d) =>
      if (String.length s =? 10)%nat then
        checked {| year := y; month := m; day := d;
                   hour := 0; minute := 0; second := 0 |}
      else
        let sep := substring 10 1 s in
        if String.eqb sep "T" || String.eqb sep " " then
          match parse_time (substring 11 8 s) with
          | Some (h, mi, se) =>
              if parse_offset (substring 19 (String.length s - 19)%nat s) then
                checked {| year := y; month := m; day := d;
                           hour := h; minute := mi; second := se |}
              else Raise ValueError
          | None => Raise ValueError
          end
        else Raise ValueError
  end.

(** Days since 1970-01-01 in the proleptic Gregorian calendar. *)
Definition days_from_civil (y m d : Z) : Z :=
  let y' := if m <=? 2 then y - 1 else y in
  let era := y' / 400 in
  let yoe := y' - era * 400 in
  let doy := (153 * (if 2 <? m then m - 3 else m + 9) + 2) / 5 + d - 1 in
  let doe := yoe * 365 + yoe / 4 - yoe / 100 + doy in
  era * 146097 + doe - 719468.

(** Monday is 0; 1970-01-01 was a Thursday. *)
Definition weekday_of (t : stamp) : Z :=
  (days_from_civil (year t) (month t) (day t) + 3) mod 7.

Definition pad (width : nat) (z : Z) : string :=
  let s := str_of_Z z in
  let fix zeros (n : nat) : string :=
    match n with O => "" | S n' => "0" ++ zeros n' end in
  zeros (width - String.length s)%nat ++ s.

Definition day_names : list string :=
  ["Monday"; "Tuesday"; "Wednesday"; "Thursday"; "Friday"; "Saturday"; "Sunday"].

Definition month_names : list string :=
  ["January"; "February"; "March"; "April"; "May"; "June"; "July";
   "August"; "September"; "October"; "November"; "December"].

Definition format_stamp (t : stamp) (format : string) : string :=
  if String.eqb format "%Y-%m-%d" then
    pad 4 (year t) ++ "-" ++ pad 2 (month t) ++ "-" ++ pad 2 (day t)
  else if String.eqb format "%H:%M:%S" then
    pad 2 (hour t) ++ ":" ++ pad 2 (minute t) ++ ":" ++ pad 2 (second t)
  else if String.eqb format "%A" then
    nth (Z.to_nat (weekday_of t)) day_names ""
  else if String.eqb format "%B" then
    nth (Z.to_nat (month t - 1)) month_names ""
  else format.

(** What an f-string shows of a scalar; containers are not rendered. *)
Definition show (v : json) : string :=
  match v with
  | JStr s => s
  | JInt z => str_of_Z z
  | JBool true => "True"
  | JBool false => "False"
  | JNull => "None"
  | JList _ => "[...]"
  | JDict _ => "{...}"
  end.

(** A word-list polarity: (positive - negative) / (positive + negative),
    with subjectivity 1 when a word is found and 0 otherwise. *)
Definition lexicon_sentiment (text : string)
    : pyres (PrimFloat.float * PrimFloat.float) :=
  let t := lower text in
  let p := count_in ["happy"; "great"; "love"; "excellent"; "wonderful"] t in
  let n := count_in ["rude"; "terrible"; "awful"; "angry"; "worst"] t in
  if p + n =? 0 then Ok (Binary64.of_Z 0, Binary64.of_Z 0)
  else if n <=? p then Ok (Binary64.quotient (p - n) (p + n), Binary64.of_Z 1)
  else Ok (PrimFloat.opp (Binary64.quotient (n - p) (p + n)), Binary64.of_Z 1).

(** A file system given by the files it holds: each path with what
    [json.load] makes of it.  No pattern matches but an exact path. *)
Definition lookup_file (files : list (string * pyres json)) (path : string)
    : pyres json :=
  match assoc path files with
  | Some r => r
  | None => Raise FileNotFoundError
  end.

Definition has_file (files : list (string * pyres json)) (path : string) : bool :=
  match assoc path files with Some _ => true | None => false end.

(** [nunique]: a list or a dict cannot be hashed; nulls are not counted;
    [True] and [1] are one value. *)
Definition unhashable (v : json) : bool :=
  match v with
  | JList _ | JDict _ => true
  | _ => false
  end.

Definition hash_key (v : json) : option string :=
  match v with
  | JStr s => Some ("s" ++ s)
  | JInt z => Some ("i" ++ str_of_Z z)
  | JBool b => Some (if b then "i1" else "i0")
  | _ => None
  end.

Fixpoint unique (keys : list string) : list string :=
  match keys with
  | [] => []
  | k :: rest =>
      if existsb (String.eqb k) rest then unique rest else k :: unique rest
  end.

Definition count_unique (col : list json) : pyres Z :=
  if existsb unhashable col then Raise TypeError
  else
    Ok (len (unique (flat_map (fun v => match hash_key v with
                                        | Some k => [k]
                                        | None => []
                                        end) col))).

#[local] Instance runtime (files : list (string * pyres json)) : Runtime := {|
  str := show;
  str_of_str := fun s => eq_refl;
  textblob_sentiment := lexicon_sentiment;
  datetime := stamp;
  fromisoformat := parse_iso;
  strftime := format_stamp;
  dt_year := year;
  dt_month := month;
  dt_hour := hour;
  weekday := weekday_of;
  path_exists := has_file files;
  glob := fun _ => [];
  json_load := lookup_file files;
  to_csv := fun _ => Ok tt;
  nunique := count_unique
|}.

End Sample.

Import VConParser SpaDataProcessor.

(* ================================================================== *)
(** * The specification, in its own words *)
(* ================================================================== *)

Module Spec.

(** How many phrases of a list are present in a text, whatever the case. *)
Definition present (phrases : list string) (text : string) : Z :=
  len (filter (fun p => occurs p (lower text)) phrases).

(** The bucket with the highest count, the first one checked on a tie;
    [general] when every count is zero. *)
Definition pick (buckets : list (string * Z)) : string :=
  let top := fold_right Z.max 0 (map snd buckets) in
  if top =? 0 then "general"
  else
    match find (fun b => snd b =? top) buckets with
    | Some b => fst b
    | None => "general"
    end.

Definition conversation_type (text : string) : string :=
  pick [ ("booking", present booking_keywords text);
         ("complaint", present complaint_keywords text);
         ("billing", present billing_keywords text);
         ("service_inquiry", present service_keywords text) ].

(** The domain of an address: what follows its last [@], nothing when it
    has none. *)
Fixpoint after_at (e : string) : option string :=
  match e with
  | EmptyString => None
  | String c e' =>
      match after_at e' with
      | Some d => Some d
      | None => if Ascii.eqb c "@" then Some e' else None
      end
  end.

Definition email_domain (e : string) : string :=
  match after_at e with
  | Some d => d
  | None => ""
  end.

(** Section 4.2 read to the letter: the name, or the domain of the
    address. *)
Definition resolve_role (name email : string) : string :=
  if any_in agent_indicators (lower name)
     || occurs "feelgoodspas" (email_domain (lower email))
     || occurs "spa" (email_domain (lower email))
  then "agent" else "customer".

(** Section 4.3, item 3, in tenths of a point: from the two counts and
    the duration. *)
Definition tenths (positive negative duration : Z) : Z :=
  let raw :=
    70 + 3 * positive - 5 * negative
       + (if (120 <=? duration) && (duration <=? 600) then 5
          else if 900 <? duration then -3 else 0) in
  Z.max 10 (Z.min 100 raw).

Definition quality_tenths (text : string) (duration : Z) : Z :=
  tenths (present positive_indicators text) (present negative_indicators text)
         duration.

Definition call_quality_score (text : string) (duration : Z) : Q :=
  round (Qmake (quality_tenths text duration) 10) 1.

(** Section 4.3, item 4: the elements with a marker phrase in the text. *)
Definition followed_count (text : string) : Z :=
  len (filter (fun element => any_in (snd element) (lower text)) script_elements).

End Spec.

(* ================================================================== *)
(** * Sample documents, predicates and tactics used below *)
(* ================================================================== *)

(** A turn of party 0 counts for the agent. *)
Definition is_agent_turn (entry : DialogEntry) : bool := eq_zero (party entry).

(** A call with two text turns and a recording. *)
Definition sample_vcon : json :=
  JDict
    [ ("id", JStr "c-1");
      ("created_at", JStr "2025-07-30T14:05:09Z");
      ("vcon_json",
        JDict
          [ ("parties",
              JList [ JDict [("name", JStr "Support Desk");
                             ("email", JStr "desk@feelgoodspas.com");
                             ("location", JStr "Austin")];
                      JDict [("name", JStr "Jane Doe");
                             ("tel", JStr "+15550100")] ]);
            ("dialog",
              JList [ JDict [("type", JStr "text"); ("party", JInt 0);
                             ("duration", JInt 40);
                             ("body", JStr "Thank you for calling Feel Good Spas")];
                      JDict [("type", JStr "text"); ("party", JInt 1);
                             ("duration", JInt 90);
                             ("body", JStr "I would like to book a massage")];
                      JDict [("type", JStr "recording"); ("party", JInt 1);
                             ("duration", JInt 50)] ]) ]) ].

(** A call of which only the recording is kept: no text turn. *)
Definition recording_vcon : json :=
  JDict
    [ ("id", JStr "c-3");
      ("created_at", JStr "2025-07-31T09:30:00Z");
      ("vcon_json",
        JDict
          [ ("parties",
              JList [ JDict [("name", JStr "Support Desk")];
                      JDict [("name", JStr "Lee Poe")] ]);
            ("dialog",
              JList [ JDict [("type", JStr "recording"); ("party", JInt 0);
                             ("duration", JInt 240);
                             ("url", JStr "https://example.org/c-3.wav")] ]) ]) ].

(** A complaint of 1000 seconds. *)
Definition complaint_vcon : json :=
  JDict
    [ ("uuid", JStr "c-2");
      ("vcon_json",
        JDict
          [ ("parties",
              JList [ JDict [("name", JStr "Front Desk Agent")];
                      JDict [("name", JStr "Sam Roe")] ]);
            ("dialog",
              JList [ JDict [("party", JInt 1); ("duration", JInt 700);
                             ("body", JStr "The agent was rude about my problem")];
                      JDict [("party", JInt 1); ("duration", JInt 300);
                             ("body", JStr "Please escalate this to a manager")] ]) ]) ].

(** Three input files: a good one, one that is not JSON, and one whose
    only conversation has no text turn. *)
Definition batch_files : list (string * pyres json) :=
  [ ("a.json", Ok (JList [sample_vcon]));
    ("b.json", Raise JSONDecodeError);
    ("c.json", Ok (JList [recording_vcon])) ].


(** The integers from [lo] to [hi]. *)
Definition between (lo hi : Z) : list Z :=
  map (fun i => lo + Z.of_nat i) (seq 0 (Z.to_nat (hi - lo + 1))).

(** Take apart a bind that returned. *)
Ltac bind_ok H :=
  match type of H with
  | bind ?m _ = Ok _ =>
      let E := fresh "E" in
      destruct m eqn:E; [cbn [bind] in H | discriminate H]
  end.

(** Close a goal about closed rationals by evaluation. *)
Ltac closed_Q :=
  vm_compute; repeat split; intros;
  try reflexivity; try discriminate; try easy; intuition discriminate.

(** Reduce a goal [forall z, lo <= z <= hi -> P z] to the values between
    the bounds, see [between_cases]. *)
Ltac each_between lemma :=
  match goal with
  | |- forall z, ?lo <= z <= ?hi -> @?P z =>
      let l := eval vm_compute in (between lo hi) in
      apply (lemma P lo hi); change (Forall P l)
  end;
  repeat (apply Forall_cons; [cbv beta|]); [..|apply Forall_nil].

(* ================================================================== *)
(** * The records of a file, and predicates on turns and documents *)
(* ================================================================== *)

Section FileRecords.
Context `{RT : Runtime}.

(** What one file adds to [processed_data]: the enriched conversations of
    the document it holds, nothing when it cannot be loaded. *)
Definition file_records (file_path : string) : pyres (list EnrichedRecord) :=
  match json_load file_path with
  | Ok data =>
      let conversations :=
        match data with
        | JList l => l
        | _ => [data]
        end in
      enrich_all (extract_business_data (parse_conversations conversations)) []
  | Raise _ => Ok []
  end.

End FileRecords.

(** The duration a turn adds to [total_duration]. *)
Definition turn_duration (entry : DialogEntry) : Z :=
  match as_number (duration entry) with
  | Some d => d
  | None => 0
  end.

(** A turn that reaches the transcript. *)
Definition is_text_turn (entry : DialogEntry) : bool :=
  eq_str (type entry) "text" && truthy (body entry).

Definition is_str (v : json) : bool :=
  match v with JStr _ => true | _ => false end.

Definition parses (vcon_data : json) : bool :=
  match _parse_single_conversation vcon_data with
  | Some _ => true
  | None => false
  end.

Definition is_dict (v : json) : bool :=
  match v with JDict _ => true | _ => false end.

(* ================================================================== *)
(** * Further documents and predicates *)
(* ================================================================== *)

(** Documents with a field of the wrong type. *)
Definition null_body_vcon : json :=
  JDict [ ("id", JStr "c-4");
          ("vcon_json",
            JDict [ ("dialog",
                      JList [ JDict [("body", JStr "I need to cancel")];
                              JDict [("body", JNull)] ]) ]) ].

Definition null_name_vcon : json :=
  JDict [ ("id", JStr "c-5");
          ("vcon_json",
            JDict [ ("parties",
                      JList [ JDict [("name", JStr "Support Desk")];
                              JDict [("name", JNull); ("tel", JStr "+15550101")] ]) ]) ].

(** Two parties, neither of which looks like an agent. *)
Definition two_customers_vcon : json :=
  JDict [ ("id", JStr "c-6");
          ("vcon_json",
            JDict [ ("parties",
                      JList [ JDict [("name", JStr "Jane Doe")];
                              JDict [("name", JStr "Sam Roe")] ]) ]) ].

Section Loads.
Context `{RT : Runtime}.

(** Whether [load_vcon_file] succeeds on a path. *)
Definition loads (file_path : string) : bool :=
  match json_load file_path with
  | Ok _ => true
  | Raise _ => false
  end.

End Loads.

(** No element occurs twice. *)
Fixpoint distinct (l : list string) : bool :=
  match l with
  | [] => true
  | x :: rest => negb (Columns.mem x rest) && distinct rest
  end.



(** Two files: one holds an empty list, the other values that are no
    conversations. *)
Definition empty_files : list (string * pyres json) :=
  [ ("none.json", Ok (JList []));
    ("numbers.json", Ok (JList [JInt 1; JStr "two"; JNull])) ].

(* ================================================================== *)
(** * Doubles: values, shifts and bounds in halves *)
(* ================================================================== *)

(** The record after [n] right shifts of the mantissa [M]: the quotient,
    and no round or sticky bit when nothing was lost. *)
Definition shifted (M n : Z) (mrs : SpecFloat.shr_record) : Prop :=
  SpecFloat.shr_m mrs = M / 2 ^ n /\
  (M mod 2 ^ n = 0 -> SpecFloat.shr_r mrs = false /\ SpecFloat.shr_s mrs = false).

(** The exponent that the format gives to a number of [d + e] digits. *)
Definition fexp64 (z : Z) : Z := Z.max (z - 53) (-1074).

(** [m * 2^e] in units of [2^-2200], which divides every double and every
    product of two doubles. *)
Definition scaled (m e : Z) : Z := m * 2 ^ (e + 2200).

(** [B / 2 <= m * 2^e] and [m * 2^e <= B / 2]. *)
Definition ge_half (B m e : Z) : Prop := B * 2 ^ 2199 <= scaled m e.
Definition le_half (B m e : Z) : Prop := scaled m e <= B * 2 ^ 2199.

(** [max(1.0, min(10.0, x))] *)
Definition clamp (x : PrimFloat.float) : PrimFloat.float :=
  Binary64.max2 (Binary64.of_Z 1) (Binary64.min2 (Binary64.of_Z 10) x).

(** The satisfaction score before it is rounded to one decimal. *)
Definition raw_score (p : PrimFloat.float) : PrimFloat.float :=
  clamp (PrimFloat.add (Binary64.of_Z 5) (PrimFloat.mul p (Binary64.of_Z 5))).

(* ================================================================== *)
(** * Facts about the primitives *)
(* ================================================================== *)

Section Counting.

Lemma sum_from (xs : list Z) (a : Z) :
  fold_left Z.add xs a = a + sum xs.
Proof.
  unfold sum. revert a.
  induction xs as [|x xs IH]; intros a; simpl.
  - lia.
  - rewrite IH, (IH x). lia.
Qed.

Lemma sum_cons (x : Z) (xs : list Z) : sum (x :: xs) = x + sum xs.
Proof. unfold sum at 1. simpl. apply sum_from. Qed.

Lemma sum_ones {A} (l : list A) : sum (map (fun _ => 1) l) = len l.
Proof.
  unfold len.
  induction l as [|x l IH]; [reflexivity|].
  cbn [map]. rewrite sum_cons, IH. cbn [List.length]. lia.
Qed.

Lemma count_in_present (pats : list string) (text : string) :
  count_in pats (lower text) = Spec.present pats text.
Proof. unfold count_in, Spec.present. apply sum_ones. Qed.

Lemma len_filter_le {A} (f : A -> bool) (l : list A) :
  0 <= len (filter f l) <= len l.
Proof.
  unfold len. split; [lia|].
  apply inj_le. induction l as [|x l IH]; simpl; [lia|].
  destruct (f x); simpl; lia.
Qed.

Lemma count_in_bounds (pats : list string) (s : string) :
  0 <= count_in pats s <= len pats.
Proof. unfold count_in. rewrite sum_ones. apply len_filter_le. Qed.

(** A property of the integers between two bounds can be checked value
    by value. *)
Lemma between_cases (P : Z -> Prop) (lo hi : Z) :
  Forall P (between lo hi) -> forall z, lo <= z <= hi -> P z.
Proof.
  intros HF z Hz. rewrite Forall_forall in HF. apply HF. unfold between.
  apply in_map_iff. exists (Z.to_nat (z - lo)). split; [lia|].
  apply in_seq. lia.
Qed.

Lemma any_in_app (l1 l2 : list string) (s : string) :
  any_in (l1 ++ l2) s = any_in l1 s || any_in l2 s.
Proof. unfold any_in. apply existsb_app. Qed.

Lemma count_in_none (pats : list string) (s : string) :
  any_in pats s = false -> count_in pats s = 0.
Proof.
  unfold any_in, count_in.
  induction pats as [|p pats IH]; simpl; intros H; [reflexivity|].
  apply orb_false_iff in H as [Hp Hr]. rewrite Hp. auto.
Qed.

Lemma any_in_flat_map {K} (d : list (K * list string)) (s : string) :
  any_in (flat_map snd d) s = false ->
  forall kv, In kv d -> any_in (snd kv) s = false.
Proof.
  induction d as [|x d IH]; simpl; intros H kv Hin; [contradiction|].
  rewrite any_in_app in H. apply orb_false_iff in H as [Hx Hd].
  destruct Hin as [<-|Hin]; auto.
Qed.

Lemma assoc_map_fst {V W} (f : string * V -> W) (d : list (string * V)) (k : string) :
  assoc k d = None -> assoc k (map (fun kv => (fst kv, f kv)) d) = None.
Proof.
  induction d as [|[k' v] d IH]; simpl; [reflexivity|].
  destruct (String.eqb k k'); [discriminate|exact IH].
Qed.

End Counting.

(* ================================================================== *)
(** * Topic classification and enrichment *)
(* ================================================================== *)

Section Topics.

Lemma score_topics_none (t : string) :
  any_in (flat_map snd topic_keywords) t = false ->
  any_value (score_topics t) = false /\ sum (map snd (score_topics t)) = 0.
Proof.
  intros H. pose proof (any_in_flat_map _ _ H) as Hall.
  unfold score_topics. revert Hall.
  generalize topic_keywords as d.
  induction d as [|x d IH]; intros Hall; [split; reflexivity|].
  cbn [map any_value existsb snd fst].
  rewrite sum_cons.
  rewrite (count_in_none _ _ (Hall x (or_introl eq_refl))).
  destruct IH as [IH1 IH2]; [intros kv Hkv; apply Hall; now right|].
  split; [exact IH1 | now rewrite IH2].
Qed.

Lemma classify_topics_KeyError (text : string) :
  any_in (flat_map snd topic_keywords) (lower text) = false ->
  _classify_topics text = Raise (KeyError "general").
Proof.
  intros H. unfold _classify_topics.
  destruct (score_topics_none _ H) as [Hany _].
  rewrite Hany. cbn [bind]. unfold getitem.
  unfold score_topics.
  rewrite (assoc_map_fst (fun tk => count_in (snd tk) (lower text))
             topic_keywords "general" eq_refl).
  reflexivity.
Qed.

(** C1.  A transcript in which no keyword of any of the nine topic
    buckets occurs (the empty transcript among them) does not get
    [primary_topic = "general"] and confidence 0: every bucket scores
    zero, the lookup [topic_scores[primary_topic]] has no entry for
    ["general"], and [_classify_topics] raises [KeyError] instead of
    returning. *)
Theorem classify_topics_no_match_raises (text : string) :
  any_in (flat_map snd topic_keywords) (lower text) = false ->
  sum (map snd (score_topics (lower text))) = 0 /\
  _classify_topics text = Raise (KeyError "general") /\
  forall topics, _classify_topics text <> Ok topics.
Proof.
  intros H. split; [apply (score_topics_none _ H)|].
  rewrite (classify_topics_KeyError _ H). split; [reflexivity|discriminate].
Qed.

Lemma classify_topics_no_match_raises_witness :
  any_in (flat_map snd topic_keywords) (lower "") = false /\
  _classify_topics "" = Raise (KeyError "general").
Proof.
  split; [reflexivity|].
  apply (classify_topics_no_match_raises ""). reflexivity.
Defined.

Context `{RT : Runtime}.

(** C2.  Enrichment does not return a record for every parsed
    conversation: on a transcript without any topic keyword (the empty
    transcript of a conversation without text turns, for one) the
    [KeyError] of [_classify_topics] leaves [_enrich_conversation_data]. *)
Theorem enrich_no_match_raises (conversation : CallDetails) :
  any_in (flat_map snd topic_keywords)
         (lower (conversation_text conversation)) = false ->
  _enrich_conversation_data conversation = Raise (KeyError "general").
Proof.
  intros H. unfold _enrich_conversation_data.
  rewrite (classify_topics_KeyError _ H). reflexivity.
Qed.

End Topics.

(** A conversation without text turns parses, its transcript is empty,
    and its enrichment raises. *)
Lemma enrich_no_match_raises_witness :
  exists conversation,
    extract_business_data (RT := Sample.runtime [])
      (parse_conversations [recording_vcon]) = [conversation] /\
    conversation_text conversation = "" /\
    any_in (flat_map snd topic_keywords)
           (lower (conversation_text conversation)) = false /\
    _enrich_conversation_data (RT := Sample.runtime []) conversation
      = Raise (KeyError "general").
Proof.
  eexists. split; [reflexivity|]. split; [reflexivity|].
  split; [reflexivity|].
  apply (enrich_no_match_raises (RT := Sample.runtime [])). reflexivity.
Defined.

(* ================================================================== *)
(** * The parser: metrics, conversation type, roles *)
(* ================================================================== *)

Section Metrics.

(** The loop adds one to exactly one of the two counters at every turn
    and leaves [message_count] alone. *)
Lemma metrics_loop (entries : list DialogEntry) (m : Metrics) :
  let m' := fold_left metrics_step entries m in
  agent_messages m' = agent_messages m + len (filter is_agent_turn entries) /\
  customer_messages m'
    = customer_messages m
      + len (filter (fun e => negb (is_agent_turn e)) entries) /\
  message_count m' = message_count m.
Proof.
  revert m. unfold len.
  induction entries as [|e entries IH]; intros m; cbn zeta.
  - simpl. repeat split; lia.
  - cbn [fold_left filter].
    destruct (IH (metrics_step m e)) as (Ha & Hc & Hn).
    rewrite Ha, Hc, Hn. unfold metrics_step, is_agent_turn.
    cbn [agent_messages customer_messages message_count].
    destruct (eq_zero (party e)); cbn [negb List.length]; repeat split; lia.
Qed.

Lemma filter_split {A} (f : A -> bool) (l : list A) :
  len (filter f l) + len (filter (fun x => negb (f x)) l) = len l.
Proof.
  unfold len. induction l as [|x l IH]; [reflexivity|].
  cbn [filter]. destruct (f x); cbn [negb List.length]; lia.
Qed.

Lemma metrics_counts (dialog_data : list DialogEntry)
    (analysis_data : list AnalysisEntry) (m : Metrics) :
  _calculate_conversation_metrics dialog_data analysis_data = Ok m ->
  message_count m = len dialog_data /\
  agent_messages m = len (filter is_agent_turn dialog_data) /\
  customer_messages m
    = len (filter (fun e => negb (is_agent_turn e)) dialog_data).
Proof.
  unfold _calculate_conversation_metrics. intros H.
  destruct (mapM join_item (map body dialog_data)) as [bodies|e];
    [|discriminate].
  cbn [bind] in H. injection H as <-. cbn.
  match goal with
  | |- context [fold_left metrics_step dialog_data ?m0] =>
      destruct (metrics_loop dialog_data m0) as (Ha & Hc & Hn)
  end.
  cbn zeta in Ha, Hc, Hn. rewrite Ha, Hc, Hn. cbn. repeat split; lia.
Qed.

(** The metrics are computed whenever every body is a str. *)
Lemma metrics_total (dialog_data : list DialogEntry)
    (analysis_data : list AnalysisEntry) :
  Forall (fun e => exists s, body e = JStr s) dialog_data ->
  exists m, _calculate_conversation_metrics dialog_data analysis_data = Ok m.
Proof.
  intros Hall. unfold _calculate_conversation_metrics.
  assert (exists bodies, mapM join_item (map body dialog_data) = Ok bodies)
    as [bodies ->].
  { induction Hall as [|e l [s Hs] _ [bodies IH]]; [now exists []|].
    cbn [map mapM]. rewrite Hs. cbn. rewrite IH. cbn. now eexists. }
  cbn [bind]. now eexists.
Qed.

Lemma parsed_metrics (vcon_data : json) (conv : ParsedConversation) :
  _parse_single_conversation vcon_data = Some conv ->
  exists analysis_data,
    _calculate_conversation_metrics (dialog conv) analysis_data
      = Ok (metrics conv).
Proof.
  unfold _parse_single_conversation, try_except. intros H.
  match type of H with
  | match ?m with _ => _ end = _ => destruct m as [r|] eqn:E; [|discriminate]
  end.
  subst r. repeat bind_ok E. injection E as <-. cbn. eauto.
Qed.

(** In a parsed conversation every body is a str, so the transcript only
    ever shows strings. *)
Lemma parsed_bodies (vcon_data : json) (conv : ParsedConversation) :
  _parse_single_conversation vcon_data = Some conv ->
  Forall (fun e => exists s, body e = JStr s) (dialog conv).
Proof.
  intros H. destruct (parsed_metrics _ H) as [an Hm].
  unfold _calculate_conversation_metrics in Hm.
  destruct (mapM join_item (map body (dialog conv))) as [bodies|e] eqn:E;
    [clear Hm|discriminate].
  revert bodies E. induction (dialog conv) as [|e l IH]; intros bodies E;
    [constructor|].
  cbn [map mapM] in E.
  destruct (body e) as [| | |s| |] eqn:Eb; try discriminate.
  cbn [join_item bind] in E.
  destruct (mapM join_item (map body l)) as [bs|]; [|discriminate].
  constructor; [now exists s | now apply (IH bs)].
Qed.

(** C10.  In every parsed conversation the two message counters add up to
    [message_count], which is the length of the dialog list: a turn whose
    party is 0 counts for the agent, any other turn for the customer,
    whatever its type or body. *)
Theorem parsed_message_counts (vcon_data : json) (conv : ParsedConversation) :
  _parse_single_conversation vcon_data = Some conv ->
  let m := metrics conv in
  agent_messages m + customer_messages m = message_count m /\
  message_count m = len (dialog conv) /\
  agent_messages m = len (filter (fun e => eq_zero (party e)) (dialog conv)) /\
  customer_messages m
    = len (filter (fun e => negb (eq_zero (party e))) (dialog conv)).
Proof.
  intros H. destruct (parsed_metrics _ H) as [an Hm].
  destruct (metrics_counts _ _ Hm) as (Hn & Ha & Hc).
  cbn zeta. fold is_agent_turn.
  change (fun e => eq_zero (party e)) with is_agent_turn.
  rewrite Hn, Ha, Hc. repeat split.
  apply filter_split.
Qed.

End Metrics.

Lemma parsed_message_counts_witness :
  exists conv,
    _parse_single_conversation sample_vcon = Some conv /\
    agent_messages (metrics conv) = 1 /\
    customer_messages (metrics conv) = 2 /\
    agent_messages (metrics conv) + customer_messages (metrics conv)
      = message_count (metrics conv) /\
    message_count (metrics conv) = len (dialog conv).
Proof.
  eexists. split; [reflexivity|].
  split; [reflexivity|]. split; [reflexivity|].
  pose proof (parsed_message_counts sample_vcon eq_refl) as H.
  cbn zeta in H. destruct H as (H1 & H2 & _). split; [exact H1 | exact H2].
Defined.

Section ConversationType.

(** The items of a [join] that returned are strings. *)
Lemma join_items_str (values : list json) (bodies : list string) :
  mapM join_item values = Ok bodies -> values = map JStr bodies.
Proof.
  revert bodies. induction values as [|v values IH]; intros bodies H.
  - now injection H as <-.
  - cbn [mapM] in H. destruct v as [| | |s| |]; try discriminate.
    cbn [join_item bind] in H.
    destruct (mapM join_item values) as [bs|]; [|discriminate].
    injection H as <-. cbn [map]. now rewrite (IH bs).
Qed.

(** The type that [_calculate_conversation_metrics] stores is the type of
    the bodies of all turns, joined by a space. *)
Lemma metrics_conversation_type
    (dialog_data : list DialogEntry) (analysis_data : list AnalysisEntry)
    (m : Metrics) :
  _calculate_conversation_metrics dialog_data analysis_data = Ok m ->
  exists bodies,
    map body dialog_data = map JStr bodies /\
    conversation_type m = _classify_conversation_type (join " " bodies).
Proof.
  unfold _calculate_conversation_metrics. intros H.
  destruct (mapM join_item (map body dialog_data)) as [bodies|] eqn:E;
    [|discriminate].
  cbn [bind] in H. injection H as <-. exists bodies.
  split; [exact (join_items_str _ E)|reflexivity].
Qed.

(** C8.  [metrics.conversation_type] is computed from the bodies of all
    turns, joined by a space: it counts, whatever the case, the keywords
    present in each of the four buckets and returns the bucket with the
    highest count, the first one checked (booking, complaint, billing,
    service) winning a tie; when the four counts are zero the result is
    ["general"].  The label of the service bucket is ["service_inquiry"]. *)
Theorem conversation_type_first_highest :
  (forall text : string,
     let b := Spec.present booking_keywords text in
     let c := Spec.present complaint_keywords text in
     let bi := Spec.present billing_keywords text in
     let s := Spec.present service_keywords text in
     let r := _classify_conversation_type text in
     r = Spec.conversation_type text /\
     (r = "general" <-> b = 0 /\ c = 0 /\ bi = 0 /\ s = 0) /\
     (r = "booking" <-> 0 < b /\ c <= b /\ bi <= b /\ s <= b) /\
     (r = "complaint" <-> b < c /\ bi <= c /\ s <= c) /\
     (r = "billing" <-> b < bi /\ c < bi /\ s <= bi) /\
     (r = "service_inquiry" <-> b < s /\ c < s /\ bi < s)) /\
  (forall dialog_data analysis_data m,
     _calculate_conversation_metrics dialog_data analysis_data = Ok m ->
     exists bodies,
       map body dialog_data = map JStr bodies /\
       conversation_type m = Spec.conversation_type (join " " bodies)) /\
  (forall vcon_data conv,
     _parse_single_conversation vcon_data = Some conv ->
     exists bodies,
       map body (dialog conv) = map JStr bodies /\
       conversation_type (metrics conv)
       = Spec.conversation_type (join " " bodies)).
Proof.
  assert (forall text : string,
     let b := Spec.present booking_keywords text in
     let c := Spec.present complaint_keywords text in
     let bi := Spec.present billing_keywords text in
     let s := Spec.present service_keywords text in
     let r := _classify_conversation_type text in
     r = Spec.conversation_type text /\
     (r = "general" <-> b = 0 /\ c = 0 /\ bi = 0 /\ s = 0) /\
     (r = "booking" <-> 0 < b /\ c <= b /\ bi <= b /\ s <= b) /\
     (r = "complaint" <-> b < c /\ bi <= c /\ s <= c) /\
     (r = "billing" <-> b < bi /\ c < bi /\ s <= bi) /\
     (r = "service_inquiry" <-> b < s /\ c < s /\ bi < s)) as Htype.
  { intros text.
    cbn zeta. unfold _classify_conversation_type, Spec.conversation_type, Spec.pick.
    rewrite !count_in_present.
    assert (Hb := len_filter_le (fun p => occurs p (lower text)) booking_keywords).
    assert (Hc := len_filter_le (fun p => occurs p (lower text)) complaint_keywords).
    assert (Hbi := len_filter_le (fun p => occurs p (lower text)) billing_keywords).
    assert (Hs := len_filter_le (fun p => occurs p (lower text)) service_keywords).
    fold (Spec.present booking_keywords text) in *.
    fold (Spec.present complaint_keywords text) in *.
    fold (Spec.present billing_keywords text) in *.
    fold (Spec.present service_keywords text) in *.
    generalize dependent (Spec.present booking_keywords text).
    generalize dependent (Spec.present complaint_keywords text).
    generalize dependent (Spec.present billing_keywords text).
    generalize dependent (Spec.present service_keywords text).
    intros s Hs bi Hbi c Hc b Hb.
    cbn [map fold_right find snd fst].
    destruct Hs as [Hs _], Hbi as [Hbi _], Hc as [Hc _], Hb as [Hb _].
    clear text.
    replace (Z.max b (Z.max c (Z.max bi (Z.max s 0))))
      with (Z.max (Z.max (Z.max b c) bi) s) by lia.
    assert (Hm : b <= Z.max (Z.max (Z.max b c) bi) s /\
                 c <= Z.max (Z.max (Z.max b c) bi) s /\
                 bi <= Z.max (Z.max (Z.max b c) bi) s /\
                 s <= Z.max (Z.max (Z.max b c) bi) s /\
                 (Z.max (Z.max (Z.max b c) bi) s = b \/
                  Z.max (Z.max (Z.max b c) bi) s = c \/
                  Z.max (Z.max (Z.max b c) bi) s = bi \/
                  Z.max (Z.max (Z.max b c) bi) s = s)) by lia.
    generalize dependent (Z.max (Z.max (Z.max b c) bi) s). intros top Hm.
    repeat match goal with
           | |- context [?x =? ?y] => destruct (Z.eqb_spec x y)
           end.
    all: cbn [fst].
    all: repeat split; intros; try reflexivity; try discriminate.
    all: repeat match goal with H : @eq string _ _ |- _ => clear H end.
    all: match goal with |- @eq string _ _ => exfalso | _ => idtac end; lia. }
  assert (forall dialog_data analysis_data m,
     _calculate_conversation_metrics dialog_data analysis_data = Ok m ->
     exists bodies,
       map body dialog_data = map JStr bodies /\
       conversation_type m = Spec.conversation_type (join " " bodies)) as Hlink.
  { intros dialog_data analysis_data m H.
    destruct (metrics_conversation_type _ _ H) as (bodies & Hb & Ht).
    exists bodies. split; [exact Hb|].
    rewrite Ht. exact (proj1 (Htype (join " " bodies))). }
  split; [exact Htype|]. split; [exact Hlink|].
  intros vcon_data conv H. destruct (parsed_metrics _ H) as [an Hm].
  exact (Hlink _ _ _ Hm).
Qed.

(** On the sample call the bodies hold one booking keyword and two service
    keywords. *)
Lemma conversation_type_first_highest_witness :
  exists conv,
    _parse_single_conversation sample_vcon = Some conv /\
    conversation_type (metrics conv) = "service_inquiry".
Proof.
  eexists. split; [vm_compute; reflexivity|].
  destruct conversation_type_first_highest as (_ & _ & H).
  match goal with
  | |- conversation_type (metrics ?c) = _ =>
      destruct (H sample_vcon c eq_refl) as (bodies & Hb & Ht)
  end.
  rewrite Ht. cbn in Hb.
  destruct bodies as [|b1 [|b2 [|b3 [|b4 bodies]]]]; try discriminate.
  injection Hb as <- <- <-. vm_compute. reflexivity.
Defined.

End ConversationType.

Section Roles.

Lemma prefix_lower (p s : string) :
  prefix p s = true -> prefix (lower p) (lower s) = true.
Proof.
  revert s. induction p as [|a p IH]; intros s; [now destruct s|].
  destruct s as [|b s]; [discriminate|]. cbn [prefix lower].
  destruct (ascii_dec a b) as [->|]; [|discriminate].
  intros H. destruct (ascii_dec (lower_ascii b) (lower_ascii b)); auto.
Qed.

(** A phrase that occurs in a text occurs, lower-cased, in the
    lower-cased text. *)
Lemma occurs_lower (p s : string) :
  occurs p s = true -> occurs (lower p) (lower s) = true.
Proof.
  induction s as [|b s IH].
  - cbn [occurs lower]. rewrite !orb_false_r. apply prefix_lower.
  - cbn [occurs lower]. intros H. apply orb_true_iff in H as [H|H].
    + apply prefix_lower in H. cbn [lower] in H. rewrite H. reflexivity.
    + rewrite (IH H). apply orb_true_r.
Qed.

(** C4, as the code has it.  For a party whose name and address are
    strings (or absent), the role is ["agent"] exactly when the
    lower-cased name contains one of "support", "agent", "rep", "service"
    or the lower-cased address, anywhere in it and not only in its domain,
    contains "feelgoodspas" or "spa"; it is ["customer"] in every other
    case.  A party whose address contains "spa" is an agent whatever its
    name. *)
Theorem party_role_name_or_address
    (d : list (string * json)) (nm em : string) :
  get (JDict d) "name" (JStr "") = Ok (JStr nm) ->
  get (JDict d) "email" (JStr "") = Ok (JStr em) ->
  _determine_party_role (JDict d)
    = Ok (if any_in agent_indicators (lower nm)
             || occurs "feelgoodspas" (lower em)
             || occurs "spa" (lower em)
          then "agent" else "customer") /\
  (occurs "spa" em = true -> _determine_party_role (JDict d) = Ok "agent").
Proof.
  intros Hn He.
  assert (_determine_party_role (JDict d)
          = Ok (if any_in agent_indicators (lower nm)
                   || occurs "feelgoodspas" (lower em)
                   || occurs "spa" (lower em)
                then "agent" else "customer")) as Hrole.
  { unfold _determine_party_role. rewrite Hn, He. cbn [bind str_lower].
    destruct (any_in agent_indicators (lower nm)); [reflexivity|].
    cbn [orb].
    destruct (occurs "feelgoodspas" (lower em) || occurs "spa" (lower em));
      reflexivity. }
  split; [exact Hrole|].
  intros Hspa. rewrite Hrole.
  apply occurs_lower in Hspa. change (lower "spa") with "spa" in Hspa.
  rewrite Hspa, !orb_true_r. reflexivity.
Qed.

End Roles.

Lemma party_role_name_or_address_witness :
  let d := [("name", JStr "Jane Doe"); ("email", JStr "Jane@DaySpa.example")] in
  get (JDict d) "name" (JStr "") = Ok (JStr "Jane Doe") /\
  get (JDict d) "email" (JStr "") = Ok (JStr "Jane@DaySpa.example") /\
  _determine_party_role (JDict d) = Ok "agent".
Proof.
  cbn zeta. split; [reflexivity|]. split; [reflexivity|].
  exact (proj1 (party_role_name_or_address
                  (d := [("name", JStr "Jane Doe");
                         ("email", JStr "Jane@DaySpa.example")])
                  eq_refl eq_refl)).
Defined.

(** C4 fails as stated: "spa" in the local part of the address makes an
    agent of a party whose name has no indicator and whose domain has
    neither token. *)
Lemma party_role_domain_counterexample :
  let party := JDict [("name", JStr "Jane Doe");
                      ("email", JStr "sparrow@gmail.com")] in
  _determine_party_role party = Ok "agent" /\
  any_in agent_indicators (lower "Jane Doe") = false /\
  Spec.email_domain (lower "sparrow@gmail.com") = "gmail.com" /\
  occurs "feelgoodspas" "gmail.com" = false /\
  occurs "spa" "gmail.com" = false /\
  Spec.resolve_role "Jane Doe" "sparrow@gmail.com" = "customer".
Proof. cbn zeta. repeat split; reflexivity. Qed.

(* ================================================================== *)
(** * Script adherence and call quality *)
(* ================================================================== *)

Section Adherence.

Lemma sum_indicators {A} (f : A -> bool) (key : A -> string) (l : list A) :
  sum (map snd (map (fun x => (key x, if f x then 1 else 0)) l))
  = len (filter f l).
Proof.
  unfold len. induction l as [|x l IH]; [reflexivity|].
  cbn [map filter snd]. rewrite sum_cons, IH.
  destruct (f x); cbn [List.length]; lia.
Qed.

Lemma followed_elements_count (text : string) :
  script_elements_followed (_analyze_script_adherence text)
  = Spec.followed_count text.
Proof.
  unfold _analyze_script_adherence, score_adherence, Spec.followed_count.
  cbn [script_elements_followed].
  apply (sum_indicators (fun ep => any_in (snd ep) (lower text)) fst).
Qed.

(** C6.  The adherence rate is [followed_count / 6], where
    [followed_count] is the number of the six script elements with a
    marker phrase in the transcript; the quotient lies in [0,1] and the
    value emitted is that quotient rounded to three decimals (so within
    0.0005 of it, and equal to it when it has at most three decimals). *)
Theorem script_adherence_rate_sixths (text : string) :
  let s := _analyze_script_adherence text in
  let k := Spec.followed_count text in
  script_elements_followed s = k /\
  script_elements_total s = 6 /\
  0 <= k <= 6 /\
  (0 <= k # 6 <= 1)%Q /\
  script_adherence_rate s = round (k # 6) 3 /\
  (0 <= script_adherence_rate s <= 1)%Q /\
  ((k # 6) - (1 # 2000) <= script_adherence_rate s <= (k # 6) + (1 # 2000))%Q /\
  (k = 0 \/ k = 3 \/ k = 6 -> script_adherence_rate s == k # 6).
Proof.
  cbn zeta.
  pose proof (followed_elements_count text) as Hk.
  assert (0 <= Spec.followed_count text <= 6) as Hb
    by apply (len_filter_le _ script_elements).
  split; [exact Hk|]. split; [reflexivity|]. split; [exact Hb|].
  unfold _analyze_script_adherence in *.
  cbn [script_elements_followed script_adherence_rate] in *.
  rewrite Hk. clear Hk. change (len script_elements) with 6.
  generalize dependent (Spec.followed_count text).
  each_between between_cases; closed_Q.
Qed.

End Adherence.

Section Quality.

(** C9.  The quality score is the value obtained from 7.0 by adding 0.3
    for every positive phrase present (each counted once), subtracting
    0.5 for every negative phrase present, adding 0.5 when the duration
    is in [120,600] and subtracting 0.3 when it exceeds 900, clamped to
    [1,10] and rounded to one decimal; in tenths it is an integer, so the
    rounding changes nothing. *)
Theorem call_quality_score_formula (text : string) (conversation : CallDetails) :
  let q := _assess_call_quality text conversation in
  let d := duration_seconds conversation in
  positive_indicators_count q = Spec.present positive_indicators text /\
  negative_indicators_count q = Spec.present negative_indicators text /\
  call_quality_score q = Spec.call_quality_score text d /\
  call_quality_score q == Spec.quality_tenths text d # 10 /\
  (1 <= call_quality_score q <= 10)%Q.
Proof.
  cbn zeta.
  unfold _assess_call_quality, Spec.call_quality_score, Spec.quality_tenths,
    Spec.tenths.
  cbn [positive_indicators_count negative_indicators_count call_quality_score].
  rewrite !count_in_present.
  split; [reflexivity|]. split; [reflexivity|].
  assert (0 <= Spec.present positive_indicators text <= 10) as Hp
    by apply (len_filter_le _ positive_indicators).
  assert (0 <= Spec.present negative_indicators text <= 9) as Hn
    by apply (len_filter_le _ negative_indicators).
  generalize (duration_seconds conversation). intros d.
  destruct ((120 <=? d) && (d <=? 600)); [|destruct (900 <? d)].
  all: generalize dependent (Spec.present negative_indicators text).
  all: generalize dependent (Spec.present positive_indicators text).
  all: each_between between_cases; each_between between_cases; closed_Q.
Qed.

End Quality.

(* ================================================================== *)
(** * The enriched record *)
(* ================================================================== *)

Section Enriched.

Context `{RT : Runtime}.

(** A record that is returned holds what each routine computes. *)
Lemma enrich_fields (conversation : CallDetails) (r : EnrichedRecord) :
  _enrich_conversation_data conversation = Ok r ->
  let text := conversation_text conversation in
  details r = conversation /\
  sentiment r = _analyze_sentiment text /\
  _classify_topics text = Ok (topics r) /\
  quality r = _assess_call_quality text conversation /\
  script r = _analyze_script_adherence text /\
  experience r = _analyze_customer_experience text /\
  temporal r = _extract_temporal_features (cd_created_at conversation) /\
  call_outcome r = _classify_call_outcome text /\
  urgency_level r = _classify_urgency text.
Proof.
  unfold _enrich_conversation_data. intros H.
  destruct (_classify_topics (conversation_text conversation)) as [t|e];
    [|discriminate].
  cbn [bind] in H. injection H as <-. cbn. repeat split.
Qed.

(** Enrichment returns as soon as one topic keyword is present. *)
Lemma classify_topics_returns (text : string) :
  any_in (flat_map snd topic_keywords) (lower text) = true ->
  exists topics, _classify_topics text = Ok topics.
Proof.
  intros H. unfold _classify_topics.
  assert (any_value (score_topics (lower text)) = true) as Hany.
  { unfold score_topics. revert H. generalize topic_keywords as d.
    induction d as [|x d IH]; [discriminate|].
    cbn [flat_map map any_value existsb snd]. rewrite any_in_app.
    intros H. apply orb_true_iff in H as [H|H].
    - destruct (Z.eqb_spec (count_in (snd x) (lower text)) 0) as [E|_];
        [|reflexivity].
      exfalso. revert H E. unfold any_in, count_in.
      induction (snd x) as [|p ps IHp]; [discriminate|].
      cbn [existsb filter]. destruct (occurs p (lower text)).
      + intros _. cbn [map]. rewrite sum_cons, sum_ones.
        pose proof (len_filter_le (fun p => occurs p (lower text)) ps). lia.
      + exact IHp.
    - unfold any_value in IH. rewrite (IH H). apply orb_true_r. }
  rewrite Hany.
  assert (exists k v, max_key (score_topics (lower text)) = Ok k /\
                      assoc k (score_topics (lower text)) = Some v)
    as (k & v & Hk & Hv).
  { unfold score_topics, topic_keywords. cbn [map fst snd max_key fold_left].
    repeat match goal with
           | |- context [if ?a <? ?b then _ else _] => destruct (a <? b)
           end;
      cbn [fst snd]; do 2 eexists; (split; [reflexivity|]);
      cbn [assoc String.eqb Ascii.eqb Bool.eqb]; reflexivity. }
  rewrite Hk. cbn [bind]. unfold getitem. rewrite Hv. cbn [bind].
  eexists. reflexivity.
Qed.

Lemma enrich_returns (conversation : CallDetails) :
  any_in (flat_map snd topic_keywords)
         (lower (conversation_text conversation)) = true ->
  exists r, _enrich_conversation_data conversation = Ok r.
Proof.
  intros H. destruct (classify_topics_returns _ H) as [t Ht].
  unfold _enrich_conversation_data. rewrite Ht. cbn [bind]. eexists.
  reflexivity.
Qed.

Lemma negative_count_three (t : string) :
  occurs "rude" t = true -> occurs "escalate" t = true ->
  occurs "manager" t = true ->
  3 <= count_in negative_indicators t <= 9.
Proof.
  intros H1 H2 H3. split; [|apply (count_in_bounds negative_indicators)].
  unfold count_in, negative_indicators. cbn [filter].
  rewrite H1, H2, H3.
  repeat match goal with
         | |- context [if occurs ?p t then _ else _] => destruct (occurs p t)
         end;
    rewrite sum_ones; unfold len; cbn [List.length]; lia.
Qed.

(** C3, as the code has it.  For a transcript containing "rude",
    "escalate" and "manager" and a duration of 1000 seconds, a record
    that enrichment returns has [call_outcome = "requires_followup"]
    ("resolved" when a resolved marker is present too) and never
    "complaint", since "escalate" is met by the earlier follow-up check;
    its quality score is 7.0 plus 0.3 per positive phrase, less 0.5 for
    each of at least three negative phrases and less 0.3 for the long
    call, which lies between 2.2 and 8.2, so that no clamp alters it and
    it is at least 1.0. *)
Theorem rude_escalate_manager_scenario
    (conversation : CallDetails) (r : EnrichedRecord) :
  let t := lower (conversation_text conversation) in
  occurs "rude" t = true ->
  occurs "escalate" t = true ->
  occurs "manager" t = true ->
  duration_seconds conversation = 1000 ->
  _enrich_conversation_data conversation = Ok r ->
  let p := positive_indicators_count (quality r) in
  let n := negative_indicators_count (quality r) in
  let score := call_quality_score (quality r) in
  call_outcome r
    = (if any_in resolved_words t then "resolved" else "requires_followup") /\
  call_outcome r <> "complaint" /\
  0 <= p <= 10 /\ 3 <= n <= 9 /\
  score == 7 + inject_Z p * (3 # 10) - inject_Z n * (5 # 10) - (3 # 10) /\
  (score <= 7 + inject_Z p * (3 # 10) - 2 * (5 # 10) - (3 # 10))%Q /\
  (1 <= 22 # 10 <= score)%Q /\ (score <= 82 # 10)%Q.
Proof.
  intros t H1 H2 H3 Hd Hr.
  destruct (enrich_fields _ Hr) as (_ & _ & _ & Hq & _ & _ & _ & Ho & _).
  cbn zeta. rewrite Hq, Ho. clear Hq Ho Hr.
  assert (call_outcome_eq :
            _classify_call_outcome (conversation_text conversation)
            = if any_in resolved_words t then "resolved" else "requires_followup").
  { unfold _classify_call_outcome. fold t.
    destruct (any_in resolved_words t); [reflexivity|].
    unfold followup_words, any_in. cbn [existsb]. rewrite H2.
    rewrite !orb_true_r. reflexivity. }
  split; [exact call_outcome_eq|].
  split; [rewrite call_outcome_eq; destruct (any_in resolved_words t); discriminate|].
  clear call_outcome_eq.
  unfold _assess_call_quality.
  cbn [positive_indicators_count negative_indicators_count call_quality_score].
  rewrite Hd. cbn [Z.leb Z.ltb Z.compare Pos.compare Pos.compare_cont andb].
  fold t.
  pose proof (count_in_bounds positive_indicators t) as Hp.
  change (len positive_indicators) with 10 in Hp.
  pose proof (negative_count_three _ H1 H2 H3) as Hn.
  split; [exact Hp|]. split; [exact Hn|].
  clear H1 H2 H3 Hd.
  generalize dependent (count_in negative_indicators t).
  generalize dependent (count_in positive_indicators t).
  each_between between_cases; each_between between_cases; closed_Q.
Qed.

(** C7.  When [created_at] is missing (absent keys arrive as [''], and
    every falsy value is treated alike) or is not parsed as an ISO-8601
    timestamp, the temporal features are the sentinel: date 2025-01-01,
    time 12:00:00, hour 12, Monday, January, 2025, Q1, not a weekend,
    business hours. *)
Theorem temporal_sentinel (created_at : json) :
  truthy created_at = false \/
  (forall dt, (s <- replace_Z created_at ;; fromisoformat s) <> Ok dt) ->
  let sentinel :=
    {| call_date := "2025-01-01";
       call_time := "12:00:00";
       call_hour := 12;
       call_day_of_week := "Monday";
       call_month := "January";
       call_year := 2025;
       is_weekend := false;
       is_business_hours := true;
       call_quarter := "Q1" |} in
  _extract_temporal_features created_at = sentinel /\
  forall conversation r,
    cd_created_at conversation = created_at ->
    _enrich_conversation_data conversation = Ok r ->
    temporal r = sentinel.
Proof.
  intros H. cbn zeta.
  assert (_extract_temporal_features created_at
          = _get_default_temporal_features) as Hs.
  { unfold _extract_temporal_features.
    destruct (truthy created_at) eqn:Ht; [|reflexivity].
    destruct H as [H|H]; [discriminate|]. cbn [negb].
    destruct (replace_Z created_at) as [s|e]; [|reflexivity].
    cbn [bind] in *.
    destruct (fromisoformat s) as [dt|e]; [|reflexivity].
    now destruct (H dt). }
  split; [exact Hs|].
  intros conversation r Hc Hr.
  destruct (enrich_fields _ Hr) as (_ & _ & _ & _ & _ & _ & Ht & _).
  rewrite Ht, Hc. exact Hs.
Qed.

End Enriched.

Lemma rude_escalate_manager_scenario_witness :
  exists conversation r,
    extract_business_data (RT := Sample.runtime [])
      (parse_conversations [complaint_vcon]) = [conversation] /\
    duration_seconds conversation = 1000 /\
    _enrich_conversation_data (RT := Sample.runtime []) conversation = Ok r /\
    call_outcome r = "requires_followup" /\
    call_quality_score (quality r) == 55 # 10.
Proof.
  eexists. eexists. split; [vm_compute; reflexivity|].
  match goal with
  | |- duration_seconds ?c = _ /\ _ =>
      split; [reflexivity|]; split; [vm_compute; reflexivity|];
      match goal with
      | |- call_outcome ?r = _ /\ _ =>
          pose proof (@rude_escalate_manager_scenario (Sample.runtime []) c r
                        eq_refl eq_refl eq_refl eq_refl eq_refl) as H
      end
  end.
  cbn zeta in H. destruct H as (Ho & _).
  split; [exact Ho | reflexivity].
Defined.

(** C3 fails as stated: the outcome of such a call is not "complaint". *)
Lemma rude_escalate_manager_counterexample :
  exists conversation r,
    extract_business_data (RT := Sample.runtime [])
      (parse_conversations [complaint_vcon]) = [conversation] /\
    occurs "rude" (conversation_text conversation) = true /\
    occurs "escalate" (conversation_text conversation) = true /\
    occurs "manager" (conversation_text conversation) = true /\
    duration_seconds conversation = 1000 /\
    _enrich_conversation_data (RT := Sample.runtime []) conversation = Ok r /\
    call_outcome r = "requires_followup" /\
    call_outcome r <> "complaint".
Proof.
  eexists. eexists. split; [vm_compute; reflexivity|].
  repeat (split; [vm_compute; reflexivity|]).
  vm_compute. discriminate.
Qed.

Lemma temporal_sentinel_witness :
  _extract_temporal_features (RT := Sample.runtime []) (JStr "yesterday")
  = _get_default_temporal_features /\
  _extract_temporal_features (RT := Sample.runtime []) (JStr "")
  = _get_default_temporal_features.
Proof.
  split.
  - apply (@temporal_sentinel (Sample.runtime []) (JStr "yesterday")).
    right. intros dt. vm_compute. discriminate.
  - apply (@temporal_sentinel (Sample.runtime []) (JStr "")).
    left. reflexivity.
Defined.

(* ================================================================== *)
(** * The batch *)
(* ================================================================== *)

Section Batch.

Context `{RT : Runtime}.



Lemma enrich_all_app (business_data : list CallDetails)
    (processed processed' : list EnrichedRecord) :
  enrich_all business_data processed = Ok processed' ->
  exists new : list EnrichedRecord,
    processed' = (processed ++ new)%list /\
    List.length new = List.length business_data.
Proof.
  revert processed.
  induction business_data as [|c cs IH]; intros processed; cbn [enrich_all].
  - intros [= <-]. exists []. now rewrite app_nil_r.
  - destruct (_enrich_conversation_data c) as [r|e]; [|discriminate].
    cbn [bind]. intros H. destruct (IH _ H) as (new & -> & Hlen).
    exists (r :: new). rewrite <- app_assoc. cbn. now rewrite Hlen.
Qed.


(** A file that is not valid JSON is reported and skipped: nothing but
    the log changes. *)
Lemma process_file_invalid_json (st : State) (file_path : string) :
  json_load file_path = Raise JSONDecodeError ->
  exists st',
    process_file st file_path = Ok st' /\
    log st' = (log st ++ [InfoProcessingFile file_path;
                          ErrorInvalidJSON file_path])%list /\
    conversations st' = conversations st /\
    parsed_data st' = parsed_data st /\
    processed_data st' = processed_data st /\
    processed_files st' = processed_files st.
Proof.
  intros H. unfold process_file, load_vcon_file. rewrite H.
  eexists. split; [reflexivity|]. cbn. rewrite <- app_assoc.
  repeat split.
Qed.

(** The run goes on with the files that follow it. *)
Lemma process_files_skips_invalid_json
    (st : State) (file_path : string) (rest : list string) :
  json_load file_path = Raise JSONDecodeError ->
  exists st',
    process_files (file_path :: rest) st = process_files rest st' /\
    processed_data st' = processed_data st /\
    processed_files st' = processed_files st.
Proof.
  intros H.
  destruct (process_file_invalid_json st _ H) as (st' & E & _ & _ & _ & Hd & Hf).
  exists st'. cbn [process_files]. rewrite E. cbn [bind]. auto.
Qed.









End Batch.


(** C5.  The file that is not valid JSON is reported and skipped and the
    run goes on, but the run does not always succeed when a file gave a
    record: after [a.json] gave one record and [b.json] was skipped, the
    conversation without text turns in [c.json] makes [_classify_topics] raise,
    and the [KeyError] leaves [main]. *)
Theorem run_batch_raises :
  let RT := Sample.runtime batch_files in
  run ["a.json"; "b.json"] "out.csv" = Ok Completed /\
  (exists st,
     process_vcon_files ["a.json"; "b.json"] init = Ok (true, st) /\
     List.length (processed_data st) = 1%nat /\
     In (ErrorInvalidJSON "b.json") (log st)) /\
  run ["a.json"; "b.json"; "c.json"] "out.csv" = Raise (KeyError "general").
Proof.
  cbn zeta. split; [vm_compute; reflexivity|]. split.
  - eexists. split; [vm_compute; reflexivity|].
    split; [reflexivity|]. cbn. tauto.
  - vm_compute. reflexivity.
Qed.

(* ================================================================== *)
(** * Doubles and the rational model agree *)
(* ================================================================== *)

Section Binary64.

Ltac closed_float := vm_compute; reflexivity.

(** The quality score computed in doubles rounds to the decimal of the
    model, for all counts the two phrase lists allow. *)
Lemma binary64_quality_score (p n d : Z) :
  0 <= p <= 10 -> 0 <= n <= 9 ->
  Binary64.rounded (Binary64.quality_score p n d) 1
  = Some (round (Spec.tenths p n d # 10) 1).
Proof.
  unfold Binary64.quality_score, Spec.tenths. intros Hp Hn.
  destruct ((120 <=? d) && (d <=? 600)); [|destruct (900 <? d)].
  all: revert n Hn; revert p Hp.
  all: each_between between_cases; each_between between_cases; closed_float.
Qed.

(** So does the adherence rate. *)
Lemma binary64_adherence_rate (k : Z) :
  0 <= k <= 6 ->
  Binary64.rounded (Binary64.quotient k 6) 3 = Some (round (k # 6) 3).
Proof. revert k. each_between between_cases; closed_float. Qed.

(** And the topic confidence, a quotient of two counts of at most 58. *)
Lemma binary64_confidence (b a : Z) :
  1 <= b <= 58 -> 0 <= a <= b ->
  Binary64.rounded (Binary64.quotient a b) 3
  = Some (round (inject_Z a / inject_Z b) 3).
Proof.
  intros Hb Ha. revert a Ha. revert b Hb.
  each_between between_cases; each_between between_cases; closed_float.
Qed.

End Binary64.

(* ================================================================== *)
(** * The pipeline on the sample documents *)
(* ================================================================== *)

Section Examples.

Example occurs_inside : occurs "spa" "Feel Good Spas" = false /\
                        occurs "spa" (lower "Feel Good Spas") = true /\
                        occurs "" "x" = true /\
                        occurs "rep" "Jane Prepper" = true.
Proof. repeat split. Qed.

(** A tie between two buckets goes to the one inserted first. *)
Example topics_tie :
  exists t,
    _classify_topics "I would like to book a massage" = Ok t /\
    primary_topic t = "appointment_scheduling" /\
    topic_confidence t == 1 # 2.
Proof. eexists. split; [vm_compute; reflexivity|]. now split. Qed.

Example conversation_type_tie :
  _classify_conversation_type "a refund for the massage" = "billing" /\
  _classify_conversation_type "hello there" = "general" /\
  _classify_conversation_type "the spa treatment" = "service_inquiry".
Proof. repeat split. Qed.

(** Scenario 1 of the specification, for the quality score. *)
Example quality_scenario_1 :
  forall conversation,
    duration_seconds conversation = 180 ->
    call_quality_score
      (_assess_call_quality
         "Agent: Thank you for calling. Customer: I am very happy with the service, thank you!"
         conversation)
    == 78 # 10.
Proof.
  intros c H. unfold _assess_call_quality. rewrite H. vm_compute. reflexivity.
Qed.

Example adherence_one_sixth :
  script_adherence_rate (_analyze_script_adherence "Goodbye!") == 167 # 1000 /\
  script_elements_followed (_analyze_script_adherence "Goodbye!") = 1.
Proof. now split. Qed.

Example outcome_order :
  _classify_call_outcome "I want to speak to a manager" = "complaint" /\
  _classify_call_outcome "Please ESCALATE to a manager" = "requires_followup" /\
  _classify_call_outcome "It is fixed, no need for a manager" = "resolved".
Proof. repeat split. Qed.

(** The sample call, from the document to the enriched record. *)
Example sample_call_enriched :
  exists conversation r,
    extract_business_data (RT := Sample.runtime [])
      (parse_conversations [sample_vcon]) = [conversation] /\
    duration_seconds conversation = 180 /\
    cd_has_recording conversation = true /\
    agent_name conversation = JStr "Support Desk" /\
    customer_phone conversation = JStr "+15550100" /\
    _enrich_conversation_data (RT := Sample.runtime []) conversation = Ok r /\
    primary_topic (topics r) = "service_inquiry" /\
    call_quality_score (quality r) == 78 # 10 /\
    call_day_of_week (temporal r) = "Wednesday" /\
    call_quarter (temporal r) = "Q3" /\
    call_outcome r = "completed".
Proof.
  eexists. eexists. split; [vm_compute; reflexivity|].
  do 4 (split; [reflexivity|]). split; [vm_compute; reflexivity|].
  repeat split.
Qed.

(** A key that is absent reaches the temporal features as the empty
    string. *)
Lemma missing_created_at (d : list (string * json)) (conv : ParsedConversation) :
  assoc "created_at" d = None ->
  _parse_single_conversation (JDict d) = Some conv ->
  created_at conv = JStr "" /\ truthy (created_at conv) = false.
Proof.
  intros Hd H. unfold _parse_single_conversation, try_except in H.
  match type of H with
  | match ?m with _ => _ end = _ => destruct m as [r|] eqn:E; [|discriminate]
  end.
  subst r. cbn [get bind] in E. rewrite Hd in E.
  repeat bind_ok E. injection E as <-. now split.
Qed.

End Examples.

Unset Implicit Arguments.

(* ================================================================== *)
(** * Further facts: substrings, case, rounding *)
(* ================================================================== *)

Section Substrings.

Lemma prefix_app (p v : string) : prefix p (p ++ v) = true.
Proof.
  induction p as [|a p IH]; cbn [append prefix]; [now destruct v|].
  destruct (ascii_dec a a); [exact IH|contradiction].
Qed.

Lemma prefix_split (p s : string) :
  prefix p s = true -> exists v, s = p ++ v.
Proof.
  revert s. induction p as [|a p IH]; intros s H; [now exists s|].
  destruct s as [|b s]; [discriminate|]. cbn [prefix] in H.
  destruct (ascii_dec a b) as [->|]; [|discriminate].
  destruct (IH _ H) as [v ->]. now exists v.
Qed.

(** [p in s] holds exactly when [s] is [u + p + v] for some [u], [v]. *)
Lemma occurs_iff (p s : string) :
  occurs p s = true <-> exists u v, s = u ++ p ++ v.
Proof.
  split.
  - induction s as [|b s IH]; cbn [occurs]; intros H.
    + rewrite orb_false_r in H. destruct (prefix_split _ _ H) as [v Hv].
      now exists "", v.
    + apply orb_true_iff in H as [H|H].
      * destruct (prefix_split _ _ H) as [v Hv]. now exists "", v.
      * destruct (IH H) as (u & v & ->). now exists (String b u), v.
  - intros (u & v & ->). induction u as [|b u IH]; cbn [append].
    + destruct (p ++ v) eqn:E; cbn [occurs]; rewrite <- ?E, prefix_app;
        reflexivity.
    + cbn [occurs]. rewrite IH. apply orb_true_r.
Qed.

Lemma append_assoc (a b c : string) : (a ++ b) ++ c = a ++ b ++ c.
Proof. induction a as [|x a IH]; cbn [append]; [reflexivity|now rewrite IH]. Qed.

(** A phrase inside a phrase that occurs in a text occurs in the text. *)
Lemma occurs_trans (a b t : string) :
  occurs a b = true -> occurs b t = true -> occurs a t = true.
Proof.
  rewrite !occurs_iff. intros (u & v & ->) (u' & v' & ->).
  exists (u' ++ u), (v ++ v'). now rewrite !append_assoc.
Qed.

Lemma lower_ascii_idem (c : ascii) : lower_ascii (lower_ascii c) = lower_ascii c.
Proof.
  destruct c as [[] [] [] [] [] [] [] []]; reflexivity.
Qed.

Lemma lower_idem (s : string) : lower (lower s) = lower s.
Proof.
  induction s as [|c s IH]; cbn [lower]; [reflexivity|].
  now rewrite lower_ascii_idem, IH.
Qed.

Lemma any_in_true (pats : list string) (p s : string) :
  In p pats -> occurs p s = true -> any_in pats s = true.
Proof.
  intros Hin Hp. unfold any_in. apply existsb_exists. now exists p.
Qed.

End Substrings.

Section Rounding.

Lemma scale_pos (n : nat) : Zpos (Z.to_pos (10 ^ Z.of_nat n)) = 10 ^ Z.of_nat n.
Proof. apply Z2Pos.id. apply Z.pow_pos_nonneg; lia. Qed.

(** Rounding never crosses a point of the grid it rounds to. *)
Lemma round_ge (q : Q) (n : nat) (z : Z) :
  (Qmake z (Z.to_pos (10 ^ Z.of_nat n)) <= q)%Q ->
  (Qmake z (Z.to_pos (10 ^ Z.of_nat n)) <= round q n)%Q.
Proof.
  unfold round. rewrite Qred_correct. unfold Qle. cbn [Qnum Qden].
  rewrite scale_pos. set (scale := 10 ^ Z.of_nat n).
  assert (0 < scale) by (apply Z.pow_pos_nonneg; lia).
  set (den := Zpos (Qden q)). assert (0 < den) by (unfold den; lia).
  intros H1.
  assert (z <= Qnum q * scale / den) as Hfl
    by (apply Z.div_le_lower_bound; lia).
  assert (z <= match 2 * (Qnum q * scale mod den) ?= den with
               | Eq => if Z.even (Qnum q * scale / den)
                       then Qnum q * scale / den
                       else Qnum q * scale / den + 1
               | Lt => Qnum q * scale / den
               | Gt => Qnum q * scale / den + 1
               end)
    by (destruct (_ ?= _); [destruct (Z.even _)| |]; lia).
  nia.
Qed.

Lemma round_le (q : Q) (n : nat) (z : Z) :
  (q <= Qmake z (Z.to_pos (10 ^ Z.of_nat n)))%Q ->
  (round q n <= Qmake z (Z.to_pos (10 ^ Z.of_nat n)))%Q.
Proof.
  unfold round. rewrite Qred_correct. unfold Qle. cbn [Qnum Qden].
  rewrite scale_pos. set (scale := 10 ^ Z.of_nat n).
  assert (0 < scale) by (apply Z.pow_pos_nonneg; lia).
  set (den := Zpos (Qden q)). assert (0 < den) by (unfold den; lia).
  intros H1.
  pose proof (Z.div_mod (Qnum q * scale) den ltac:(lia)) as Hdm.
  pose proof (Z.mod_pos_bound (Qnum q * scale) den ltac:(lia)) as Hr.
  set (fl := Qnum q * scale / den) in *.
  set (r := Qnum q * scale mod den) in *.
  assert (fl < z \/ (fl = z /\ r = 0)) as Hcase by nia.
  assert (match 2 * r ?= den with
          | Eq => if Z.even fl then fl else fl + 1
          | Lt => fl
          | Gt => fl + 1
          end <= z).
  { destruct Hcase as [Hlt|[-> ->]].
    - destruct (2 * r ?= den); [destruct (Z.even fl)| |]; lia.
    - change (2 * 0 ?= den) with Lt. cbv iota. lia. }
  nia.
Qed.

End Rounding.

(* ================================================================== *)
(** * Further facts: the parser *)
(* ================================================================== *)

Section ParserFacts.

Lemma mapM_In {A B} (f : A -> pyres B) (xs : list A) (ys : list B) (x : A) :
  mapM f xs = Ok ys -> In x xs -> exists y, f x = Ok y /\ In y ys.
Proof.
  revert ys. induction xs as [|a xs IH]; intros ys H Hin; [contradiction|].
  cbn [mapM] in H. destruct (f a) as [b|] eqn:Ea; [|discriminate].
  cbn [bind] in H. destruct (mapM f xs) as [bs|]; [|discriminate].
  injection H as <-. destruct Hin as [->|Hin].
  - exists b. split; [exact Ea|now left].
  - destruct (IH bs eq_refl Hin) as (y & Hy & Hin'). exists y.
    split; [exact Hy|now right].
Qed.

Lemma mapM_In_inv {A B} (f : A -> pyres B) (xs : list A) (ys : list B) (y : B) :
  mapM f xs = Ok ys -> In y ys -> exists x, In x xs /\ f x = Ok y.
Proof.
  revert ys. induction xs as [|a xs IH]; intros ys H Hin.
  - injection H as <-. contradiction.
  - cbn [mapM] in H. destruct (f a) as [b|] eqn:Ea; [|discriminate].
    cbn [bind] in H. destruct (mapM f xs) as [bs|]; [|discriminate].
    injection H as <-. destruct Hin as [<-|Hin].
    + exists a. split; [now left|exact Ea].
    + destruct (IH bs eq_refl Hin) as (x & Hx & Hfx). exists x.
      split; [now right|exact Hfx].
Qed.

Lemma mapM_raises {A B} (f : A -> pyres B) (xs : list A) (x : A) (e : exn) :
  In x xs -> f x = Raise e -> exists e', mapM f xs = Raise e'.
Proof.
  induction xs as [|a xs IH]; intros Hin Hx; [contradiction|].
  cbn [mapM]. destruct Hin as [->|Hin].
  - rewrite Hx. now exists e.
  - destruct (f a); [|now eexists]. cbn [bind].
    destruct (IH Hin Hx) as [e' ->]. now exists e'.
Qed.

Lemma mapM_length {A B} (f : A -> pyres B) (xs : list A) (ys : list B) :
  mapM f xs = Ok ys -> List.length ys = List.length xs.
Proof.
  revert ys. induction xs as [|a xs IH]; intros ys H.
  - now injection H as <-.
  - cbn [mapM] in H. destruct (f a); [|discriminate]. cbn [bind] in H.
    destruct (mapM f xs) as [bs|]; [|discriminate]. injection H as <-.
    cbn. now rewrite (IH bs).
Qed.

Lemma parsed_raw (vcon_data : json) (conv : ParsedConversation) :
  _parse_single_conversation vcon_data = Some conv -> raw_vcon conv = vcon_data.
Proof.
  unfold _parse_single_conversation, try_except. intros H.
  match type of H with
  | match ?m with _ => _ end = _ => destruct m as [r|] eqn:E; [|discriminate]
  end.
  subst r. repeat bind_ok E. now injection E as <-.
Qed.

(** X1.  [parse_conversations] keeps the documents that parse, in their
    order and each with its source document, and drops the others without
    touching the rest: the result for a batch is the results of its parts
    put end to end. *)
Theorem parse_conversations_keeps_order (conversations : list json) :
  map raw_vcon (parse_conversations conversations) = filter parses conversations /\
  len (parse_conversations conversations) <= len conversations /\
  forall more,
    parse_conversations (conversations ++ more)
    = (parse_conversations conversations ++ parse_conversations more)%list.
Proof.
  unfold len, parses. repeat split.
  - induction conversations as [|c cs IH]; [reflexivity|].
    cbn [parse_conversations filter].
    destruct (_parse_single_conversation c) as [p|] eqn:E; [|exact IH].
    cbn [map]. now rewrite IH, (@parsed_raw c p E).
  - apply inj_le. induction conversations as [|c cs IH]; [apply le_n|].
    cbn [parse_conversations].
    destruct (_parse_single_conversation c); cbn [List.length]; lia.
  - intros more. induction conversations as [|c cs IH]; [reflexivity|].
    cbn [parse_conversations app].
    destruct (_parse_single_conversation c); cbn [app]; now rewrite IH.
Qed.

Lemma dialog_entry_body (e : list (string * json)) (v : json) (entry : DialogEntry) :
  assoc "body" e = Some v -> dialog_entry (JDict e) = Ok entry -> body entry = v.
Proof.
  unfold dialog_entry. cbn [get bind]. intros Hb H. injection H as <-.
  cbn [body]. now rewrite Hb.
Qed.

Lemma join_raises (bodies : list json) (v : json) :
  In v bodies -> is_str v = false ->
  exists e, mapM join_item bodies = Raise e.
Proof.
  intros Hin Hv. apply (@mapM_raises _ _ join_item bodies v TypeError Hin).
  destruct v; try reflexivity. discriminate.
Qed.

(** X2.  One turn whose body is present and is not a string (a null, a
    number, an object) makes the parser drop the whole conversation, not
    the turn alone. *)
Theorem non_string_body_drops_conversation
    (d vj e : list (string * json)) (entries : list json) (v : json) :
  assoc "vcon_json" d = Some (JDict vj) ->
  assoc "dialog" vj = Some (JList entries) ->
  In (JDict e) entries ->
  assoc "body" e = Some v ->
  is_str v = false ->
  _parse_single_conversation (JDict d) = None.
Proof.
  intros Hvj Hd Hin Hb Hv.
  unfold _parse_single_conversation, try_except. cbn [get bind].
  rewrite Hvj. cbn [get bind]. rewrite Hd.
  destruct (_extract_parties _) as [ps|]; [cbn [bind]|reflexivity].
  unfold _extract_dialog. cbn [iter bind].
  destruct (mapM dialog_entry entries) as [ds|] eqn:Eds; [cbn [bind]|reflexivity].
  destruct (_extract_analysis _) as [an|]; [cbn [bind]|reflexivity].
  destruct (@mapM_In _ _ dialog_entry entries ds (JDict e) Eds Hin) as (entry & He & Hentry).
  pose proof (@dialog_entry_body e v entry Hb He) as Hbody.
  unfold _calculate_conversation_metrics.
  destruct (@join_raises (map body ds) v) as [e' ->];
    [rewrite <- Hbody; now apply in_map | exact Hv | reflexivity].
Qed.

(** X3.  A party whose name or email is present and is not a string makes
    the role resolution raise, and the parser drops the conversation. *)
Theorem non_string_party_field_drops_conversation
    (d vj p : list (string * json)) (ps : list json) (key : string) (v : json) :
  assoc "vcon_json" d = Some (JDict vj) ->
  assoc "parties" vj = Some (JList ps) ->
  In (JDict p) ps ->
  key = "name" \/ key = "email" ->
  assoc key p = Some v ->
  is_str v = false ->
  _determine_party_role (JDict p) = Raise AttributeError /\
  _parse_single_conversation (JDict d) = None.
Proof.
  intros Hvj Hp Hin Hkey Hk Hv.
  assert (_determine_party_role (JDict p) = Raise AttributeError) as Hrole.
  { unfold _determine_party_role. cbn [get bind].
    destruct Hkey as [-> | ->]; rewrite Hk.
    - destruct v; try reflexivity. discriminate.
    - destruct (match assoc "name" p with Some x => x | None => JStr "" end);
        try reflexivity.
      cbn [str_lower bind]. destruct v; try reflexivity. discriminate. }
  split; [exact Hrole|].
  unfold _parse_single_conversation, try_except. cbn [get bind].
  rewrite Hvj. cbn [get bind]. rewrite Hp.
  unfold _extract_parties. cbn [iter bind].
  destruct (@mapM_raises _ _ party_info ps (JDict p) AttributeError Hin)
    as [e' ->]; [|reflexivity].
  unfold party_info. cbn [get bind]. now rewrite Hrole.
Qed.

End ParserFacts.

Lemma non_string_body_drops_conversation_witness :
  _parse_single_conversation null_body_vcon = None.
Proof.
  apply (@non_string_body_drops_conversation
           [ ("id", JStr "c-4");
             ("vcon_json",
               JDict [ ("dialog",
                         JList [ JDict [("body", JStr "I need to cancel")];
                                 JDict [("body", JNull)] ]) ]) ]
           [ ("dialog",
               JList [ JDict [("body", JStr "I need to cancel")];
                       JDict [("body", JNull)] ]) ]
           [("body", JNull)]
           [ JDict [("body", JStr "I need to cancel")]; JDict [("body", JNull)] ]
           JNull eq_refl eq_refl).
  - right. left. reflexivity.
  - reflexivity.
  - reflexivity.
Defined.

Lemma non_string_party_field_drops_conversation_witness :
  _parse_single_conversation null_name_vcon = None.
Proof.
  apply (@non_string_party_field_drops_conversation
           [ ("id", JStr "c-5");
             ("vcon_json",
               JDict [ ("parties",
                         JList [ JDict [("name", JStr "Support Desk")];
                                 JDict [("name", JNull); ("tel", JStr "+15550101")] ]) ]) ]
           [ ("parties",
               JList [ JDict [("name", JStr "Support Desk")];
                       JDict [("name", JNull); ("tel", JStr "+15550101")] ]) ]
           [("name", JNull); ("tel", JStr "+15550101")]
           [ JDict [("name", JStr "Support Desk")];
             JDict [("name", JNull); ("tel", JStr "+15550101")] ]
           "name" JNull eq_refl eq_refl).
  - right. left. reflexivity.
  - left. reflexivity.
  - reflexivity.
  - reflexivity.
Defined.

Section ParsedConversations.

Context `{RT : Runtime}.

(** X4.  A document without a [vcon_json] key parses into a conversation
    with no party, no turn and no analysis, zero counters, the type
    "general" and an empty transcript; the enrichment of that conversation
    then raises. *)
Theorem missing_vcon_json_parses_empty (d : list (string * json)) :
  assoc "vcon_json" d = None ->
  exists conv,
    _parse_single_conversation (JDict d) = Some conv /\
    parties conv = [] /\ dialog conv = [] /\ analysis conv = [] /\
    message_count (metrics conv) = 0 /\
    total_duration (metrics conv) = 0 /\
    conversation_type (metrics conv) = "general" /\
    has_recording (metrics conv) = false /\
    has_analysis (metrics conv) = false /\
    agent_name (call_details conv) = JStr "Unknown" /\
    customer_name (call_details conv) = JStr "Unknown" /\
    conversation_text (call_details conv) = "" /\
    _enrich_conversation_data (call_details conv) = Raise (KeyError "general").
Proof.
  intros H. unfold _parse_single_conversation, try_except.
  cbn [get bind]. rewrite H. cbn. eexists. split; [reflexivity|].
  cbn. repeat split.
Qed.

Lemma party_info_role (party : json) (p : Party) :
  party_info party = Ok p -> role p = "agent" \/ role p = "customer".
Proof.
  unfold party_info. intros H. repeat bind_ok H. injection H as <-.
  cbn [role].
  match goal with E : _determine_party_role _ = Ok _ |- _ => rename E into Er end.
  unfold _determine_party_role in Er. repeat bind_ok Er.
  repeat match type of Er with
         | (if ?c then _ else _) = _ => destruct c
         end; injection Er as <-; auto.
Qed.

Lemma parsed_roles (vcon_data : json) (conv : ParsedConversation) :
  _parse_single_conversation vcon_data = Some conv ->
  Forall (fun p => role p = "agent" \/ role p = "customer") (parties conv).
Proof.
  unfold _parse_single_conversation, try_except. intros H.
  match type of H with
  | match ?m with _ => _ end = _ => destruct m as [r|] eqn:E; [|discriminate]
  end.
  subst r. repeat bind_ok E. injection E as <-. cbn [parties].
  match goal with E : _extract_parties _ = Ok _ |- _ => rename E into Ep end.
  unfold _extract_parties in Ep. bind_ok Ep.
  apply Forall_forall. intros p Hp.
  destruct (@mapM_In_inv _ _ party_info _ _ p Ep Hp) as (party & _ & Hpi).
  exact (@party_info_role party p Hpi).
Qed.

End ParsedConversations.

Section Lookups.

Context `{RT : Runtime}.

Lemma find_none_all {A} (f : A -> bool) (l : list A) :
  (forall x, In x l -> f x = false) -> find f l = None.
Proof.
  induction l as [|a l IH]; intros H; [reflexivity|]. cbn [find].
  rewrite (H a (or_introl eq_refl)). apply IH. intros x Hx. apply H. now right.
Qed.

(** X5.  In a parsed conversation the agent and the customer are looked up
    among the parties: no party gives nothing; when no party looks like an
    agent, party 0 is returned as the agent and as the customer alike;
    when every party looks like an agent, the agent is party 0 and the
    customer is party 1 (nothing if there is a single party). *)
Theorem agent_and_customer_lookup (vcon_data : json) (conv : ParsedConversation) :
  _parse_single_conversation vcon_data = Some conv ->
  (parties conv = [] <-> _get_agent_info conv = None) /\
  (forall p, _get_agent_info conv = Some p -> In p (parties conv)) /\
  (forall p, _get_customer_info conv = Some p -> In p (parties conv)) /\
  ((forall p, In p (parties conv) -> role p <> "agent") ->
   _get_agent_info conv = hd_error (parties conv) /\
   _get_customer_info conv = hd_error (parties conv)) /\
  ((forall p, In p (parties conv) -> role p <> "customer") ->
   _get_agent_info conv = hd_error (parties conv) /\
   _get_customer_info conv = nth_error (parties conv) 1).
Proof.
  intros H. pose proof (parsed_roles _ _ H) as Hroles. clear H.
  unfold _get_agent_info, _get_customer_info.
  generalize dependent (parties conv). intros ps Hroles.
  split; [|split; [|split; [|split]]].
  - split; [now intros ->|].
    destruct (find _ ps) eqn:E; [discriminate|]. now destruct ps.
  - intros p. destruct (find _ ps) eqn:E.
    + intros [= <-]. now apply find_some in E.
    + destruct ps; [discriminate|]. intros [= <-]. now left.
  - intros p. destruct (find _ ps) eqn:E.
    + intros [= <-]. now apply find_some in E.
    + intros Hn. now apply nth_error_In in Hn.
  - intros Hno.
    rewrite (find_none_all (fun p => String.eqb (role p) "agent") ps).
    2:{ intros x Hx. apply String.eqb_neq. now apply Hno. }
    split; [reflexivity|].
    destruct ps as [|p ps]; [reflexivity|]. cbn [find hd_error].
    inversion Hroles as [|? ? [Hp|Hp] _]; subst.
    + now destruct (Hno p (or_introl eq_refl)).
    + now rewrite Hp.
  - intros Hno.
    rewrite (find_none_all (fun p => String.eqb (role p) "customer") ps).
    2:{ intros x Hx. apply String.eqb_neq. now apply Hno. }
    split; [|reflexivity].
    destruct ps as [|p ps]; [reflexivity|]. cbn [find hd_error].
    inversion Hroles as [|? ? [Hp|Hp] _]; subst.
    + now rewrite Hp.
    + now destruct (Hno p (or_introl eq_refl)).
Qed.

Lemma append_nonempty (a b : string) : a <> "" -> a ++ b <> "".
Proof. destruct a; [contradiction|discriminate]. Qed.

Lemma join_empty_iff (sep : string) (parts : list string) :
  Forall (fun s => s <> "") parts -> (join sep parts = "" <-> parts = []).
Proof.
  intros Hall. split; [|now intros ->].
  destruct parts as [|p [|q r]]; [reflexivity| |]; cbn [join]; intros H;
    inversion Hall as [|? ? Hp _]; subst.
  - contradiction.
  - now destruct (append_nonempty p _ Hp H).
Qed.

(** X6.  The transcript is empty exactly when no turn is a text turn with
    a non-empty body (recordings and empty bodies add nothing); the
    enrichment of such a conversation raises. *)
Theorem transcript_empty_iff (conv : ParsedConversation) :
  (_extract_full_conversation_text conv = ""
   <-> filter is_text_turn (dialog conv) = []) /\
  (filter is_text_turn (dialog conv) = [] ->
   _enrich_conversation_data (call_details conv) = Raise (KeyError "general")).
Proof.
  assert (_extract_full_conversation_text conv = ""
          <-> filter is_text_turn (dialog conv) = []) as Hiff.
  { unfold _extract_full_conversation_text.
    rewrite join_empty_iff.
    - induction (dialog conv) as [|e l IH]; [now split|].
      cbn [flat_map filter]. fold (is_text_turn e).
      destruct (is_text_turn e); cbn [app]; [split; discriminate|exact IH].
    - induction (dialog conv) as [|e l IH]; [constructor|].
      cbn [flat_map]. destruct (_ && _); cbn [app]; [|exact IH].
      constructor; [|exact IH].
      destruct (eq_zero (party e)); discriminate. }
  split; [exact Hiff|].
  intros Hno. apply Hiff in Hno.
  unfold _enrich_conversation_data. cbn [conversation_text call_details].
  rewrite Hno. reflexivity.
Qed.

Lemma duration_loop (entries : list DialogEntry) (m : Metrics) :
  let m' := fold_left metrics_step entries m in
  total_duration m' = total_duration m + sum (map turn_duration entries) /\
  has_recording m'
  = has_recording m || existsb (fun e => eq_str (type e) "recording") entries /\
  has_analysis m' = has_analysis m.
Proof.
  revert m. induction entries as [|e entries IH]; intros m; cbn zeta.
  - cbn. rewrite orb_false_r. repeat split. unfold sum. cbn. lia.
  - cbn [fold_left map existsb]. destruct (IH (metrics_step m e)) as (Hd & Hr & Ha).
    rewrite Hd, Hr, Ha, sum_cons. unfold metrics_step, turn_duration.
    cbn [total_duration has_recording has_analysis].
    destruct (as_number (duration e)); destruct (eq_str (type e) "recording");
      destruct (has_recording m); repeat split; cbn; lia.
Qed.

Lemma parsed_metrics_of (vcon_data : json) (conv : ParsedConversation) :
  _parse_single_conversation vcon_data = Some conv ->
  _calculate_conversation_metrics (dialog conv) (analysis conv)
  = Ok (metrics conv).
Proof.
  unfold _parse_single_conversation, try_except. intros H.
  match type of H with
  | match ?m with _ => _ end = _ => destruct m as [r|] eqn:E; [|discriminate]
  end.
  subst r. repeat bind_ok E. injection E as <-. cbn. assumption.
Qed.

Lemma sum_nonneg (xs : list Z) : Forall (fun x => 0 <= x) xs -> 0 <= sum xs.
Proof.
  induction 1 as [|x xs Hx _ IH]; [unfold sum; cbn; lia|].
  rewrite sum_cons. lia.
Qed.

(** What the loop of [_calculate_conversation_metrics] leaves in the
    metrics of a parsed conversation. *)
Lemma parsed_loop_results (vcon_data : json) (conv : ParsedConversation) :
  _parse_single_conversation vcon_data = Some conv ->
  let m := metrics conv in
  total_duration m = sum (map turn_duration (dialog conv)) /\
  duration_seconds (call_details conv) = sum (map turn_duration (dialog conv)) /\
  (Forall (fun e => 0 <= turn_duration e) (dialog conv) -> 0 <= total_duration m) /\
  has_recording m
  = existsb (fun e => eq_str (type e) "recording") (dialog conv) /\
  has_analysis m = negb (len (analysis conv) =? 0).
Proof.
  intros H. pose proof (parsed_metrics_of _ _ H) as Hm. cbn zeta.
  unfold _calculate_conversation_metrics in Hm.
  destruct (mapM join_item (map body (dialog conv))); [|discriminate].
  cbn [bind] in Hm. injection Hm as Hm.
  match type of Hm with
  | context [fold_left metrics_step ?d ?m0] =>
      destruct (duration_loop d m0) as (Hd & Hr & Ha)
  end.
  cbn zeta in Hd, Hr, Ha. cbn [total_duration has_recording has_analysis] in Hd, Hr, Ha.
  assert (total_duration (metrics conv) = sum (map turn_duration (dialog conv)))
    as Htd by (rewrite <- Hm; cbn [total_duration]; rewrite Hd; lia).
  split; [exact Htd|]. split; [exact Htd|].
  split.
  { intros Hall. rewrite Htd. apply sum_nonneg.
    apply Forall_forall. intros x Hx. apply in_map_iff in Hx as (e & <- & He).
    rewrite Forall_forall in Hall. now apply Hall. }
  rewrite <- Hm. cbn [has_recording has_analysis]. rewrite Hr, Ha.
  split; [reflexivity|].
  unfold len. destruct (analysis conv); reflexivity.
Qed.

(** X7.  In a parsed conversation [has_recording] (also in the record of
    the call) tells whether some turn has the type "recording", whatever
    its place among the turns, and [has_analysis] whether the analysis
    list has an entry. *)
Theorem parsed_recording_and_analysis_flags
    (vcon_data : json) (conv : ParsedConversation) :
  _parse_single_conversation vcon_data = Some conv ->
  has_recording (metrics conv)
  = existsb (fun e => eq_str (type e) "recording") (dialog conv) /\
  cd_has_recording (call_details conv) = has_recording (metrics conv) /\
  has_analysis (metrics conv) = negb (len (analysis conv) =? 0) /\
  (forall before e after,
     dialog conv = (before ++ e :: after)%list ->
     type e = JStr "recording" ->
     has_recording (metrics conv) = true).
Proof.
  intros H. destruct (parsed_loop_results _ _ H) as (_ & _ & _ & Hr & Ha).
  split; [exact Hr|]. split; [reflexivity|]. split; [exact Ha|].
  intros before e after Hd He. rewrite Hr, Hd, existsb_app. cbn [existsb].
  rewrite He. cbn [eq_str]. rewrite String.eqb_refl. apply orb_true_r.
Qed.

(** X23.  For a document whose durations are ints, bools or no numbers
    (JSON numbers with a fractional part are outside [json]),
    [total_duration], which is the [duration_seconds] of the record, is
    the sum of the int durations, [True] counting for 1 and [False] for 0,
    and a duration that is no number (a str, a null, a list) counting for
    nothing; it is not negative when no duration is. *)
Theorem parsed_integer_durations
    (vcon_data : json) (conv : ParsedConversation) :
  _parse_single_conversation vcon_data = Some conv ->
  total_duration (metrics conv) = sum (map turn_duration (dialog conv)) /\
  duration_seconds (call_details conv) = total_duration (metrics conv) /\
  (Forall (fun e => 0 <= turn_duration e) (dialog conv) ->
   0 <= total_duration (metrics conv)) /\
  (forall e,
     turn_duration e
     = match duration e with
       | JInt z => z
       | JBool true => 1
       | _ => 0
       end).
Proof.
  intros H. destruct (parsed_loop_results _ _ H) as (Hd & _ & Hpos & _).
  split; [exact Hd|]. split; [reflexivity|]. split; [exact Hpos|].
  intros e. unfold turn_duration, as_number.
  destruct (duration e) as [|[]| | | |]; reflexivity.
Qed.

End Lookups.

Lemma agent_and_customer_lookup_witness :
  exists conv p,
    _parse_single_conversation two_customers_vcon = Some conv /\
    _get_agent_info conv = Some p /\
    _get_customer_info conv = Some p /\
    name p = JStr "Jane Doe".
Proof.
  eexists. eexists. split; [reflexivity|].
  match goal with
  | |- _get_agent_info ?c = _ /\ _ =>
      pose proof (@agent_and_customer_lookup two_customers_vcon c eq_refl) as H
  end.
  destruct H as (_ & _ & _ & Hnone & _).
  destruct Hnone as [Ha Hc].
  { intros p [<-|[<-|[]]]; discriminate. }
  split; [exact Ha|]. split; [exact Hc|]. reflexivity.
Defined.

Lemma parsed_recording_and_analysis_flags_witness :
  exists conv,
    _parse_single_conversation sample_vcon = Some conv /\
    has_recording (metrics conv) = true /\
    has_analysis (metrics conv) = false.
Proof.
  eexists. split; [vm_compute; reflexivity|].
  match goal with
  | |- has_recording (metrics ?c) = _ /\ _ =>
      pose proof (@parsed_recording_and_analysis_flags (Sample.runtime [])
                    sample_vcon c eq_refl) as H
  end.
  destruct H as (Hr & _ & Ha & _).
  split; [rewrite Hr | rewrite Ha]; reflexivity.
Defined.

Lemma parsed_integer_durations_witness :
  exists conv,
    _parse_single_conversation sample_vcon = Some conv /\
    total_duration (metrics conv) = 180.
Proof.
  eexists. split; [vm_compute; reflexivity|].
  match goal with
  | |- total_duration (metrics ?c) = _ =>
      pose proof (@parsed_integer_durations (Sample.runtime [])
                    sample_vcon c eq_refl) as H
  end.
  destruct H as (Hd & _). rewrite Hd. reflexivity.
Defined.

Lemma missing_vcon_json_parses_empty_witness :
  exists conv,
    _parse_single_conversation (JDict [("id", JStr "c-7")]) = Some conv /\
    dialog conv = [] /\
    _enrich_conversation_data (RT := Sample.runtime [])
      (call_details (RT := Sample.runtime []) conv)
    = Raise (KeyError "general").
Proof.
  destruct (@missing_vcon_json_parses_empty (Sample.runtime [])
              [("id", JStr "c-7")] eq_refl)
    as (conv & Hp & _ & Hd & _ & _ & _ & _ & _ & _ & _ & _ & _ & He).
  exists conv. split; [exact Hp|]. split; [exact Hd|exact He].
Defined.

(* ================================================================== *)
(** * Further facts: the text features *)
(* ================================================================== *)

Section TopicsReturned.

Lemma max_key_spec (d : list (string * Z)) (k : string) :
  max_key d = Ok k ->
  exists v, In (k, v) d /\ forall kv, In kv d -> snd kv <= v.
Proof.
  destruct d as [|kv0 rest]; [discriminate|]. cbn [max_key].
  intros [= <-].
  assert (forall (rest : list (string * Z)) (best : string * Z),
             let r := fold_left
                        (fun best kv' => if snd best <? snd kv' then kv' else best)
                        rest best in
             (r = best \/ In r rest) /\
             snd best <= snd r /\
             forall kv, In kv rest -> snd kv <= snd r) as Hfold.
  { clear. induction rest as [|x rest IH]; intros best; cbn zeta.
    - cbn. repeat split; [now left|lia|contradiction].
    - cbn [fold_left].
      destruct (IH (if snd best <? snd x then x else best)) as (Hin & Hle & Hall).
      destruct (Z.ltb_spec (snd best) (snd x)); repeat split.
      + destruct Hin as [->|Hin]; right; [now left|now right].
      + lia.
      + intros kv [<-|Hkv]; [exact Hle|now apply Hall].
      + destruct Hin as [Hin|Hin]; [now left|right; now right].
      + exact Hle.
      + intros kv [<-|Hkv]; [lia|now apply Hall]. }
  destruct (Hfold rest kv0) as (Hin & Hle & Hall). cbn zeta in *.
  set (r := fold_left _ rest kv0) in *.
  exists (snd r). split.
  - destruct r as [k v]. cbn [fst snd].
    destruct Hin as [<-|Hin]; [now left|now right].
  - intros kv [<-|Hkv]; [exact Hle|now apply Hall].
Qed.

Lemma assoc_NoDup {V} (d : list (string * V)) (k : string) (v : V) :
  NoDup (map fst d) -> In (k, v) d -> assoc k d = Some v.
Proof.
  induction d as [|[k' v'] d IH]; intros Hnd Hin; [contradiction|].
  cbn [map fst] in Hnd. inversion Hnd as [|? ? Hnotin Hnd']; subst.
  cbn [assoc]. destruct Hin as [[= -> ->]|Hin].
  - now rewrite String.eqb_refl.
  - destruct (String.eqb_spec k k') as [->|_]; [|now apply IH].
    exfalso. apply Hnotin. apply in_map_iff. now exists (k', v).
Qed.

Lemma sum_ge_member (xs : list Z) (x : Z) :
  Forall (fun y => 0 <= y) xs -> In x xs -> x <= sum xs.
Proof.
  induction 1 as [|y ys Hy Hall IH]; intros Hin; [contradiction|].
  rewrite sum_cons. pose proof (sum_nonneg ys Hall).
  destruct Hin as [<-|Hin]; [lia|]. specialize (IH Hin). lia.
Qed.

Lemma score_keys (t : string) :
  map fst (score_topics t) = map fst topic_keywords.
Proof. unfold score_topics. rewrite map_map. reflexivity. Qed.

Lemma score_values (t : string) :
  Forall (fun y => 0 <= y) (map snd (score_topics t)) /\
  sum (map snd (score_topics t)) <= 58.
Proof.
  unfold score_topics. rewrite map_map. cbn [snd].
  split.
  - apply Forall_forall. intros y Hy. apply in_map_iff in Hy as (tk & <- & _).
    apply count_in_bounds.
  - unfold topic_keywords. cbn [map snd]. rewrite !sum_cons.
    repeat match goal with
           | |- context [count_in ?l t] =>
               let H := fresh in
               pose proof (count_in_bounds l t) as H;
               unfold len in H; cbn [List.length] in H;
               generalize dependent (count_in l t); intros
           end.
    unfold sum. cbn [fold_left]. lia.
Qed.

(** X8.  When [_classify_topics] returns, the primary topic is one of the
    nine buckets and never "general"; it is a bucket with the highest
    score, which is at least 1, and the confidence lies in (0, 1]. *)
Theorem classify_topics_returned (text : string) (t : Topics) :
  _classify_topics text = Ok t ->
  In (primary_topic t) (map fst topic_keywords) /\
  primary_topic t <> "general" /\
  (exists v,
     assoc (primary_topic t) (score_topics (lower text)) = Some v /\
     1 <= v /\
     forall kv, In kv (score_topics (lower text)) -> snd kv <= v) /\
  (0 < topic_confidence t <= 1)%Q.
Proof.
  unfold _classify_topics.
  assert (NoDup (map fst (score_topics (lower text)))) as Hnd.
  { rewrite score_keys. unfold topic_keywords. cbn [map fst].
    repeat constructor; cbn [In]; intuition discriminate. }
  assert (assoc "general" (score_topics (lower text)) = None) as Hgen.
  { unfold score_topics.
    apply (assoc_map_fst (fun tk => count_in (snd tk) (lower text))
             topic_keywords "general" eq_refl). }
  destruct (score_values (lower text)) as [Hpos Htot].
  pose proof (score_keys (lower text)) as Hkeys.
  remember (score_topics (lower text)) as scores eqn:Hs. clear Hs.
  destruct (any_value scores) eqn:Hany.
  2:{ cbn [bind]. unfold getitem. rewrite Hgen. discriminate. }
  destruct (max_key scores) as [k|] eqn:Hk; [cbn [bind]|discriminate].
  destruct (max_key_spec _ _ Hk) as (v & Hin & Hmax).
  unfold getitem. rewrite (assoc_NoDup _ _ _ Hnd Hin). cbn [bind].
  intros [= <-]. cbn [primary_topic topic_confidence].
  assert (1 <= v) as Hv.
  { unfold any_value in Hany. apply existsb_exists in Hany as (kv & Hkv & Hnz).
    specialize (Hmax kv Hkv).
    rewrite Forall_forall in Hpos.
    specialize (Hpos (snd kv) (in_map snd _ _ Hkv)).
    apply negb_true_iff, Z.eqb_neq in Hnz. lia. }
  assert (v <= sum (map snd scores)) as Hle.
  { apply (sum_ge_member _ v Hpos). apply in_map_iff. now exists (k, v). }
  assert (In k (map fst topic_keywords)) as Hkey.
  { rewrite <- Hkeys. apply in_map_iff. now exists (k, v). }
  split; [exact Hkey|]. split.
  { intros ->. revert Hkey. unfold topic_keywords. cbn [map fst In].
    intuition discriminate. }
  split.
  { exists v. split; [now apply assoc_NoDup|]. split; [exact Hv|exact Hmax]. }
  generalize dependent (sum (map snd scores)). intros total Htot Hle.
  rewrite Z.max_l by lia.
  split.
  - apply Qlt_le_trans with (y := Qmake 17 (Z.to_pos (10 ^ Z.of_nat 3))).
    + reflexivity.
    + apply round_ge. unfold Qle, Qdiv, Qmult, Qinv, inject_Z.
      destruct total as [|tp|tp]; try lia. cbn. nia.
  - apply Qle_trans with (y := Qmake 1000 (Z.to_pos (10 ^ Z.of_nat 3))).
    + apply round_le. unfold Qle, Qdiv, Qmult, Qinv, inject_Z.
      destruct total as [|tp|tp]; try lia. cbn. nia.
    + unfold Qle. cbn. lia.
Qed.

End TopicsReturned.

Lemma classify_topics_returned_witness :
  exists t,
    _classify_topics "I would like to book a massage" = Ok t /\
    primary_topic t <> "general" /\
    (0 < topic_confidence t <= 1)%Q.
Proof.
  eexists. split; [vm_compute; reflexivity|].
  match goal with
  | |- primary_topic ?t <> _ /\ _ =>
      pose proof (classify_topics_returned "I would like to book a massage" t
                    eq_refl) as H
  end.
  destruct H as (_ & Hg & _ & Hc). split; [exact Hg|exact Hc].
Defined.

Section Doubles.

Import SpecFloat FloatOps.

Lemma digits2_bounds (m : positive) :
  2 ^ (Zpos (digits2_pos m) - 1) <= Zpos m < 2 ^ Zpos (digits2_pos m).
Proof.
  induction m as [m IH|m IH|]; cbn [digits2_pos].
  - change (PosDef.Pos.succ (digits2_pos m)) with (Pos.succ (digits2_pos m)).
    rewrite Pos2Z.inj_succ, (Pos2Z.inj_xI m).
    replace (Z.succ (Zpos (digits2_pos m)) - 1)
      with (Z.succ (Zpos (digits2_pos m) - 1)) by lia.
    rewrite !Z.pow_succ_r by lia.
    destruct IH as [IH1 IH2]. revert IH1 IH2.
    generalize (2 ^ (Zpos (digits2_pos m) - 1)), (2 ^ Zpos (digits2_pos m)).
    intros; lia.
  - change (PosDef.Pos.succ (digits2_pos m)) with (Pos.succ (digits2_pos m)).
    rewrite Pos2Z.inj_succ, (Pos2Z.inj_xO m).
    replace (Z.succ (Zpos (digits2_pos m)) - 1)
      with (Z.succ (Zpos (digits2_pos m) - 1)) by lia.
    rewrite !Z.pow_succ_r by lia.
    destruct IH as [IH1 IH2]. revert IH1 IH2.
    generalize (2 ^ (Zpos (digits2_pos m) - 1)), (2 ^ Zpos (digits2_pos m)).
    intros; lia.
  - cbn. lia.
Qed.

(** A double strictly between 1.0 and 10.0 is finite, and so is its
    value. *)
Lemma between_one_and_ten (x : PrimFloat.float) :
  PrimFloat.ltb x (Binary64.of_Z 10) = true ->
  PrimFloat.ltb (Binary64.of_Z 1) x = true ->
  exists q, Binary64.to_Q x = Some q /\ (1 <= q <= 10)%Q.
Proof.
  rewrite !FloatAxioms.ltb_spec. intros H10 H1.
  pose proof (FloatAxioms.Prim2SF_valid x) as Hv.
  replace (Prim2SF (Binary64.of_Z 10))
    with (S754_finite false 5629499534213120 (-49)) in H10
    by (vm_compute; reflexivity).
  replace (Prim2SF (Binary64.of_Z 1))
    with (S754_finite false 4503599627370496 (-52)) in H1
    by (vm_compute; reflexivity).
  unfold Binary64.to_Q.
  destruct (Prim2SF x) as [[]|[]| |[] m e];
    cbv beta iota delta [SFltb SFcompare] in H10, H1; try discriminate.
  - unfold valid_binary, bounded, canonical_mantissa, fexp, emin in Hv.
    apply andb_prop in Hv as [Hc _]. apply Z.eqb_eq in Hc.
    change IntDef.Z.max with Z.max in Hc. change prec with 53 in Hc.
    change emax with 1024 in Hc.
    pose proof (digits2_bounds m) as Hd.
    assert (e < -49 \/ (e = -49 /\ (m < 5629499534213120)%positive)) as Hhi.
    { revert H10. destruct (Z.compare_spec e (-49)) as [E|E|E]; intros H10;
        [right; split; [exact E|]|now left|discriminate].
      destruct (PosDef.Pos.compare_cont Eq m 5629499534213120) eqn:Ec;
        try discriminate. exact Ec. }
    assert (-52 < e \/ (e = -52 /\ (4503599627370496 < m)%positive)) as Hlo.
    { revert H1. destruct (Z.compare_spec (-52) e) as [E|E|E]; intros H1;
        [right; split; [now symmetry|]|now left|discriminate].
      destruct (PosDef.Pos.compare_cont Eq 4503599627370496 m) eqn:Ec;
        try discriminate. exact Ec. }
    assert (-52 <= e <= -49) as He
      by (clear - Hhi Hlo; destruct Hhi as [?|[? _]], Hlo as [?|[? _]]; lia).
    assert (Zpos (digits2_pos m) = 53) as Hdig by (clear - Hc He; lia).
    rewrite Hdig in Hd. clear Hdig Hc H10 H1.
    change (2 ^ (53 - 1)) with 4503599627370496 in Hd.
    change (2 ^ 53) with 9007199254740992 in Hd.
    assert (e = -52 \/ e = -51 \/ e = -50 \/ e = -49) as Hcase
      by (clear - He; lia).
    clear He.
    assert (e < -49 \/ Zpos m < 5629499534213120) as Hhi'
      by (destruct Hhi as [?|[_ H]]; [now left|right; exact H]).
    assert (-52 < e \/ 4503599627370496 < Zpos m) as Hlo'
      by (destruct Hlo as [?|[_ H]]; [now left|right; exact H]).
    clear Hhi Hlo.
    destruct Hcase as [-> | [-> | [-> | ->]]]; eexists; (split; [reflexivity|]);
      unfold Qle; cbn [Qnum Qden];
      [ change (2 ^ 52)%positive with 4503599627370496%positive
      | change (2 ^ 51)%positive with 2251799813685248%positive
      | change (2 ^ 50)%positive with 1125899906842624%positive
      | change (2 ^ 49)%positive with 562949953421312%positive ];
      lia.
Qed.

End Doubles.

Section Shifts.

Import SpecFloat FloatOps.

Lemma shr_1_shifted (M n : Z) (mrs : shr_record) :
  0 <= M -> 0 <= n -> shifted M n mrs -> shifted M (n + 1) (shr_1 mrs).
Proof.
  intros HM Hn [Hm Hex]. destruct mrs as [m r s]. cbn [shr_m shr_r shr_s] in *.
  assert (0 < 2 ^ n) as Hp by (apply Z.pow_pos_nonneg; lia).
  assert (M / 2 ^ (n + 1) = m / 2) as Hq.
  { rewrite Z.pow_add_r, Z.pow_1_r by lia.
    rewrite <- Z.div_div by lia. now rewrite Hm. }
  assert (M mod 2 ^ (n + 1) = 0 -> M mod 2 ^ n = 0 /\ m mod 2 = 0) as Hsplit.
  { rewrite Z.pow_add_r, Z.pow_1_r by lia. intros H0.
    rewrite Z.rem_mul_r in H0 by lia. rewrite <- Hm in H0.
    pose proof (Z.mod_pos_bound M (2 ^ n) Hp).
    pose proof (Z.mod_pos_bound m 2 ltac:(lia)).
    revert H0 H H1. generalize (M mod 2 ^ n), (m mod 2), (2 ^ n).
    intros a c b H0 H H1. nia. }
  assert (0 <= m) as Hm0 by (rewrite Hm; apply Z.div_pos; lia).
  split.
  - rewrite Hq. clear - Hm0.
    destruct m as [|q|q]; [reflexivity| |lia].
    destruct q as [q|q|]; cbn [shr_1 shr_m].
    + rewrite (Pos2Z.inj_xI q). rewrite Z.add_comm, Z.mul_comm.
      rewrite Z.div_add by lia. reflexivity.
    + rewrite (Pos2Z.inj_xO q). rewrite Z.mul_comm.
      rewrite Z.div_mul by lia. reflexivity.
    + reflexivity.
  - intros H0. destruct (Hsplit H0) as [Hn0 Heven].
    destruct (Hex Hn0) as [-> ->]. clear - Hm0 Heven.
    destruct m as [|q|q]; [split; reflexivity| |lia].
    destruct q as [q|q|]; cbn [shr_1 shr_r shr_s orb].
    + rewrite (Pos2Z.inj_xI q) in Heven.
      rewrite Z.add_comm, Z.mul_comm, Z.mod_add in Heven by lia. discriminate.
    + split; reflexivity.
    + discriminate.
Qed.

Lemma iter_shifted (p : positive) :
  forall (M n : Z) (mrs : shr_record),
    0 <= M -> 0 <= n -> shifted M n mrs ->
    shifted M (n + Zpos p) (iter_pos shr_1 p mrs).
Proof.
  induction p as [p IH|p IH|]; intros M n mrs HM Hn H; cbn [iter_pos].
  - replace (n + Zpos p~1) with (n + 1 + Zpos p + Zpos p) by lia.
    apply IH; [lia|lia|]. apply IH; [lia|lia|]. now apply shr_1_shifted.
  - replace (n + Zpos p~0) with (n + Zpos p + Zpos p) by lia.
    apply IH; [lia|lia|]. now apply IH.
  - now apply shr_1_shifted.
Qed.

Lemma shr_fexp_spec (M e : Z) (mrs : shr_record) (e' : Z) :
  0 <= M ->
  shr_fexp prec emax M e loc_Exact = (mrs, e') ->
  let k := Z.max 0 (fexp64 (Zdigits2 M + e) - e) in
  e' = e + k /\ shifted M k mrs.
Proof.
  intros HM. unfold shr_fexp, shr, fexp, emin, fexp64.
  change IntDef.Z.max with Z.max. change prec with 53. change emax with 1024.
  change (3 - 1024 - 53) with (-1074). cbn zeta.
  assert (shifted M 0 (shr_record_of_loc M loc_Exact)) as H0.
  { split; [cbn; now rewrite Z.div_1_r|now cbn]. }
  destruct (Z.max (Zdigits2 M + e - 53) (-1074) - e) as [|p|p] eqn:Ek;
    intros [= <- <-].
  - rewrite Z.max_l by lia. split; [lia|exact H0].
  - rewrite Z.max_r by lia. split; [reflexivity|].
    exact (iter_shifted p M 0 _ HM (Z.le_refl 0) H0).
  - rewrite Z.max_l by lia. split; [lia|exact H0].
Qed.

End Shifts.

Section RoundAux.

Import SpecFloat FloatOps.

Lemma digits_le (m n : Z) : 0 < m -> 0 <= n -> m < 2 ^ n -> Zdigits2 m <= n.
Proof.
  intros Hm Hn Hlt. destruct m as [|p|p]; try lia. cbn [Zdigits2].
  pose proof (digits2_bounds p) as [Hlo _].
  destruct (Z_le_gt_dec (Zpos (digits2_pos p)) n) as [|Hgt]; [assumption|].
  exfalso.
  assert (2 ^ n <= 2 ^ (Zpos (digits2_pos p) - 1))
    by (apply Z.pow_le_mono_r; lia).
  lia.
Qed.

Lemma digits_lt_pow (m : Z) : 0 < m -> m < 2 ^ Zdigits2 m.
Proof.
  intros Hm. destruct m as [|p|p]; try lia. cbn [Zdigits2].
  apply digits2_bounds.
Qed.

Lemma round_nearest_even_bounds (m : Z) (l : location) :
  m <= round_nearest_even m l <= m + 1.
Proof.
  unfold round_nearest_even. destruct l as [|[]]; try lia.
  destruct (IntDef.Z.even m); lia.
Qed.

(** What the rounding of [M * 2^e] gives: the mantissa is cut to the
    digits of the format, rounded up by one at most and not at all when
    nothing was cut, and a carry into a new digit is absorbed by the
    exponent. *)
Lemma round_aux_spec (s : bool) (M e : Z) :
  0 < M ->
  let k := Z.max 0 (fexp64 (Zdigits2 M + e) - e) in
  exists m2 m3 e3,
    M / 2 ^ k <= m2 <= M / 2 ^ k + 1 /\
    (M mod 2 ^ k = 0 -> m2 = M / 2 ^ k) /\
    e + k <= e3 /\ m2 = m3 * 2 ^ (e3 - (e + k)) /\ 0 <= m3 /\
    binary_round_aux prec emax s M e loc_Exact
    = match m3 with
      | Z0 => S754_zero s
      | Zpos p => if e3 <=? 971 then S754_finite s p e3 else S754_infinity s
      | Zneg _ => S754_nan
      end.
Proof.
  intros HM k. unfold binary_round_aux.
  destruct (shr_fexp prec emax M e loc_Exact) as [mrs1 e1] eqn:E1.
  destruct (shr_fexp_spec M e mrs1 e1 ltac:(lia) E1) as (He1 & Hm1 & Hex1).
  fold k in He1, Hm1, Hex1.
  set (m2 := round_nearest_even (shr_m mrs1) (loc_of_shr_record mrs1)).
  assert (0 <= k) as Hk by (unfold k; lia).
  assert (0 < 2 ^ k) as Hpk by (apply Z.pow_pos_nonneg; lia).
  assert (M / 2 ^ k <= m2 <= M / 2 ^ k + 1) as Hb2.
  { rewrite <- Hm1. apply round_nearest_even_bounds. }
  assert (M mod 2 ^ k = 0 -> m2 = M / 2 ^ k) as Hexact.
  { intros H0. destruct (Hex1 H0) as [Hr Hs]. unfold m2.
    destruct mrs1 as [m r s0]. cbn [shr_m shr_r shr_s] in *. subst r s0.
    cbn. exact Hm1. }
  assert (-1074 <= e1) as Hemin by (unfold k, fexp64 in He1; lia).
  assert (0 <= M / 2 ^ k) as Hq0 by (apply Z.div_pos; lia).
  assert (M / 2 ^ k < 2 ^ 53) as Hq53.
  { apply Z.div_lt_upper_bound; [lia|].
    pose proof (digits_lt_pow M HM) as Hd.
    assert (0 < Zdigits2 M) as Hdpos
      by (destruct M; try lia; cbn [Zdigits2]; lia).
    assert (2 ^ Zdigits2 M <= 2 ^ (k + 53))
      by (apply Z.pow_le_mono_r; unfold k, fexp64; lia).
    rewrite <- Z.pow_add_r by lia. lia. }
  destruct (shr_fexp prec emax m2 e1 loc_Exact) as [mrs2 e2] eqn:E2.
  destruct (shr_fexp_spec m2 e1 mrs2 e2 ltac:(lia) E2) as (He2 & Hm2 & _).
  cbn zeta in He2, Hm2.
  exists m2, (shr_m mrs2), e2.
  assert (m2 <= 2 ^ 53) as Hm253 by lia.
  assert ((Z.max 0 (fexp64 (Zdigits2 m2 + e1) - e1) = 0 /\ shr_m mrs2 = m2) \/
          (Z.max 0 (fexp64 (Zdigits2 m2 + e1) - e1) = 1 /\ m2 = 2 ^ 53 /\
           shr_m mrs2 = 2 ^ 52)) as Hcase.
  { destruct (Z.eq_dec m2 (2 ^ 53)) as [Heq|Hne].
    - right. rewrite Heq in Hm2 |- *.
      change (Zdigits2 (2 ^ 53)) with 54 in *. unfold fexp64 in *.
      replace (Z.max 0 (Z.max (54 + e1 - 53) (-1074) - e1)) with 1 in * by lia.
      repeat split. exact Hm2.
    - left. destruct (Z.eq_dec m2 0) as [H0|H0].
      + rewrite H0 in Hm2 |- *. cbn [Zdigits2] in *. unfold fexp64 in *.
        replace (Z.max 0 (Z.max (0 + e1 - 53) (-1074) - e1)) with 0 in * by lia.
        split; [reflexivity|]. rewrite Hm2. reflexivity.
      + pose proof (digits_le m2 53 ltac:(lia) ltac:(lia) ltac:(lia)) as Hd.
        unfold fexp64 in *.
        replace (Z.max 0 (Z.max (Zdigits2 m2 + e1 - 53) (-1074) - e1)) with 0 in *
          by lia.
        split; [reflexivity|]. rewrite Hm2. now rewrite Z.div_1_r. }
  change (emax - prec) with 971.
  split; [exact Hb2|]. split; [exact Hexact|].
  destruct Hcase as [[Hk2 Hm3]|(Hk2 & Hm253' & Hm3)]; rewrite Hk2 in He2.
  - split; [lia|]. split.
    { replace (e2 - (e + k)) with 0 by lia. rewrite Hm3. cbn. lia. }
    split; [rewrite Hm3; lia|]. reflexivity.
  - split; [lia|]. split.
    { replace (e2 - (e + k)) with 1 by lia. rewrite Hm3, Hm253'. reflexivity. }
    split; [rewrite Hm3; cbn; lia|]. reflexivity.
Qed.

End RoundAux.

Section HalfUnits.

Import SpecFloat FloatOps.

Lemma scaled_shift (m e j : Z) :
  -2200 <= e -> 0 <= j -> scaled (m * 2 ^ j) e = scaled m (e + j).
Proof.
  intros He Hj. unfold scaled.
  replace (e + j + 2200) with (j + (e + 2200)) by lia.
  rewrite (Z.pow_add_r 2 j (e + 2200)) by lia. ring.
Qed.

Lemma div_pow_lower (M d k : Z) :
  0 <= k -> k <= d - 1 -> 2 ^ (d - 1) <= M -> 2 ^ (d - 1 - k) <= M / 2 ^ k.
Proof.
  intros Hk Hd HM. apply Z.div_le_lower_bound; [apply Z.pow_pos_nonneg; lia|].
  rewrite <- Z.pow_add_r by lia. now replace (k + (d - 1 - k)) with (d - 1) by lia.
Qed.

Lemma digits_ge_pow (M : Z) : 0 < M -> 2 ^ (Zdigits2 M - 1) <= M.
Proof.
  intros HM. destruct M as [|p|p]; try lia. cbn [Zdigits2]. apply digits2_bounds.
Qed.

(** The rounded value of a number that is at least [B / 2] is at least
    [B / 2], when [B / 2] is a double. *)
Lemma round_aux_ge (s : bool) (B M e : Z) :
  0 < M -> -2200 <= e -> 0 < B <= 2 ^ 53 ->
  ge_half B M e ->
  binary_round_aux prec emax s M e loc_Exact = S754_infinity s \/
  exists p e3,
    binary_round_aux prec emax s M e loc_Exact = S754_finite s p e3 /\
    ge_half B (Zpos p) e3.
Proof.
  intros HM He HB Hge.
  destruct (round_aux_spec s M e HM) as (m2 & m3 & e3 & Hb & _ & He3 & Hm & Hm3 & ->).
  set (k := Z.max 0 (fexp64 (Zdigits2 M + e) - e)) in *.
  assert (0 <= k) as Hk by (unfold k; lia).
  assert (ge_half B m3 e3) as Hge3.
  { unfold ge_half. replace e3 with (e + k + (e3 - (e + k))) by lia.
    rewrite <- scaled_shift by lia. rewrite <- Hm.
    unfold ge_half, scaled in *.
    assert (0 < 2 ^ k) as HK by (apply Z.pow_pos_nonneg; lia).
    assert (0 < 2 ^ (e + 2200)) as HP by (apply Z.pow_pos_nonneg; lia).
    replace (e + k + 2200) with (k + (e + 2200)) by lia.
    destruct (Z_le_gt_dec (e + k) (-1)) as [Hneg|Hpos].
    - (* B / 2 is on the grid of the result *)
      assert (2 ^ 2199 = 2 ^ (-1 - (e + k)) * (2 ^ k * 2 ^ (e + 2200))) as E.
      { rewrite <- !Z.pow_add_r by lia. f_equal. lia. }
      rewrite E in *. rewrite (Z.pow_add_r 2 k (e + 2200)) by lia.
      assert (0 < 2 ^ (-1 - (e + k))) as HT by (apply Z.pow_pos_nonneg; lia).
      clear E.
      revert Hge Hb HK HP HT.
      generalize (2 ^ (-1 - (e + k))), (2 ^ k), (2 ^ (e + 2200)).
      intros T K P Hge Hb HK HP HT.
      assert (B * T * K <= M) as HM' by nia.
      assert (B * T <= M / K) as Hq
        by (apply Z.div_le_lower_bound; [lia|nia]).
      nia.
    - destruct (Z.eq_dec k 0) as [Hk0|Hk0].
      + rewrite Hk0 in *. rewrite Z.pow_0_r, Z.div_1_r in *.
        replace (0 + (e + 2200)) with (e + 2200) by lia. nia.
      + (* a cut of a number of at least 2^52 units of the result *)
        assert (k = Zdigits2 M - 53) as Hkd by (unfold k, fexp64 in *; lia).
        pose proof (div_pow_lower M (Zdigits2 M) k Hk ltac:(lia)
                      (digits_ge_pow M HM)) as Hq.
        replace (Zdigits2 M - 1 - k) with 52 in Hq by lia.
        replace (k + (e + 2200)) with ((e + k + 1) + 2199) by lia.
        rewrite (Z.pow_add_r 2 (e + k + 1) 2199) by lia.
        assert (2 ^ 1 <= 2 ^ (e + k + 1)) as HU
          by (apply Z.pow_le_mono_r; lia).
        assert (0 < 2 ^ 2199) as HH by (apply Z.pow_pos_nonneg; lia).
        clear Hge.
        change (2 ^ 1) with 2 in HU. change (2 ^ 52) with 4503599627370496 in Hq.
        change (2 ^ 53) with 9007199254740992 in HB.
        revert HU HH. generalize (2 ^ (e + k + 1)), (2 ^ 2199). intros U H HU HH.
        assert (B <= m2 * U) as HBU by nia.
        replace (m2 * (U * H)) with (m2 * U * H) by ring.
        apply Z.mul_le_mono_nonneg_r; lia. }
  destruct m3 as [|p|p]; [|destruct (e3 <=? 971); eauto|lia].
  exfalso. unfold ge_half, scaled in Hge3.
  assert (0 < 2 ^ 2199) by (apply Z.pow_pos_nonneg; lia). nia.
Qed.

(** The rounded value of a number that is at most [B / 2] is at most
    [B / 2], when [B / 2] is a double. *)
Lemma round_aux_le (s : bool) (B M e : Z) :
  0 < M -> -2200 <= e -> 0 < B < 2 ^ 53 ->
  le_half B M e ->
  binary_round_aux prec emax s M e loc_Exact = S754_zero s \/
  exists p e3,
    binary_round_aux prec emax s M e loc_Exact = S754_finite s p e3 /\
    le_half B (Zpos p) e3.
Proof.
  intros HM He HB Hle.
  destruct (round_aux_spec s M e HM) as (m2 & m3 & e3 & Hb & Hex & He3 & Hm & Hm3 & ->).
  set (k := Z.max 0 (fexp64 (Zdigits2 M + e) - e)) in *.
  assert (0 <= k) as Hk by (unfold k; lia).
  assert (0 < 2 ^ 2199) as HH by (apply Z.pow_pos_nonneg; lia).
  assert (le_half B m3 e3) as Hle3.
  { unfold le_half. replace e3 with (e + k + (e3 - (e + k))) by lia.
    rewrite <- scaled_shift by lia. rewrite <- Hm.
    unfold le_half, scaled in *.
    assert (0 < 2 ^ k) as HK by (apply Z.pow_pos_nonneg; lia).
    assert (0 < 2 ^ (e + 2200)) as HP by (apply Z.pow_pos_nonneg; lia).
    replace (e + k + 2200) with (k + (e + 2200)) by lia.
    destruct (Z.eq_dec k 0) as [Hk0|Hk0].
    { rewrite Hk0 in *. rewrite Z.pow_0_r, Z.div_1_r in *.
      rewrite (Hex (Z.mod_1_r M)).
      replace (0 + (e + 2200)) with (e + 2200) by lia. exact Hle. }
    destruct (Z_le_gt_dec (e + k) (-1)) as [Hneg|Hpos].
    - assert (2 ^ 2199 = 2 ^ (-1 - (e + k)) * (2 ^ k * 2 ^ (e + 2200))) as E.
      { rewrite <- !Z.pow_add_r by lia. f_equal. lia. }
      rewrite E in *. rewrite (Z.pow_add_r 2 k (e + 2200)) by lia.
      assert (0 < 2 ^ (-1 - (e + k))) as HT by (apply Z.pow_pos_nonneg; lia).
      clear E HH.
      revert Hle Hb Hex HK HP HT.
      generalize (2 ^ (-1 - (e + k))), (2 ^ k), (2 ^ (e + 2200)).
      intros T K P Hle Hb Hex HK HP HT.
      assert (M <= B * T * K) as HM' by nia.
      assert (m2 <= B * T) as Hq.
      { destruct (Z.eq_dec (M mod K) 0) as [H0|H0].
        - rewrite (Hex H0). apply Z.div_le_upper_bound; [lia|nia].
        - assert (M < K * (B * T)) as Hlt.
          { destruct (Z.eq_dec M (K * (B * T))) as [->|]; [|lia].
            exfalso. apply H0. rewrite Z.mul_comm. apply Z.mod_mul. lia. }
          pose proof (Z.div_lt_upper_bound M K (B * T) HK Hlt). lia. }
      replace (B * (T * (K * P))) with (B * T * (K * P)) by ring.
      apply Z.mul_le_mono_nonneg_r; nia.
    - exfalso.
      assert (k = Zdigits2 M - 53) as Hkd by (unfold k, fexp64 in *; lia).
      pose proof (digits_ge_pow M HM) as Hd.
      replace (Zdigits2 M - 1) with (k + 52) in Hd by lia.
      assert (2 ^ (k + 52) * 2 ^ (e + 2200) = 2 ^ (e + k) * (2 ^ 53 * 2 ^ 2199)) as E.
      { rewrite <- !Z.pow_add_r by lia. f_equal. lia. }
      assert (1 <= 2 ^ (e + k)) as HU
        by (change 1 with (2 ^ 0); apply Z.pow_le_mono_r; lia).
      assert (2 ^ (k + 52) * 2 ^ (e + 2200) <= M * 2 ^ (e + 2200)) as Hlo
        by (apply Z.mul_le_mono_nonneg_r; lia).
      rewrite E in Hlo.
      revert Hlo HU. generalize (2 ^ (e + k)). intros U Hlo HU.
      revert Hle Hlo HB HH. generalize (2 ^ 53), (2 ^ 2199), (M * 2 ^ (e + 2200)).
      intros C H V Hle Hlo HB HH.
      assert (0 < C * H) as HCH by (apply Z.mul_pos_pos; lia).
      assert (B * H < C * H) by (apply Z.mul_lt_mono_pos_r; lia).
      revert Hlo HCH H0 Hle. generalize (C * H), (B * H). intros X Y. nia. }
  destruct m3 as [|p|p]; [now left| |lia].
  right. exists p, e3.
  assert (e3 < 52) as He52.
  { unfold le_half, scaled in Hle3.
    assert (2 ^ (e3 + 2200) < 2 ^ (53 + 2199)) as Hpw.
    { rewrite (Z.pow_add_r 2 53 2199) by lia.
      assert (0 < 2 ^ (e3 + 2200)) by (apply Z.pow_pos_nonneg; lia).
      revert Hle3 HB HH H. generalize (2 ^ 53), (2 ^ 2199), (2 ^ (e3 + 2200)).
      intros C H V Hle3 HB HH HV.
      assert (B * H < C * H) by (apply Z.mul_lt_mono_pos_r; lia).
      assert (1 * V <= Zpos p * V) by (apply Z.mul_le_mono_nonneg_r; lia).
      lia. }
    apply Z.pow_lt_mono_r_iff in Hpw; lia. }
  replace (e3 <=? 971) with true by (symmetry; apply Z.leb_le; lia).
  split; [reflexivity|exact Hle3].
Qed.

End HalfUnits.

Section ValidDoubles.

Import SpecFloat FloatOps.

Lemma valid_finite (s : bool) (m : positive) (e : Z) :
  valid_binary prec emax (S754_finite s m e) = true ->
  -1074 <= e <= 971 /\ Zpos m < 2 ^ 53 /\ (-1074 < e -> 2 ^ 52 <= Zpos m).
Proof.
  unfold valid_binary, bounded, canonical_mantissa, fexp, emin.
  change IntDef.Z.max with Z.max. change prec with 53. change emax with 1024.
  intros H. apply andb_prop in H as [Hc He].
  apply Z.eqb_eq in Hc. apply Z.leb_le in He.
  pose proof (digits2_bounds m) as [Hlo Hhi].
  assert (Zpos (digits2_pos m) <= 53) as Hd by lia.
  split; [lia|]. split.
  - assert (2 ^ Zpos (digits2_pos m) <= 2 ^ 53)
      by (apply Z.pow_le_mono_r; lia).
    lia.
  - intros Hn. assert (Zpos (digits2_pos m) = 53) as E by lia.
    rewrite E in Hlo. exact Hlo.
Qed.

Lemma half_unit_split (e : Z) :
  -2200 <= e <= -1 -> 2 ^ 2199 = 2 ^ (-1 - e) * 2 ^ (e + 2200).
Proof. intros He. rewrite <- Z.pow_add_r by lia. f_equal. lia. Qed.

Lemma ge_half_neg (B m e : Z) :
  -2200 <= e <= -1 -> ge_half B m e -> B * 2 ^ (-1 - e) <= m.
Proof.
  intros He. unfold ge_half, scaled. rewrite (half_unit_split e He).
  assert (0 < 2 ^ (e + 2200)) by (apply Z.pow_pos_nonneg; lia).
  generalize dependent (2 ^ (e + 2200)). generalize (2 ^ (-1 - e)).
  intros T P HP H. nia.
Qed.

Lemma le_half_neg (B m e : Z) :
  -2200 <= e <= -1 -> le_half B m e -> m <= B * 2 ^ (-1 - e).
Proof.
  intros He. unfold le_half, scaled. rewrite (half_unit_split e He).
  assert (0 < 2 ^ (e + 2200)) by (apply Z.pow_pos_nonneg; lia).
  generalize dependent (2 ^ (e + 2200)). generalize (2 ^ (-1 - e)).
  intros T P HP H. nia.
Qed.

(** A double of at least 8 / 2 has an exponent of -50 at least, and a
    double of at most 15 / 2 an exponent of -50 at most. *)
Lemma ge_half_exponent (B : Z) (s : bool) (m : positive) (e : Z) :
  valid_binary prec emax (S754_finite s m e) = true ->
  8 <= B -> ge_half B (Zpos m) e -> -50 <= e.
Proof.
  intros Hv HB Hge. destruct (valid_finite s m e Hv) as (He & Hm & _).
  unfold ge_half, scaled in Hge.
  assert (2 ^ (3 + 2199) < 2 ^ (53 + (e + 2200))) as Hpw.
  { rewrite (Z.pow_add_r 2 3 2199), (Z.pow_add_r 2 53 (e + 2200)) by lia.
    assert (0 < 2 ^ 2199) by (apply Z.pow_pos_nonneg; lia).
    assert (0 < 2 ^ (e + 2200)) by (apply Z.pow_pos_nonneg; lia).
    change (2 ^ 3) with 8.
    revert Hge Hm H H0. generalize (2 ^ 53), (2 ^ 2199), (2 ^ (e + 2200)).
    intros C H P Hge Hm HH HP.
    assert (8 * H <= B * H) by (apply Z.mul_le_mono_nonneg_r; lia).
    assert (Zpos m * P < C * P) by (apply Z.mul_lt_mono_pos_r; lia).
    lia. }
  apply Z.pow_lt_mono_r_iff in Hpw; lia.
Qed.

Lemma le_half_exponent (B : Z) (s : bool) (m : positive) (e : Z) :
  valid_binary prec emax (S754_finite s m e) = true ->
  B < 16 -> le_half B (Zpos m) e -> e <= -50.
Proof.
  intros Hv HB Hle. destruct (valid_finite s m e Hv) as (He & _ & Hm).
  destruct (Z_le_gt_dec e (-50)) as [|Hgt]; [assumption|exfalso].
  specialize (Hm ltac:(lia)).
  unfold le_half, scaled in Hle.
  assert (2 ^ (52 + (e + 2200)) < 2 ^ (4 + 2199)) as Hpw.
  { rewrite (Z.pow_add_r 2 4 2199), (Z.pow_add_r 2 52 (e + 2200)) by lia.
    assert (0 < 2 ^ 2199) by (apply Z.pow_pos_nonneg; lia).
    assert (0 < 2 ^ (e + 2200)) by (apply Z.pow_pos_nonneg; lia).
    change (2 ^ 4) with 16.
    revert Hle Hm H H0. generalize (2 ^ 52), (2 ^ 2199), (2 ^ (e + 2200)).
    intros C H P Hle Hm HH HP.
    assert (B * H < 16 * H) by (apply Z.mul_lt_mono_pos_r; lia).
    assert (C * P <= Zpos m * P) by (apply Z.mul_le_mono_nonneg_r; lia).
    lia. }
  apply Z.pow_lt_mono_r_iff in Hpw; lia.
Qed.

(** The value of a positive double with a negative exponent, against a
    bound in halves. *)
Lemma to_Q_finite (x : PrimFloat.float) (m : positive) (e : Z) :
  Prim2SF x = S754_finite false m e -> e <= -1 ->
  exists p, e = Zneg p /\ Binary64.to_Q x = Some (Qmake (Zpos m) (2 ^ p)) /\
            Zpos (2 ^ p) = 2 * 2 ^ (-1 - e).
Proof.
  intros Hx He. destruct e as [|p|p]; try lia. exists p.
  split; [reflexivity|]. split.
  - unfold Binary64.to_Q. rewrite Hx. reflexivity.
  - rewrite Pos2Z.inj_pow. change (2 * 2 ^ (-1 - Zneg p)) with (2 ^ 1 * 2 ^ (-1 - Zneg p)).
    rewrite <- Z.pow_add_r by lia. f_equal. lia.
Qed.

Lemma to_Q_ge (B : Z) (x : PrimFloat.float) (m : positive) (e : Z) :
  Prim2SF x = S754_finite false m e -> -2200 <= e <= -1 ->
  ge_half B (Zpos m) e ->
  exists q, Binary64.to_Q x = Some q /\ (Qmake B 2 <= q)%Q.
Proof.
  intros Hx He Hge. destruct (to_Q_finite x m e Hx ltac:(lia)) as (p & _ & -> & Hp).
  eexists. split; [reflexivity|]. unfold Qle. cbn [Qnum Qden].
  rewrite Hp. pose proof (ge_half_neg B (Zpos m) e He Hge). lia.
Qed.

Lemma to_Q_le (B : Z) (x : PrimFloat.float) (m : positive) (e : Z) :
  Prim2SF x = S754_finite false m e -> -2200 <= e <= -1 ->
  le_half B (Zpos m) e ->
  exists q, Binary64.to_Q x = Some q /\ (q <= Qmake B 2)%Q.
Proof.
  intros Hx He Hle. destruct (to_Q_finite x m e Hx ltac:(lia)) as (p & _ & -> & Hp).
  eexists. split; [reflexivity|]. unfold Qle. cbn [Qnum Qden].
  rewrite Hp. pose proof (le_half_neg B (Zpos m) e He Hle). lia.
Qed.

End ValidDoubles.

Section Clamp.

Import SpecFloat FloatOps.

Lemma ten_spec :
  Prim2SF (Binary64.of_Z 10) = S754_finite false 5629499534213120 (-49).
Proof. vm_compute. reflexivity. Qed.

Lemma one_spec :
  Prim2SF (Binary64.of_Z 1) = S754_finite false 4503599627370496 (-52).
Proof. vm_compute. reflexivity. Qed.

Lemma clamp_of (x : PrimFloat.float) :
  clamp x
  = if SFltb (Prim2SF x) (S754_finite false 5629499534213120 (-49))
    then if SFltb (S754_finite false 4503599627370496 (-52)) (Prim2SF x)
         then x else Binary64.of_Z 1
    else Binary64.of_Z 10.
Proof.
  unfold clamp, Binary64.max2, Binary64.min2.
  rewrite (FloatAxioms.ltb_spec x), ten_spec.
  destruct (SFltb (Prim2SF x) _).
  - now rewrite (FloatAxioms.ltb_spec _ x), one_spec.
  - reflexivity.
Qed.

Lemma to_Q_one :
  exists q, Binary64.to_Q (Binary64.of_Z 1) = Some q /\ (q == 1)%Q.
Proof. eexists. split; [vm_compute; reflexivity|reflexivity]. Qed.

Lemma to_Q_ten :
  exists q, Binary64.to_Q (Binary64.of_Z 10) = Some q /\ (q == 10)%Q.
Proof. eexists. split; [vm_compute; reflexivity|reflexivity]. Qed.

(** The clamp of a double of at least 5.5, or of plus infinity. *)
Lemma clamp_ge (x : PrimFloat.float) :
  Prim2SF x = S754_infinity false \/
  (exists m e, Prim2SF x = S754_finite false m e /\ ge_half 11 (Zpos m) e) ->
  exists q, Binary64.to_Q (clamp x) = Some q /\ (11 # 2 <= q)%Q.
Proof.
  intros H. rewrite clamp_of. pose proof (FloatAxioms.Prim2SF_valid x) as Hv.
  destruct to_Q_ten as (q10 & Hq10 & E10).
  destruct H as [Hx|(m & e & Hx & Hge)]; rewrite Hx in *.
  - cbn. exists q10. split; [exact Hq10|]. rewrite E10. easy.
  - pose proof (ge_half_exponent 11 false m e Hv ltac:(lia) Hge) as He.
    destruct (valid_finite false m e Hv) as (Hr & _ & _).
    unfold SFltb, SFcompare.
    replace (-52 ?= e) with Lt by (symmetry; apply Z.compare_lt_iff; lia).
    destruct (Z.compare_spec e (-49)) as [E|E|E].
    + destruct (PosDef.Pos.compare_cont Eq m 5629499534213120).
      * exists q10. split; [exact Hq10|]. rewrite E10. easy.
      * exact (to_Q_ge 11 x m e Hx ltac:(lia) Hge).
      * exists q10. split; [exact Hq10|]. rewrite E10. easy.
    + exact (to_Q_ge 11 x m e Hx ltac:(lia) Hge).
    + exists q10. split; [exact Hq10|]. rewrite E10. easy.
Qed.

(** The clamp of a double of at most 4.5: a zero, a negative double and
    minus infinity among them. *)
Lemma clamp_le (x : PrimFloat.float) :
  (exists s, Prim2SF x = S754_zero s) \/
  Prim2SF x = S754_infinity true \/
  (exists m e, Prim2SF x = S754_finite true m e) \/
  (exists m e, Prim2SF x = S754_finite false m e /\ le_half 9 (Zpos m) e) ->
  exists q, Binary64.to_Q (clamp x) = Some q /\ (q <= 9 # 2)%Q.
Proof.
  intros H. rewrite clamp_of. pose proof (FloatAxioms.Prim2SF_valid x) as Hv.
  destruct to_Q_one as (q1 & Hq1 & E1).
  destruct H as [[s Hx]|[Hx|[(m & e & Hx)|(m & e & Hx & Hle)]]]; rewrite Hx in *.
  - cbn. exists q1. split; [exact Hq1|]. rewrite E1. easy.
  - cbn. exists q1. split; [exact Hq1|]. rewrite E1. easy.
  - cbn. exists q1. split; [exact Hq1|]. rewrite E1. easy.
  - pose proof (le_half_exponent 9 false m e Hv ltac:(lia) Hle) as He.
    destruct (valid_finite false m e Hv) as (Hr & _ & _).
    unfold SFltb, SFcompare.
    replace (e ?= -49) with Lt by (symmetry; apply Z.compare_lt_iff; lia).
    destruct (match -52 ?= e with
              | Eq => PosDef.Pos.compare_cont Eq 4503599627370496 m
              | Lt => Lt
              | Gt => Gt
              end).
    + exists q1. split; [exact Hq1|]. rewrite E1. easy.
    + exact (to_Q_le 9 x m e Hx ltac:(lia) Hle).
    + exists q1. split; [exact Hq1|]. rewrite E1. easy.
Qed.

(** The clamp of a double from 4.5 to 5.5 is the double. *)
Lemma clamp_between (x : PrimFloat.float) (m : positive) (e : Z) :
  Prim2SF x = S754_finite false m e ->
  ge_half 9 (Zpos m) e -> le_half 11 (Zpos m) e ->
  exists q, Binary64.to_Q (clamp x) = Some q /\ (9 # 2 <= q <= 11 # 2)%Q.
Proof.
  intros Hx Hge Hle. rewrite clamp_of.
  pose proof (FloatAxioms.Prim2SF_valid x) as Hv. rewrite Hx in *.
  pose proof (ge_half_exponent 9 false m e Hv ltac:(lia) Hge) as He1.
  pose proof (le_half_exponent 11 false m e Hv ltac:(lia) Hle) as He2.
  unfold SFltb, SFcompare.
  replace (e ?= -49) with Lt by (symmetry; apply Z.compare_lt_iff; lia).
  replace (-52 ?= e) with Lt by (symmetry; apply Z.compare_lt_iff; lia).
  destruct (to_Q_ge 9 x m e Hx ltac:(lia) Hge) as (q & Hq & Hlo).
  destruct (to_Q_le 11 x m e Hx ltac:(lia) Hle) as (q' & Hq' & Hhi).
  rewrite Hq in Hq'. injection Hq' as <-. exists q. now split.
Qed.

End Clamp.

Section Arithmetic.

Import SpecFloat FloatOps.

Lemma five_spec :
  Prim2SF (Binary64.of_Z 5) = S754_finite false 5629499534213120 (-50).
Proof. vm_compute. reflexivity. Qed.

Lemma scaled_add (a b e : Z) : scaled (a + b) e = scaled a e + scaled b e.
Proof. unfold scaled. ring. Qed.

Lemma scaled_sub (a b e : Z) : scaled (a - b) e = scaled a e - scaled b e.
Proof. unfold scaled. ring. Qed.

Lemma scaled_five : scaled 5629499534213120 (-50) = 10 * 2 ^ 2199.
Proof. vm_compute. reflexivity. Qed.

Lemma scaled_times_five (m e : Z) :
  -2150 <= e -> scaled (m * 5629499534213120) (e - 50) = 5 * m * 2 ^ (e + 2200).
Proof.
  intros He. unfold scaled.
  replace (e + 2200) with (50 + (e - 50 + 2200)) by lia.
  rewrite (Z.pow_add_r 2 50 (e - 50 + 2200)) by lia.
  change (2 ^ 50) with 1125899906842624. ring.
Qed.

Lemma shl_align_value (mx : positive) (ex ez : Z) :
  ez <= ex ->
  Zpos (fst (shl_align mx ex ez)) = Zpos mx * 2 ^ (ex - ez) /\
  snd (shl_align mx ex ez) = ez.
Proof.
  intros H. unfold shl_align. destruct (ez - ex) as [|d|d] eqn:E; try lia.
  - cbn [fst snd]. replace (ex - ez) with 0 by lia. split; lia.
  - cbn [fst snd]. split; [|reflexivity].
    change (PosDef.Pos.iter xO mx d) with (Zpower.shift_pos d mx).
    rewrite Zpower.shift_pos_correct.
    replace (ex - ez) with (Zpos d) by lia. rewrite Z.mul_comm. reflexivity.
Qed.

(** [binary_round] rounds the same number, written with more digits when
    the format has room for them. *)
Lemma binary_round_aligned (s : bool) (mx : positive) (ex : Z) :
  -2200 <= ex ->
  exists mz ez,
    binary_round prec emax s mx ex
    = binary_round_aux prec emax s (Zpos mz) ez loc_Exact /\
    -2200 <= ez /\ scaled (Zpos mz) ez = scaled (Zpos mx) ex.
Proof.
  intros He. unfold binary_round.
  set (target := fexp prec emax (Zpos (digits2_pos mx) + ex)).
  assert (-1074 <= target) as Ht.
  { unfold target, fexp, emin. change IntDef.Z.max with Z.max.
    change prec with 53. change emax with 1024. lia. }
  destruct (Z_le_gt_dec target ex) as [Hle|Hgt].
  - destruct (shl_align_value mx ex target Hle) as [Hf Hs].
    destruct (shl_align mx ex target) as [mz ez]. cbn [fst snd] in Hf, Hs.
    exists mz, ez. split; [reflexivity|]. subst ez. split; [lia|].
    rewrite Hf. rewrite scaled_shift by lia. f_equal. lia.
  - unfold shl_align. destruct (target - ex) as [|d|d] eqn:E; try lia.
    exists mx, ex. split; [reflexivity|]. split; [lia|reflexivity].
Qed.

Lemma binary_round_ge (s : bool) (B : Z) (mx : positive) (ex : Z) :
  -2200 <= ex -> 0 < B <= 2 ^ 53 -> ge_half B (Zpos mx) ex ->
  binary_round prec emax s mx ex = S754_infinity s \/
  exists p e3,
    binary_round prec emax s mx ex = S754_finite s p e3 /\
    ge_half B (Zpos p) e3.
Proof.
  intros He HB Hge.
  destruct (binary_round_aligned s mx ex He) as (mz & ez & -> & Hez & Hsc).
  apply round_aux_ge; [lia|exact Hez|exact HB|].
  unfold ge_half in *. now rewrite Hsc.
Qed.

Lemma binary_round_le (s : bool) (B : Z) (mx : positive) (ex : Z) :
  -2200 <= ex -> 0 < B < 2 ^ 53 -> le_half B (Zpos mx) ex ->
  binary_round prec emax s mx ex = S754_zero s \/
  exists p e3,
    binary_round prec emax s mx ex = S754_finite s p e3 /\
    le_half B (Zpos p) e3.
Proof.
  intros He HB Hle.
  destruct (binary_round_aligned s mx ex He) as (mz & ez & -> & Hez & Hsc).
  apply round_aux_le; [lia|exact Hez|exact HB|].
  unfold le_half in *. now rewrite Hsc.
Qed.

(** The sign of a rounded number is the sign given. *)
Lemma binary_round_sign (s : bool) (mx : positive) (ex : Z) :
  -2200 <= ex ->
  binary_round prec emax s mx ex = S754_zero s \/
  binary_round prec emax s mx ex = S754_infinity s \/
  exists p e, binary_round prec emax s mx ex = S754_finite s p e.
Proof.
  intros He.
  destruct (binary_round_aligned s mx ex He) as (mz & ez & -> & _ & _).
  destruct (round_aux_spec s (Zpos mz) ez ltac:(lia))
    as (m2 & m3 & e3 & _ & _ & _ & _ & H3 & ->).
  destruct m3 as [|p|p]; [now left| |lia].
  destruct (e3 <=? 971); [right; right; eauto|right; now left].
Qed.

End Arithmetic.

Section SumAndProduct.

Import SpecFloat FloatOps.

Lemma tenth_spec :
  Prim2SF (Binary64.literal 1 10) = S754_finite false 7205759403792794 (-56).
Proof. vm_compute. reflexivity. Qed.

(** [p * 5.0] *)
Lemma mul_five (p : PrimFloat.float) :
  Prim2SF (PrimFloat.mul p (Binary64.of_Z 5))
  = match Prim2SF p with
    | S754_zero s => S754_zero s
    | S754_infinity s => S754_infinity s
    | S754_nan => S754_nan
    | S754_finite s m e =>
        binary_round_aux prec emax s (Zpos (m * 5629499534213120)) (e - 50)
          loc_Exact
    end.
Proof.
  rewrite FloatAxioms.mul_spec, five_spec. unfold FloatAxioms.SF64mul.
  destruct (Prim2SF p) as [[]|[]| |[] m e]; reflexivity.
Qed.

(** [5.0 + y] *)
Lemma add_five (y : PrimFloat.float) :
  Prim2SF (PrimFloat.add (Binary64.of_Z 5) y)
  = match Prim2SF y with
    | S754_zero _ => S754_finite false 5629499534213120 (-50)
    | S754_infinity s => S754_infinity s
    | S754_nan => S754_nan
    | S754_finite sy my ey =>
        let ez := Z.min (-50) ey in
        binary_normalize prec emax
          (5629499534213120 * 2 ^ (-50 - ez)
           + cond_Zopp sy (Zpos my * 2 ^ (ey - ez)))
          ez false
    end.
Proof.
  rewrite FloatAxioms.add_spec, five_spec. unfold FloatAxioms.SF64add, SFadd.
  destruct (Prim2SF y) as [s|s| |sy my ey]; try reflexivity.
  change IntDef.Z.min with Z.min. cbv zeta.
  destruct (shl_align_value 5629499534213120 (-50) (Z.min (-50) ey) ltac:(lia))
    as [-> _].
  destruct (shl_align_value my ey (Z.min (-50) ey) ltac:(lia)) as [-> _].
  reflexivity.
Qed.

(** The two terms of the sum, in units of [2^-2200]. *)
Lemma sum_terms (my ey : Z) :
  -2200 <= ey ->
  let ez := Z.min (-50) ey in
  scaled (5629499534213120 * 2 ^ (-50 - ez)) ez = 10 * 2 ^ 2199 /\
  scaled (my * 2 ^ (ey - ez)) ez = scaled my ey.
Proof.
  intros He ez. assert (-2200 <= ez <= -50 /\ ez <= ey) as Hz by (unfold ez; lia).
  split.
  - rewrite scaled_shift by lia. replace (ez + (-50 - ez)) with (-50) by lia.
    exact scaled_five.
  - rewrite scaled_shift by lia. f_equal. lia.
Qed.

Lemma half_unit_pos : 0 < 2 ^ 2199.
Proof. apply Z.pow_pos_nonneg; lia. Qed.

Lemma scaled_pos (m e : Z) : -2200 <= e -> 0 < scaled m e -> 0 < m.
Proof.
  intros He. unfold scaled.
  assert (0 < 2 ^ (e + 2200)) by (apply Z.pow_pos_nonneg; lia). nia.
Qed.

(** [5.0 + y] for a [y] of at least 0.5. *)
Lemma add_five_ge (y : PrimFloat.float) :
  Prim2SF y = S754_infinity false \/
  (exists my ey, Prim2SF y = S754_finite false my ey /\ ge_half 1 (Zpos my) ey) ->
  Prim2SF (PrimFloat.add (Binary64.of_Z 5) y) = S754_infinity false \/
  exists m e,
    Prim2SF (PrimFloat.add (Binary64.of_Z 5) y) = S754_finite false m e /\
    ge_half 11 (Zpos m) e.
Proof.
  intros H. rewrite add_five. pose proof (FloatAxioms.Prim2SF_valid y) as Hv.
  destruct H as [->|(my & ey & Hy & Hge)]; [left; reflexivity|]. rewrite Hy in *.
  destruct (valid_finite false my ey Hv) as (He & _ & _).
  cbv zeta. cbn [cond_Zopp].
  destruct (sum_terms (Zpos my) ey ltac:(lia)) as [H5 Hmy]. cbv zeta in H5, Hmy.
  set (ez := Z.min (-50) ey) in *.
  set (M := 5629499534213120 * 2 ^ (-50 - ez) + Zpos my * 2 ^ (ey - ez)).
  assert (scaled M ez = 10 * 2 ^ 2199 + scaled (Zpos my) ey) as HM
    by (unfold M; rewrite scaled_add, H5, Hmy; reflexivity).
  pose proof half_unit_pos as HH. unfold ge_half in Hge.
  assert (0 < M) as HMpos
    by (apply (scaled_pos M ez); [unfold ez; lia|rewrite HM; lia]).
  destruct M as [|pm|pm]; try lia. cbn [binary_normalize].
  apply binary_round_ge; [unfold ez; lia|change (2 ^ 53) with 9007199254740992; lia|].
  unfold ge_half. rewrite HM. lia.
Qed.

(** [5.0 + y] for a [y] of at most -0.5: the sum is at most 4.5. *)
Lemma add_five_le (y : PrimFloat.float) :
  Prim2SF y = S754_infinity true \/
  (exists my ey, Prim2SF y = S754_finite true my ey /\ ge_half 1 (Zpos my) ey) ->
  let r := Prim2SF (PrimFloat.add (Binary64.of_Z 5) y) in
  (exists s, r = S754_zero s) \/
  r = S754_infinity true \/
  (exists m e, r = S754_finite true m e) \/
  (exists m e, r = S754_finite false m e /\ le_half 9 (Zpos m) e).
Proof.
  intros H. cbv zeta. rewrite add_five.
  pose proof (FloatAxioms.Prim2SF_valid y) as Hv.
  destruct H as [->|(my & ey & Hy & Hge)]; [right; left; reflexivity|]. rewrite Hy in *.
  destruct (valid_finite true my ey Hv) as (He & _ & _).
  cbv zeta. cbn [cond_Zopp].
  destruct (sum_terms (Zpos my) ey ltac:(lia)) as [H5 Hmy]. cbv zeta in H5, Hmy.
  set (ez := Z.min (-50) ey) in *.
  replace (5629499534213120 * 2 ^ (-50 - ez) + - (Zpos my * 2 ^ (ey - ez)))
    with (5629499534213120 * 2 ^ (-50 - ez) - Zpos my * 2 ^ (ey - ez)) by lia.
  set (M := 5629499534213120 * 2 ^ (-50 - ez) - Zpos my * 2 ^ (ey - ez)).
  assert (scaled M ez = 10 * 2 ^ 2199 - scaled (Zpos my) ey) as HM
    by (unfold M; rewrite scaled_sub, H5, Hmy; reflexivity).
  pose proof half_unit_pos as HH. unfold ge_half in Hge.
  destruct M as [|pm|pm]; cbn [binary_normalize].
  - left. exists false. reflexivity.
  - destruct (binary_round_le false 9 pm ez) as [Hz|(p & e3 & Hr & Hle)].
    + unfold ez; lia.
    + change (2 ^ 53) with 9007199254740992; lia.
    + unfold le_half. rewrite HM. lia.
    + left. exists false. exact Hz.
    + right. right. right. exists p, e3. split; [exact Hr|exact Hle].
  - destruct (binary_round_sign true pm ez ltac:(unfold ez; lia))
      as [Hz|[Hi|(p & e3 & Hr)]].
    + left. exists true. exact Hz.
    + right. left. exact Hi.
    + right. right. left. exists p, e3. exact Hr.
Qed.

(** [5.0 + y] for a [y] from -0.5 to 0.5. *)
Lemma add_five_between (y : PrimFloat.float) :
  (exists s, Prim2SF y = S754_zero s) \/
  (exists s my ey, Prim2SF y = S754_finite s my ey /\ le_half 1 (Zpos my) ey) ->
  exists m e,
    Prim2SF (PrimFloat.add (Binary64.of_Z 5) y) = S754_finite false m e /\
    ge_half 9 (Zpos m) e /\ le_half 11 (Zpos m) e.
Proof.
  intros H. rewrite add_five. pose proof (FloatAxioms.Prim2SF_valid y) as Hv.
  pose proof half_unit_pos as HH.
  destruct H as [[s Hy]|(s & my & ey & Hy & Hle)]; rewrite Hy in *.
  { exists 5629499534213120%positive, (-50). split; [reflexivity|].
    unfold ge_half, le_half. rewrite scaled_five. lia. }
  destruct (valid_finite s my ey Hv) as (He & _ & _).
  cbv zeta.
  destruct (sum_terms (Zpos my) ey ltac:(lia)) as [H5 Hmy]. cbv zeta in H5, Hmy.
  set (ez := Z.min (-50) ey) in *.
  assert (0 <= scaled (Zpos my) ey) as Hnn.
  { unfold scaled. apply Z.mul_nonneg_nonneg; [lia|].
    apply Z.pow_nonneg. lia. }
  unfold le_half in Hle.
  set (M := 5629499534213120 * 2 ^ (-50 - ez)
            + cond_Zopp s (Zpos my * 2 ^ (ey - ez))).
  assert (9 * 2 ^ 2199 <= scaled M ez <= 11 * 2 ^ 2199) as HM.
  { unfold M. rewrite scaled_add, H5. destruct s; cbn [cond_Zopp].
    - replace (scaled (- (Zpos my * 2 ^ (ey - ez))) ez)
        with (- scaled (Zpos my * 2 ^ (ey - ez)) ez) by (unfold scaled; ring).
      rewrite Hmy. lia.
    - rewrite Hmy. lia. }
  assert (0 < M) as HMpos
    by (apply (scaled_pos M ez); [unfold ez; lia|lia]).
  destruct M as [|pm|pm]; try lia. cbn [binary_normalize].
  destruct (binary_round_ge false 9 pm ez) as [Hi|(p & e3 & Hr & Hge3)].
  - unfold ez; lia.
  - change (2 ^ 53) with 9007199254740992; lia.
  - unfold ge_half. lia.
  - destruct (binary_round_le false 11 pm ez) as [Hz|(p & e3 & Hr & _)].
    + unfold ez; lia.
    + change (2 ^ 53) with 9007199254740992; lia.
    + unfold le_half. lia.
    + rewrite Hi in Hz. discriminate.
    + rewrite Hi in Hr. discriminate.
  - destruct (binary_round_le false 11 pm ez) as [Hz|(p' & e3' & Hr' & Hle3)].
    + unfold ez; lia.
    + change (2 ^ 53) with 9007199254740992; lia.
    + unfold le_half. lia.
    + rewrite Hr in Hz. discriminate.
    + rewrite Hr in Hr'. injection Hr' as <- <-. exists p, e3.
      split; [exact Hr|]. split; [exact Hge3|exact Hle3].
Qed.

End SumAndProduct.

Section Product.

Import SpecFloat FloatOps.

(** [p * 5.0] for a [p] above 0.1 in magnitude: at least 0.5 in
    magnitude. *)
Lemma mul_five_ge (p : PrimFloat.float) (s : bool) (m : positive) (e : Z) :
  Prim2SF p = S754_finite s m e ->
  -56 < e \/ (e = -56 /\ 7205759403792794 < Zpos m) ->
  Prim2SF (PrimFloat.mul p (Binary64.of_Z 5)) = S754_infinity s \/
  exists my ey,
    Prim2SF (PrimFloat.mul p (Binary64.of_Z 5)) = S754_finite s my ey /\
    ge_half 1 (Zpos my) ey.
Proof.
  intros Hp Hc. rewrite mul_five, Hp.
  pose proof (FloatAxioms.Prim2SF_valid p) as Hv. rewrite Hp in Hv.
  destruct (valid_finite s m e Hv) as (He & _ & Hm).
  apply round_aux_ge; [lia|lia|change (2 ^ 53) with 9007199254740992; lia|].
  unfold ge_half. rewrite Pos2Z.inj_mul, scaled_times_five by lia.
  destruct Hc as [Hc|[-> Hc]].
  - specialize (Hm ltac:(lia)). change (2 ^ 52) with 4503599627370496 in Hm.
    assert (2 ^ 2145 <= 2 ^ (e + 2200)) as Hpw
      by (apply Z.pow_le_mono_r; lia).
    change (2 ^ 2199) with (2 ^ (54 + 2145)).
    rewrite (Z.pow_add_r 2 54 2145) by lia. change (2 ^ 54) with 18014398509481984.
    assert (0 < 2 ^ 2145) as HP by (apply Z.pow_pos_nonneg; lia).
    revert Hpw HP. generalize (2 ^ 2145), (2 ^ (e + 2200)). intros P V Hpw HP.
    nia.
  - change (-56 + 2200) with 2144. change (2 ^ 2199) with (2 ^ (55 + 2144)).
    rewrite (Z.pow_add_r 2 55 2144) by lia. change (2 ^ 55) with 36028797018963968.
    assert (0 < 2 ^ 2144) as HP by (apply Z.pow_pos_nonneg; lia).
    revert HP. generalize (2 ^ 2144). intros P HP. nia.
Qed.

(** [p * 5.0] for a [p] below 0.1 in magnitude: at most 0.5 in
    magnitude. *)
Lemma mul_five_le (p : PrimFloat.float) (s : bool) (m : positive) (e : Z) :
  Prim2SF p = S754_finite s m e ->
  e < -56 \/ (e = -56 /\ Zpos m < 7205759403792794) ->
  Prim2SF (PrimFloat.mul p (Binary64.of_Z 5)) = S754_zero s \/
  exists my ey,
    Prim2SF (PrimFloat.mul p (Binary64.of_Z 5)) = S754_finite s my ey /\
    le_half 1 (Zpos my) ey.
Proof.
  intros Hp Hc. rewrite mul_five, Hp.
  pose proof (FloatAxioms.Prim2SF_valid p) as Hv. rewrite Hp in Hv.
  destruct (valid_finite s m e Hv) as (He & Hm & _).
  apply round_aux_le; [lia|lia|change (2 ^ 53) with 9007199254740992; lia|].
  unfold le_half. rewrite Pos2Z.inj_mul, scaled_times_five by lia.
  change (2 ^ 53) with 9007199254740992 in Hm.
  destruct Hc as [Hc|[-> Hc]].
  - assert (2 ^ (e + 2200) <= 2 ^ 2143) as Hpw
      by (apply Z.pow_le_mono_r; lia).
    change (2 ^ 2199) with (2 ^ (56 + 2143)).
    rewrite (Z.pow_add_r 2 56 2143) by lia. change (2 ^ 56) with 72057594037927936.
    assert (0 < 2 ^ (e + 2200)) as HV by (apply Z.pow_pos_nonneg; lia).
    revert Hpw HV. generalize (2 ^ 2143), (2 ^ (e + 2200)). intros P V Hpw HV.
    nia.
  - change (-56 + 2200) with 2144. change (2 ^ 2199) with (2 ^ (55 + 2144)).
    rewrite (Z.pow_add_r 2 55 2144) by lia. change (2 ^ 55) with 36028797018963968.
    assert (0 < 2 ^ 2144) as HP by (apply Z.pow_pos_nonneg; lia).
    revert HP. generalize (2 ^ 2144). intros P HP. nia.
Qed.

End Product.

Section Scores.

Import SpecFloat FloatOps.

Lemma minus_tenth_spec :
  Prim2SF (PrimFloat.opp (Binary64.literal 1 10))
  = S754_finite true 7205759403792794 (-56).
Proof. vm_compute. reflexivity. Qed.

Lemma pos_compare (a b : positive) :
  (PosDef.Pos.compare_cont Eq a b = Lt -> Zpos a < Zpos b) /\
  (PosDef.Pos.compare_cont Eq a b = Eq -> a = b) /\
  (PosDef.Pos.compare_cont Eq a b = Gt -> Zpos b < Zpos a).
Proof.
  change (PosDef.Pos.compare_cont Eq a b) with (Pos.compare a b).
  destruct (Pos.compare_spec a b) as [E|E|E]; repeat split; intros; try discriminate; lia.
Qed.

(** A polarity above 0.1: the score before rounding is at least 5.5. *)
Lemma score_positive (p : PrimFloat.float) :
  PrimFloat.ltb (Binary64.literal 1 10) p = true ->
  exists q, Binary64.to_Q (raw_score p) = Some q /\ (11 # 2 <= q)%Q.
Proof.
  rewrite FloatAxioms.ltb_spec, tenth_spec. intros H. unfold raw_score.
  apply clamp_ge. apply add_five_ge.
  destruct (Prim2SF p) as [s|s| |s m e] eqn:Hp.
  - destruct s; discriminate.
  - destruct s; [discriminate|]. left. rewrite mul_five, Hp. reflexivity.
  - discriminate.
  - unfold SFltb, SFcompare in H. destruct s; [discriminate|].
    apply (mul_five_ge p false m e Hp).
    destruct (Z.compare_spec (-56) e) as [E|E|E]; [right|left; lia|discriminate].
    split; [lia|].
    destruct (PosDef.Pos.compare_cont Eq 7205759403792794 m) eqn:Ec;
      try discriminate.
    exact (proj1 (pos_compare _ _) Ec).
Qed.

(** A polarity below -0.1: the score before rounding is at most 4.5. *)
Lemma score_negative (p : PrimFloat.float) :
  PrimFloat.ltb p (PrimFloat.opp (Binary64.literal 1 10)) = true ->
  exists q, Binary64.to_Q (raw_score p) = Some q /\ (q <= 9 # 2)%Q.
Proof.
  rewrite FloatAxioms.ltb_spec, minus_tenth_spec. intros H. unfold raw_score.
  apply clamp_le. apply add_five_le.
  destruct (Prim2SF p) as [s|s| |s m e] eqn:Hp.
  - destruct s; discriminate.
  - destruct s; [|discriminate]. left. rewrite mul_five, Hp. reflexivity.
  - discriminate.
  - unfold SFltb, SFcompare in H. destruct s; [|discriminate].
    apply (mul_five_ge p true m e Hp).
    destruct (Z.compare_spec e (-56)) as [E|E|E]; [right|discriminate|left; lia].
    split; [lia|].
    destruct (PosDef.Pos.compare_cont Eq m 7205759403792794) eqn:Ec;
      try discriminate.
    exact (proj2 (proj2 (pos_compare _ _)) Ec).
Qed.

(** The three polarities for which the score is computed outright: the
    zeros and the two bounds. *)
Lemma score_at (s : bool) :
  (exists q, Binary64.to_Q (raw_score (SF2Prim (S754_zero s))) = Some q /\
             (9 # 2 <= q <= 11 # 2)%Q) /\
  (exists q, Binary64.to_Q
               (raw_score (SF2Prim (S754_finite s 7205759403792794 (-56))))
             = Some q /\ (9 # 2 <= q <= 11 # 2)%Q).
Proof.
  destruct s; split; eexists; (split; [vm_compute; reflexivity|]);
    split; apply Qle_bool_iff; vm_compute; reflexivity.
Qed.

(** A polarity from -0.1 to 0.1: the score before rounding is from 4.5
    to 5.5. *)
Lemma score_neutral (p : PrimFloat.float) :
  PrimFloat.ltb (Binary64.literal 1 10) p = false ->
  PrimFloat.ltb p (PrimFloat.opp (Binary64.literal 1 10)) = false ->
  Prim2SF p <> S754_nan ->
  exists q, Binary64.to_Q (raw_score p) = Some q /\ (9 # 2 <= q <= 11 # 2)%Q.
Proof.
  rewrite !FloatAxioms.ltb_spec, tenth_spec, minus_tenth_spec.
  intros Hpos Hneg Hnan.
  destruct (Prim2SF p) as [s|s| |s m e] eqn:Hp.
  - rewrite <- (FloatAxioms.SF2Prim_Prim2SF p), Hp. apply score_at.
  - destruct s; discriminate.
  - contradiction.
  - assert (e < -56 \/ (e = -56 /\ Zpos m <= 7205759403792794)) as Hc.
    { unfold SFltb, SFcompare in Hpos, Hneg. destruct s.
      - destruct (Z.compare_spec e (-56)) as [E|E|E];
          [right|left; lia|discriminate].
        split; [lia|].
        destruct (PosDef.Pos.compare_cont Eq m 7205759403792794) eqn:Ec;
          try discriminate.
        + apply pos_compare in Ec. lia.
        + apply pos_compare in Ec. lia.
      - destruct (Z.compare_spec (-56) e) as [E|E|E];
          [right|discriminate|left; lia].
        split; [lia|].
        destruct (PosDef.Pos.compare_cont Eq 7205759403792794 m) eqn:Ec;
          try discriminate.
        + apply pos_compare in Ec. lia.
        + apply pos_compare in Ec. lia. }
    destruct (Z.eq_dec e (-56)) as [He|He].
    + destruct (Z.eq_dec (Zpos m) 7205759403792794) as [Hm|Hm].
      * injection Hm as ->. subst e.
        rewrite <- (FloatAxioms.SF2Prim_Prim2SF p), Hp. apply score_at.
      * unfold raw_score.
        destruct (add_five_between (PrimFloat.mul p (Binary64.of_Z 5)))
          as (m' & e' & Hr & Hge & Hle).
        { destruct (mul_five_le p s m e Hp ltac:(lia)) as [Hz|(my & ey & Hy & Hl)].
          - left. exists s. exact Hz.
          - right. exists s, my, ey. split; [exact Hy|exact Hl]. }
        exact (clamp_between _ m' e' Hr Hge Hle).
    + unfold raw_score.
      destruct (add_five_between (PrimFloat.mul p (Binary64.of_Z 5)))
        as (m' & e' & Hr & Hge & Hle).
      { destruct (mul_five_le p s m e Hp ltac:(lia)) as [Hz|(my & ey & Hy & Hl)].
        - left. exists s. exact Hz.
        - right. exists s, my, ey. split; [exact Hy|exact Hl]. }
      exact (clamp_between _ m' e' Hr Hge Hle).
Qed.

End Scores.

(** The double nearest to 0.05 gives the score 5.2; its exact value would
    give 5.3. *)
Example score_computed_in_doubles :
  Binary64.round_float (raw_score (Binary64.literal 5 100)) 1
  = Binary64.Decimal (26 # 5) /\
  option_map (fun q => round (5 + q * 5) 1) (Binary64.to_Q (Binary64.literal 5 100))
  = Some (53 # 10).
Proof. split; vm_compute; reflexivity. Qed.

Section SentimentFacts.

Context `{RT : Runtime}.

Import SpecFloat FloatOps.

(** [max(1.0, min(10.0, x))] is a finite double from 1.0 to 10.0 for every
    double [x], a nan and the infinities included. *)
Lemma clamp_value (x : PrimFloat.float) :
  exists q,
    Binary64.to_Q
      (Binary64.max2 (Binary64.of_Z 1) (Binary64.min2 (Binary64.of_Z 10) x))
    = Some q /\ (1 <= q <= 10)%Q.
Proof.
  unfold Binary64.max2, Binary64.min2.
  destruct (PrimFloat.ltb x (Binary64.of_Z 10)) eqn:E10.
  - destruct (PrimFloat.ltb (Binary64.of_Z 1) x) eqn:E1.
    + exact (between_one_and_ten x E10 E1).
    + eexists. split; [vm_compute; reflexivity|].
      split; apply Qle_bool_iff; vm_compute; reflexivity.
  - replace (PrimFloat.ltb (Binary64.of_Z 1) (Binary64.of_Z 10)) with true
      by (vm_compute; reflexivity).
    eexists. split; [vm_compute; reflexivity|].
    split; apply Qle_bool_iff; vm_compute; reflexivity.
Qed.

(** The clamp of a nan is 10.0: no comparison with a nan holds. *)
Lemma clamp_nan (x : PrimFloat.float) :
  Prim2SF x = S754_nan ->
  Binary64.max2 (Binary64.of_Z 1) (Binary64.min2 (Binary64.of_Z 10) x)
  = Binary64.of_Z 10.
Proof.
  intros Hx. unfold Binary64.max2, Binary64.min2.
  rewrite (FloatAxioms.ltb_spec x), Hx. cbn [SFltb SFcompare].
  replace (PrimFloat.ltb (Binary64.of_Z 1) (Binary64.of_Z 10)) with true
    by (vm_compute; reflexivity).
  reflexivity.
Qed.

(** X9.  The sentiment is computed in doubles.  Whatever double the
    polarity model returns, a nan and the infinities included, the
    satisfaction score is a decimal from 1.0 to 10.0 and the label is one
    of the three; the score agrees with the label: at least 5.5 for
    "positive", at most 4.5 for "negative", from 4.5 to 5.5 for "neutral"
    unless the polarity is a nan.  A polarity that is a nan gives the
    label "neutral" with the score 10.0, and the nan itself as
    [sentiment_polarity].  An empty transcript and a failure of the model
    both give the neutral record with score 5.0. *)
Theorem sentiment_score_and_label (text : string) :
  let s := _analyze_sentiment text in
  (sentiment_label s = "positive" \/ sentiment_label s = "negative" \/
   sentiment_label s = "neutral") /\
  (exists q,
     customer_satisfaction_score s = Binary64.Decimal q /\
     (1 <= q <= 10)%Q /\
     (sentiment_label s = "positive" -> (55 # 10 <= q)%Q) /\
     (sentiment_label s = "negative" -> (q <= 45 # 10)%Q) /\
     (sentiment_label s = "neutral" ->
      (forall polarity subjectivity,
         textblob_sentiment text = Ok (polarity, subjectivity) ->
         Prim2SF polarity <> S754_nan) ->
      (45 # 10 <= q <= 55 # 10)%Q)) /\
  (text = "" -> s = neutral_sentiment) /\
  (forall e, textblob_sentiment text = Raise e -> s = neutral_sentiment) /\
  (forall polarity subjectivity,
     text <> "" ->
     textblob_sentiment text = Ok (polarity, subjectivity) ->
     Prim2SF polarity = S754_nan ->
     sentiment_label s = "neutral" /\
     customer_satisfaction_score s = Binary64.Decimal 10 /\
     sentiment_polarity s = Binary64.NotFinite polarity).
Proof.
  cbn zeta. unfold _analyze_sentiment.
  assert (exists q,
            Binary64.Decimal 5 = Binary64.Decimal q /\
            (1 <= q <= 10)%Q /\
            ("neutral" = "positive" -> (55 # 10 <= q)%Q) /\
            ("neutral" = "negative" -> (q <= 45 # 10)%Q) /\
            ("neutral" = "neutral" ->
             (forall polarity subjectivity,
                textblob_sentiment text = Ok (polarity, subjectivity) ->
                Prim2SF polarity <> S754_nan) ->
             (45 # 10 <= q <= 55 # 10)%Q)) as Hneutral.
  { exists 5%Q. split; [reflexivity|]. split; [split; discriminate|].
    split; [discriminate|]. split; [discriminate|]. intros _ _.
    split; discriminate. }
  destruct (String.eqb_spec text "") as [->|Hne].
  { cbn [try_except sentiment_label customer_satisfaction_score neutral_sentiment].
    split; [right; right; reflexivity|]. split; [exact Hneutral|].
    split; [reflexivity|]. split; [reflexivity|].
    intros p sub Hc. now destruct Hc. }
  destruct (textblob_sentiment text) as [[polarity subjectivity]|e] eqn:Etb.
  2:{ cbn [bind try_except sentiment_label customer_satisfaction_score
           neutral_sentiment].
      split; [right; right; reflexivity|]. split; [exact Hneutral|].
      split; [reflexivity|]. split; [reflexivity|]. discriminate. }
  clear Hneutral.
  cbn [bind try_except fst snd customer_satisfaction_score sentiment_label
       sentiment_polarity].
  change (Binary64.max2 (Binary64.of_Z 1)
            (Binary64.min2 (Binary64.of_Z 10)
               (PrimFloat.add (Binary64.of_Z 5)
                  (PrimFloat.mul polarity (Binary64.of_Z 5)))))
    with (raw_score polarity).
  destruct (clamp_value (PrimFloat.add (Binary64.of_Z 5)
                           (PrimFloat.mul polarity (Binary64.of_Z 5))))
    as (q & Hq & Hlo & Hhi).
  change (Binary64.max2 (Binary64.of_Z 1)
            (Binary64.min2 (Binary64.of_Z 10)
               (PrimFloat.add (Binary64.of_Z 5)
                  (PrimFloat.mul polarity (Binary64.of_Z 5)))))
    with (raw_score polarity) in Hq.
  assert (Binary64.round_float (raw_score polarity) 1
          = Binary64.Decimal (round q 1)) as Hscore
    by (unfold Binary64.round_float; now rewrite Hq).
  assert (1 <= round q 1 <= 10)%Q as Hrange.
  { split.
    - apply Qle_trans with (y := Qmake 10 (Z.to_pos (10 ^ Z.of_nat 1)));
        [easy|apply round_ge;
         change (Z.to_pos (10 ^ Z.of_nat 1)) with 10%positive; lra].
    - apply Qle_trans with (y := Qmake 100 (Z.to_pos (10 ^ Z.of_nat 1)));
        [apply round_le;
         change (Z.to_pos (10 ^ Z.of_nat 1)) with 10%positive; lra|easy]. }
  pose proof (round_ge q 1 55) as R55g. pose proof (round_le q 1 55) as R55l.
  pose proof (round_ge q 1 45) as R45g. pose proof (round_le q 1 45) as R45l.
  change (Z.to_pos (10 ^ Z.of_nat 1)) with 10%positive in *.
  split.
  { destruct (PrimFloat.ltb _ polarity); [now left|].
    destruct (PrimFloat.ltb polarity _); [right; now left|right; now right]. }
  split.
  { exists (round q 1). split; [exact Hscore|]. split; [exact Hrange|].
    destruct (PrimFloat.ltb (Binary64.literal 1 10) polarity) eqn:Epos.
    - destruct (score_positive polarity Epos) as (q' & Hq' & Hb).
      rewrite Hq in Hq'. injection Hq' as <-.
      split; [intros _; apply R55g; lra|].
      split; [discriminate|discriminate].
    - destruct (PrimFloat.ltb polarity (PrimFloat.opp (Binary64.literal 1 10)))
        eqn:Eneg.
      + destruct (score_negative polarity Eneg) as (q' & Hq' & Hb).
        rewrite Hq in Hq'. injection Hq' as <-.
        split; [discriminate|]. split; [intros _; apply R45l; lra|discriminate].
      + split; [discriminate|]. split; [discriminate|].
        intros _ Hnan. specialize (Hnan polarity subjectivity eq_refl).
        destruct (score_neutral polarity Epos Eneg Hnan) as (q' & Hq' & Hb1 & Hb2).
        rewrite Hq in Hq'. injection Hq' as <-.
        split; [apply R45g; lra|apply R55l; lra]. }
  split; [intros ->; contradiction|]. split; [discriminate|].
  intros p sub _ [= <- <-] Hnan.
  rewrite (FloatAxioms.ltb_spec _ polarity), (FloatAxioms.ltb_spec polarity).
  rewrite Hnan.
  assert (Prim2SF (PrimFloat.add (Binary64.of_Z 5)
                     (PrimFloat.mul polarity (Binary64.of_Z 5))) = S754_nan) as Hs.
  { rewrite add_five, mul_five, Hnan. reflexivity. }
  unfold raw_score, clamp. rewrite (clamp_nan _ Hs).
  split.
  { destruct (Prim2SF (Binary64.literal 1 10)); reflexivity. }
  split; [vm_compute; reflexivity|].
  unfold Binary64.round_float, Binary64.to_Q. now rewrite Hnan.
Qed.

End SentimentFacts.

Section TemporalFacts.

Context `{RT : Runtime}.

Lemma replace_char_app (c : ascii) (by_ s1 s2 : string) :
  replace_char c by_ (s1 ++ s2) = replace_char c by_ s1 ++ replace_char c by_ s2.
Proof.
  induction s1 as [|a s1 IH]; cbn [append replace_char]; [reflexivity|].
  destruct (Ascii.eqb a c); rewrite IH; [now rewrite append_assoc|reflexivity].
Qed.

Lemma truthy_app (s x : string) : x <> "" -> truthy (JStr (s ++ x)) = true.
Proof.
  intros Hx. cbn [truthy]. apply negb_true_iff, String.eqb_neq.
  destruct s; cbn [append]; [exact Hx|discriminate].
Qed.

(** X10.  A timestamp written with the suffix [Z] and the same timestamp
    written with the offset [+00:00] give the same temporal features:
    every [Z] of the text is replaced before the parser sees it. *)
Theorem utc_suffix_is_offset (s : string) :
  _extract_temporal_features (JStr (s ++ "Z"))
  = _extract_temporal_features (JStr (s ++ "+00:00")) /\
  replace_Z (JStr (s ++ "Z")) = Ok (replace_char "Z" "+00:00" s ++ "+00:00").
Proof.
  assert (replace_char "Z" "+00:00" (s ++ "Z")
          = replace_char "Z" "+00:00" (s ++ "+00:00")) as Hr
    by (rewrite !replace_char_app; reflexivity).
  split.
  - unfold _extract_temporal_features.
    rewrite !truthy_app by discriminate. cbn [negb replace_Z bind].
    now rewrite Hr.
  - cbn [replace_Z]. now rewrite replace_char_app.
Qed.

(** X11.  When the months of the parsed timestamps are 1 to 12, the
    quarter label is one of Q1 to Q4, also for the sentinel; and the
    business-hours flag always tells whether the hour emitted is between
    9 and 17. *)
Theorem quarter_and_business_hours (created_at : json) :
  (forall s dt, fromisoformat s = Ok dt -> 1 <= dt_month dt <= 12) ->
  let f := _extract_temporal_features created_at in
  In (call_quarter f) ["Q1"; "Q2"; "Q3"; "Q4"] /\
  is_business_hours f = (9 <=? call_hour f) && (call_hour f <=? 17).
Proof.
  intros Hmonth. cbn zeta. unfold _extract_temporal_features.
  destruct (truthy created_at); cbn [negb];
    [|cbn; split; [now left|reflexivity]].
  destruct (replace_Z created_at) as [s|]; cbn [bind try_except];
    [|cbn; split; [now left|reflexivity]].
  destruct (fromisoformat s) as [dt|] eqn:E; cbn [bind try_except];
    [|cbn; split; [now left|reflexivity]].
  cbn [call_quarter is_business_hours call_hour]. split; [|reflexivity].
  specialize (Hmonth s dt E). revert Hmonth. generalize (dt_month dt).
  each_between between_cases; cbn; tauto.
Qed.

End TemporalFacts.

Lemma sample_months :
  forall s dt, Sample.parse_iso s = Ok dt -> 1 <= Sample.month dt <= 12.
Proof.
  intros s dt. unfold Sample.parse_iso, Sample.checked.
  repeat match goal with
         | |- context [match ?x with _ => _ end] =>
             lazymatch x with
             | Sample.valid _ => fail
             | _ => destruct x; try discriminate
             end
         | |- context [if ?x then _ else _] =>
             lazymatch x with
             | Sample.valid _ => fail
             | _ => destruct x; try discriminate
             end
         end.
  all: match goal with
       | |- context [Sample.valid ?t] => destruct (Sample.valid t) eqn:Ev
       end; [|discriminate].
  all: intros [= <-]; unfold Sample.valid in Ev; cbn in Ev;
       repeat (apply andb_prop in Ev as [Ev ?]);
       repeat match goal with
              | H : (_ <=? _) = true |- _ => apply Z.leb_le in H
              end;
       cbn [Sample.month]; lia.
Qed.

Lemma quarter_and_business_hours_witness :
  call_quarter
    (_extract_temporal_features (RT := Sample.runtime [])
       (JStr "2025-11-03T18:20:00Z")) = "Q4" /\
  is_business_hours
    (_extract_temporal_features (RT := Sample.runtime [])
       (JStr "2025-11-03T18:20:00Z")) = false.
Proof.
  pose proof (@quarter_and_business_hours (Sample.runtime [])
                (JStr "2025-11-03T18:20:00Z") sample_months) as H.
  cbn zeta in H. destruct H as [_ Hb].
  split; [reflexivity|]. rewrite Hb. reflexivity.
Defined.

Section TextFeatures.

(** X12.  The text features do not depend on the case of the letters:
    lower-casing the transcript beforehand changes none of them. *)
Theorem text_features_ignore_case (text : string) (conversation : CallDetails) :
  _classify_topics (lower text) = _classify_topics text /\
  _assess_call_quality (lower text) conversation
  = _assess_call_quality text conversation /\
  _analyze_script_adherence (lower text) = _analyze_script_adherence text /\
  _analyze_customer_experience (lower text) = _analyze_customer_experience text /\
  _classify_call_outcome (lower text) = _classify_call_outcome text /\
  _classify_urgency (lower text) = _classify_urgency text /\
  _classify_conversation_type (lower text) = _classify_conversation_type text.
Proof.
  unfold _classify_topics, _assess_call_quality, _analyze_script_adherence,
    _analyze_customer_experience, _classify_call_outcome, _classify_urgency,
    _classify_conversation_type.
  rewrite !lower_idem. repeat split.
Qed.

(** X13.  The quality score is never below 2.2, so that the floor of 1.0 is
    never reached, and never above 10. *)
Theorem call_quality_score_range (text : string) (conversation : CallDetails) :
  (22 # 10 <= call_quality_score (_assess_call_quality text conversation) <= 10)%Q.
Proof.
  unfold _assess_call_quality. cbn [call_quality_score].
  pose proof (count_in_bounds positive_indicators (lower text)) as Hp.
  pose proof (count_in_bounds negative_indicators (lower text)) as Hn.
  change (len positive_indicators) with 10 in Hp.
  change (len negative_indicators) with 9 in Hn.
  generalize (duration_seconds conversation). intros d.
  destruct ((120 <=? d) && (d <=? 600)); [|destruct (900 <? d)].
  all: generalize dependent (count_in negative_indicators (lower text)).
  all: generalize dependent (count_in positive_indicators (lower text)).
  all: each_between between_cases; each_between between_cases; closed_Q.
Qed.

Lemma count_in_member (pats : list string) (p s : string) :
  In p pats -> occurs p s = true -> 1 <= count_in pats s.
Proof.
  intros Hin Hp. unfold count_in. rewrite sum_ones. unfold len.
  assert (In p (filter (fun p => occurs p s) pats)) as Hf
    by (apply filter_In; now split).
  destruct (filter _ pats); [contradiction|]. cbn [List.length]. lia.
Qed.

(** X14.  Phrases are looked for as substrings, so a word that holds a
    marker counts as the marker: a transcript with "unresolved" has the
    outcome "resolved". *)
Theorem unresolved_is_resolved (text : string) :
  occurs "unresolved" (lower text) = true ->
  _classify_call_outcome text = "resolved".
Proof.
  intros H. unfold _classify_call_outcome.
  rewrite (any_in_true resolved_words "resolved" (lower text)); [reflexivity| |].
  - now left.
  - exact (occurs_trans "resolved" "unresolved" _ eq_refl H).
Qed.

(** X15.  The four indicator counts lie within the sizes of their lists,
    so the two net scores lie in [-10,10] and [-8,8]; and since
    "dissatisfied" holds "satisfied" and "unhappy" holds "happy", a
    transcript with one of them counts a satisfaction indicator as well
    as a dissatisfaction indicator. *)
Theorem experience_counts (text : string) :
  let x := _analyze_customer_experience text in
  0 <= customer_satisfaction_indicators x <= 10 /\
  0 <= customer_dissatisfaction_indicators x <= 10 /\
  0 <= low_effort_indicators x <= 8 /\
  0 <= high_effort_indicators x <= 8 /\
  -10 <= net_satisfaction_score x <= 10 /\
  -8 <= net_effort_score x <= 8 /\
  (occurs "dissatisfied" (lower text) = true \/
   occurs "unhappy" (lower text) = true ->
   1 <= customer_satisfaction_indicators x /\
   1 <= customer_dissatisfaction_indicators x).
Proof.
  cbn zeta. unfold _analyze_customer_experience.
  cbn [customer_satisfaction_indicators customer_dissatisfaction_indicators
       low_effort_indicators high_effort_indicators net_satisfaction_score
       net_effort_score].
  pose proof (count_in_bounds satisfaction_indicators (lower text)) as H1.
  pose proof (count_in_bounds dissatisfaction_indicators (lower text)) as H2.
  pose proof (count_in_bounds effort_indicators (lower text)) as H3.
  pose proof (count_in_bounds difficulty_indicators (lower text)) as H4.
  change (len satisfaction_indicators) with 10 in H1.
  change (len dissatisfaction_indicators) with 10 in H2.
  change (len effort_indicators) with 8 in H3.
  change (len difficulty_indicators) with 8 in H4.
  repeat (split; [lia|]).
  intros [H|H]; split.
  - apply (count_in_member satisfaction_indicators "satisfied");
      [now left|exact (occurs_trans "satisfied" "dissatisfied" _ eq_refl H)].
  - apply (count_in_member dissatisfaction_indicators "dissatisfied");
      [now left|exact H].
  - apply (count_in_member satisfaction_indicators "happy");
      [right; now left|exact (occurs_trans "happy" "unhappy" _ eq_refl H)].
  - apply (count_in_member dissatisfaction_indicators "unhappy");
      [right; now left|exact H].
Qed.

(** X16.  The greeting "thank you for calling" holds the closing marker
    "thank you": a transcript with it follows at least two of the six
    script elements, and its adherence rate is at least 0.333. *)
Theorem greeting_counts_as_closing (text : string) :
  occurs "thank you for calling" (lower text) = true ->
  2 <= script_elements_followed (_analyze_script_adherence text) /\
  (333 # 1000 <= script_adherence_rate (_analyze_script_adherence text))%Q.
Proof.
  intros H.
  assert (occurs "thank you" (lower text) = true) as Hc
    by exact (occurs_trans "thank you" "thank you for calling" _ eq_refl H).
  pose proof (followed_elements_count text) as Hk.
  assert (2 <= Spec.followed_count text <= 6) as Hb.
  { split; [|apply (len_filter_le _ script_elements)].
    unfold Spec.followed_count, script_elements. cbn [filter snd].
    rewrite (any_in_true
               ["thank you for calling"; "feel good spas"; "how can i help";
                "this is"]
               "thank you for calling" (lower text) (or_introl eq_refl) H).
    rewrite (any_in_true ["thank you"; "have a great"; "wonderful day"; "goodbye"]
               "thank you" (lower text) (or_introl eq_refl) Hc).
    repeat match goal with
           | |- context [if any_in ?l ?t then _ else _] => destruct (any_in l t)
           end; unfold len; cbn [List.length]; lia. }
  split; [rewrite Hk; lia|].
  unfold _analyze_script_adherence in *.
  cbn [script_elements_followed script_adherence_rate] in *.
  rewrite Hk. clear Hk. change (len script_elements) with 6.
  generalize dependent (Spec.followed_count text).
  each_between between_cases; closed_Q.
Qed.

(** X17.  In the role resolution the test for "feelgoodspas" adds nothing
    to the test for "spa": for a party whose name and email are strings
    or absent, the role is "agent" exactly when the name holds an
    indicator or the email holds "spa". *)
Theorem party_role_spa_suffices (d : list (string * json)) (nm em : string) :
  get (JDict d) "name" (JStr "") = Ok (JStr nm) ->
  get (JDict d) "email" (JStr "") = Ok (JStr em) ->
  _determine_party_role (JDict d)
  = Ok (if any_in agent_indicators (lower nm) || occurs "spa" (lower em)
        then "agent" else "customer").
Proof.
  intros Hn He. unfold _determine_party_role. rewrite Hn, He.
  cbn [bind str_lower].
  destruct (any_in agent_indicators (lower nm)); [reflexivity|]. cbn [orb].
  destruct (occurs "feelgoodspas" (lower em)) eqn:Eb; cbn [orb].
  - now rewrite (occurs_trans "spa" "feelgoodspas" _ eq_refl Eb).
  - now destruct (occurs "spa" (lower em)).
Qed.

End TextFeatures.

Lemma unresolved_is_resolved_witness :
  _classify_call_outcome "The issue is still unresolved, I will hang up"
  = "resolved".
Proof.
  apply (unresolved_is_resolved "The issue is still unresolved, I will hang up").
  reflexivity.
Defined.

Lemma greeting_counts_as_closing_witness :
  2 <= script_elements_followed
         (_analyze_script_adherence "Thank you for calling, please hold").
Proof.
  exact (proj1 (greeting_counts_as_closing "Thank you for calling, please hold"
                  eq_refl)).
Defined.

Lemma party_role_spa_suffices_witness :
  _determine_party_role
    (JDict [("name", JStr "Ann"); ("email", JStr "ann@FeelGoodSpas.com")])
  = Ok "agent".
Proof.
  exact (party_role_spa_suffices
           [("name", JStr "Ann"); ("email", JStr "ann@FeelGoodSpas.com")]
           "Ann" "ann@FeelGoodSpas.com" eq_refl eq_refl).
Defined.

(* ================================================================== *)
(** * Further facts: the batch and the export *)
(* ================================================================== *)

Section BatchFacts.

Context `{RT : Runtime}.

Lemma enrich_all_acc (business_data : list CallDetails)
    (acc : list EnrichedRecord) :
  enrich_all business_data acc
  = (rs <- enrich_all business_data [] ;; Ok (acc ++ rs)%list).
Proof.
  revert acc. induction business_data as [|c cs IH]; intros acc.
  - cbn. now rewrite app_nil_r.
  - cbn [enrich_all]. destruct (_enrich_conversation_data c) as [r|e];
      [cbn [bind]|reflexivity].
    rewrite (IH (acc ++ [r])%list), (IH ([] ++ [r])%list).
    destruct (enrich_all cs []) as [rs|e]; [cbn [bind]|reflexivity].
    now rewrite <- app_assoc.
Qed.

(** What [process_file] does to the state, in terms of [file_records]. *)
Lemma process_file_records (st : State) (file_path : string) :
  match file_records file_path with
  | Ok rs =>
      exists st',
        process_file st file_path = Ok st' /\
        processed_data st' = (processed_data st ++ rs)%list /\
        processed_files st'
        = (processed_files st ++ (if loads file_path then [file_path] else []))%list
  | Raise e => process_file st file_path = Raise e
  end.
Proof.
  unfold file_records, process_file, load_vcon_file, loads.
  destruct (json_load file_path) as [data|e].
  - cbn [emit conversations parsed_data processed_data processed_files log].
    rewrite (enrich_all_acc _ (processed_data st)).
    destruct (enrich_all _ []) as [rs|e]; cbn [bind]; [|reflexivity].
    eexists. split; [reflexivity|]. cbn. split; reflexivity.
  - destruct e; cbn; eexists; (split; [reflexivity|]); cbn;
      now rewrite !app_nil_r.
Qed.

Lemma process_files_records (files : list string) (st : State) :
  match mapM file_records files with
  | Ok rss =>
      exists st',
        process_files files st = Ok st' /\
        processed_data st' = (processed_data st ++ List.concat rss)%list /\
        processed_files st' = (processed_files st ++ filter loads files)%list
  | Raise e => process_files files st = Raise e
  end.
Proof.
  revert st. induction files as [|f fs IH]; intros st.
  - cbn. exists st. now rewrite !app_nil_r.
  - cbn [mapM process_files filter].
    pose proof (process_file_records st f) as Hf.
    destruct (file_records f) as [rs|e]; cbn [bind].
    + destruct Hf as (st1 & -> & Hd & Hp). cbn [bind].
      specialize (IH st1).
      destruct (mapM file_records fs) as [rss|e]; cbn [bind].
      * destruct IH as (st' & -> & Hd' & Hp'). exists st'.
        split; [reflexivity|]. rewrite Hd', Hp', Hd, Hp. cbn [List.concat].
        destruct (loads f); cbn [app]; rewrite <- !app_assoc; now split.
      * exact IH.
    + now rewrite Hf.
Qed.

Lemma process_files_app (a b : list string) (st : State) :
  process_files (a ++ b) st = (st' <- process_files a st ;; process_files b st').
Proof.
  revert st. induction a as [|f a IH]; intros st; [reflexivity|].
  cbn [app process_files]. destruct (process_file st f); cbn [bind]; auto.
Qed.

Lemma process_patterns_files (patterns : list string) (st : State) :
  process_patterns patterns st = process_files (flat_map expand patterns) st.
Proof.
  revert st. induction patterns as [|p ps IH]; intros st; [reflexivity|].
  cbn [process_patterns flat_map]. rewrite process_files_app.
  destruct (process_files (expand p) st); cbn [bind]; auto.
Qed.

Lemma process_vcon_files_records (patterns : list string) (st : State) :
  let files := flat_map expand patterns in
  match mapM file_records files with
  | Ok rss =>
      exists st',
        process_vcon_files patterns st
        = Ok (0 <? len (filter loads files), st') /\
        processed_data st' = (processed_data st ++ List.concat rss)%list /\
        processed_files st' = filter loads files
  | Raise e => process_vcon_files patterns st = Raise e
  end.
Proof.
  cbn zeta. unfold process_vcon_files. rewrite process_patterns_files.
  match goal with
  | |- context [process_files ?fs ?s0] =>
      pose proof (process_files_records fs s0) as H
  end.
  destruct (mapM file_records _) as [rss|e].
  - destruct H as (st' & -> & Hd & Hp). cbn [bind].
    cbn [processed_data processed_files app] in Hd, Hp.
    eexists. split; [|split].
    + cbn [emit processed_files]. rewrite Hp. reflexivity.
    + cbn [emit processed_data]. exact Hd.
    + cbn [emit processed_files]. exact Hp.
  - now rewrite H.
Qed.

Lemma loaded_some (files : list string) :
  (0 <? len (filter loads files)) = existsb loads files.
Proof.
  unfold len. induction files as [|f fs IH]; [reflexivity|].
  cbn [filter existsb]. destruct (loads f); [reflexivity|exact IH].
Qed.

(** X18.  [process_vcon_files] appends to the records already held the
    records of every file of every pattern, in order, a file that cannot
    be loaded adding nothing; it returns True exactly when some file was
    loaded; and it raises exactly when the enrichment of some file does. *)
Theorem dataset_is_concatenation (patterns : list string) (st : State) :
  let files := flat_map expand patterns in
  match mapM file_records files with
  | Ok rss =>
      exists st',
        process_vcon_files patterns st
        = Ok (existsb loads files, st') /\
        processed_data st' = (processed_data st ++ List.concat rss)%list /\
        processed_files st' = filter loads files
  | Raise e => process_vcon_files patterns st = Raise e
  end.
Proof.
  cbn zeta. pose proof (process_vcon_files_records patterns st) as H.
  cbn zeta in H. destruct (mapM file_records _); [|exact H].
  destruct H as (st' & H & Hd & Hp). exists st'. split; [|now split].
  rewrite H. now rewrite loaded_some.
Qed.

Lemma mapM_app {A B} (f : A -> pyres B) (a b : list A) (ra rb : list B) :
  mapM f a = Ok ra -> mapM f b = Ok rb -> mapM f (a ++ b) = Ok (ra ++ rb)%list.
Proof.
  revert ra. induction a as [|x a IH]; intros ra Ha Hb.
  - now injection Ha as <-.
  - cbn [mapM app] in *. destruct (f x); [|discriminate]. cbn [bind] in *.
    destruct (mapM f a) as [r|]; [|discriminate]. injection Ha as <-.
    now rewrite (IH r eq_refl Hb).
Qed.

(** X19.  A file that is reached twice, by name and again by a pattern, is
    processed twice: its records are in the dataset twice. *)
Theorem repeated_patterns_duplicate_records
    (patterns : list string) (rss : list (list EnrichedRecord)) :
  mapM file_records (flat_map expand patterns) = Ok rss ->
  exists ok st,
    process_vcon_files (patterns ++ patterns) init = Ok (ok, st) /\
    processed_data st = (List.concat rss ++ List.concat rss)%list.
Proof.
  intros H.
  pose proof (process_vcon_files_records (patterns ++ patterns) init) as Hp.
  cbn zeta in Hp. rewrite flat_map_app in Hp.
  rewrite (mapM_app _ _ _ _ _ H H) in Hp.
  destruct Hp as (st & Hrun & Hd & _). do 2 eexists. split; [exact Hrun|].
  rewrite Hd. cbn [processed_data init app]. now rewrite concat_app.
Qed.

(** X20.  When some file loads and no file holds a conversation that
    parses, [process_vcon_files] returns True with no record, and the run
    then stops at the export, which refuses an empty dataset. *)
Theorem loaded_without_records
    (patterns : list string) (output_file : string)
    (rss : list (list EnrichedRecord)) :
  mapM file_records (flat_map expand patterns) = Ok rss ->
  List.concat rss = [] ->
  existsb loads (flat_map expand patterns) = true ->
  (exists st, process_vcon_files patterns init = Ok (true, st) /\
              processed_data st = []) /\
  run patterns output_file = Ok ExportFailed.
Proof.
  intros H Hnil Hload.
  pose proof (process_vcon_files_records patterns init) as Hp.
  cbn zeta in Hp. rewrite H in Hp. destruct Hp as (st & Hrun & Hd & Hf).
  cbn [processed_data init app] in Hd. rewrite Hnil in Hd.
  rewrite loaded_some, Hload in Hrun. split; [now exists st|].
  unfold run. rewrite Hrun. cbn [bind]. unfold export_to_csv. now rewrite Hd.
Qed.

End BatchFacts.

Lemma repeated_patterns_duplicate_records_witness :
  exists ok st r,
    process_vcon_files (RT := Sample.runtime batch_files)
      (["a.json"] ++ ["a.json"]) init = Ok (ok, st) /\
    processed_data st = [r; r].
Proof.
  assert (exists r, mapM (file_records (RT := Sample.runtime batch_files))
                      (flat_map (expand (RT := Sample.runtime batch_files))
                         ["a.json"]) = Ok [[r]]) as [r Hr]
    by (eexists; vm_compute; reflexivity).
  destruct (@repeated_patterns_duplicate_records (Sample.runtime batch_files)
              ["a.json"] [[r]] Hr) as (ok & st & Hrun & Hd).
  exists ok, st, r. split; [exact Hrun|exact Hd].
Defined.

Lemma loaded_without_records_witness :
  run (RT := Sample.runtime empty_files) ["none.json"; "numbers.json"] "out.csv"
  = Ok ExportFailed.
Proof.
  apply (@loaded_without_records (Sample.runtime empty_files)
           ["none.json"; "numbers.json"] "out.csv" [[]; []]);
    reflexivity.
Defined.

Section ColumnFacts.

Import Columns.

Lemma mem_In (c : string) (cols : list string) : mem c cols = true <-> In c cols.
Proof.
  unfold mem. rewrite existsb_exists. split.
  - intros (x & Hx & E). apply String.eqb_eq in E. now subst.
  - intros H. exists c. split; [exact H|apply String.eqb_refl].
Qed.

Lemma distinct_NoDup (l : list string) : distinct l = true -> NoDup l.
Proof.
  induction l as [|x l IH]; cbn [distinct]; intros H; [constructor|].
  apply andb_prop in H as [Hx Hl]. constructor; [|now apply IH].
  intros Hin. apply mem_In in Hin. rewrite Hin in Hx. discriminate.
Qed.

Lemma filter_partition {A} (f : A -> bool) (l : list A) :
  Permutation l (filter f l ++ filter (fun x => negb (f x)) l).
Proof.
  induction l as [|x l IH]; [constructor|]. cbn [filter].
  destruct (f x); cbn [negb app].
  - now constructor.
  - now apply Permutation_cons_app.
Qed.

Lemma filter_all {A} (f : A -> bool) (l : list A) :
  (forall x, In x l -> f x = true) -> filter f l = l.
Proof.
  induction l as [|x l IH]; intros H; [reflexivity|]. cbn [filter].
  rewrite (H x (or_introl eq_refl)). f_equal. apply IH. intros y Hy.
  apply H. now right.
Qed.

Lemma filter_none {A} (f : A -> bool) (l : list A) :
  (forall x, In x l -> f x = false) -> filter f l = [].
Proof.
  induction l as [|x l IH]; intros H; [reflexivity|]. cbn [filter].
  rewrite (H x (or_introl eq_refl)). apply IH. intros y Hy. apply H. now right.
Qed.

(** X21.  The column selection of the export loses and invents no column:
    for distinct columns the result is a rearrangement of them, that
    starts with the priority columns present, in the priority order,
    followed by the other columns in their own order; selecting again
    changes nothing; and when every priority column is present the
    header starts with the whole priority list. *)
Theorem final_columns_rearranges (cols : list string) :
  NoDup cols ->
  Permutation (final_columns cols) cols /\
  NoDup (final_columns cols) /\
  (exists rest,
     final_columns cols = (filter (fun c => mem c cols) column_order ++ rest)%list /\
     rest = filter (fun c => negb (mem c column_order)) cols /\
     forall c, In c rest -> ~ In c column_order) /\
  final_columns (final_columns cols) = final_columns cols /\
  (incl column_order cols ->
   exists rest, final_columns cols = (column_order ++ rest)%list).
Proof.
  intros Hnd.
  assert (NoDup column_order) as Hord
    by (apply distinct_NoDup; vm_compute; reflexivity).
  unfold final_columns.
  remember column_order as order eqn:Eorder. clear Eorder.
  set (chosen := (filter (fun c => mem c cols) order
                  ++ filter (fun c => negb (mem c order)) cols)%list).
  assert (Permutation chosen cols) as Hperm.
  { subst chosen. symmetry.
    apply (Permutation_trans (filter_partition (fun c => mem c order) cols)).
    apply Permutation_app_tail. apply NoDup_Permutation.
    - apply NoDup_filter. exact Hnd.
    - apply NoDup_filter. exact Hord.
    - intros x. rewrite !filter_In, !mem_In. tauto. }
  split; [exact Hperm|].
  split; [exact (Permutation_NoDup (Permutation_sym Hperm) Hnd)|].
  split.
  { eexists. split; [reflexivity|]. split; [reflexivity|].
    intros c Hc. apply filter_In in Hc as [_ Hc].
    apply negb_true_iff in Hc. intros Hin. apply mem_In in Hin. congruence. }
  split.
  { assert (filter (fun col => mem col chosen) order
            = filter (fun col => mem col cols) order) as E1.
    { apply filter_ext. intros c.
      destruct (mem c cols) eqn:E.
      - apply mem_In. apply (Permutation_in _ (Permutation_sym Hperm)).
        apply mem_In. exact E.
      - destruct (mem c chosen) eqn:E'; [|reflexivity].
        apply mem_In in E'. apply (Permutation_in _ Hperm) in E'.
        apply mem_In in E'. congruence. }
    assert (filter (fun col => negb (mem col order)) chosen
            = filter (fun col => negb (mem col order)) cols) as E2.
    { subst chosen. rewrite filter_app.
      rewrite (filter_none (fun c => negb (mem c order))
                 (filter (fun c => mem c cols) order)).
      - cbn [app]. apply filter_all. intros x Hx.
        apply filter_In in Hx as [_ Hx]. exact Hx.
      - intros x Hx. apply filter_In in Hx as [Hx _].
        apply negb_false_iff. apply mem_In. exact Hx. }
    rewrite E1, E2. reflexivity. }
  intros Hincl. eexists. subst chosen. f_equal.
  apply filter_all. intros x Hx. apply mem_In. apply Hincl. exact Hx.
Qed.

End ColumnFacts.

Lemma final_columns_rearranges_witness :
  NoDup Columns.record_columns /\
  exists rest,
    Columns.final_columns Columns.record_columns
    = (Columns.column_order ++ rest)%list /\
    List.length rest = 19%nat.
Proof.
  assert (NoDup Columns.record_columns) as Hnd
    by (apply distinct_NoDup; vm_compute; reflexivity).
  split; [exact Hnd|].
  destruct (final_columns_rearranges Columns.record_columns Hnd)
    as (_ & _ & (rest & Hrest & Hfilter & _) & _ & _).
  exists rest. split.
  - exact Hrest.
  - rewrite Hfilter. vm_compute. reflexivity.
Defined.
